(** * GUFY: a verification development over a shallow embedding

    The Python sources of GUFY (a PyQt5 front end to the yt library) are
    embedded as Rocq definitions that keep the names of the source
    functions.  The development is organised by source module:

    - [PyStr]        the few [str] methods the sources rely on
    - [Utils]        simgui_modules/utils.py: [mean], [shuffleCoords]
    - [Threading]    simgui_modules/threading.py together with
                     [emitStatus] and [emitMultiStatus] of utils.py, the
                     plot routines of plots.py and the window of
                     plotWindow.py
    - [Loader]       GUFY.py: [testValidFile], [loadSeries]
    - [ConfigureGUI] simgui_modules/configureGUI.py
    - [ScriptWriter] simgui_modules/scriptWriter.py: [writePlotToScript]

    Calls into yt, matplotlib and Qt are not part of the repository; they
    appear as library calls whose outcome (success or a raised exception)
    is supplied by an environment. *)

From Stdlib Require Import QArith Qcanon Qpower Ascii.
From Stdlib Require Import Floats.SpecFloat.
From stdpp Require Import gmap strings list pretty numbers sorting.

Open Scope string_scope.

(* ===================================================================== *)
(** ** Python strings *)
(* ===================================================================== *)

Module PyStr.

(** Characters are the 256 code points of Latin-1; every literal of the
    sources is ASCII. *)

Definition code (c : ascii) : nat := nat_of_ascii c.

(** [str.lower] on one character: A-Z, and the Latin-1 capitals
    U+00C0..U+00DE except the multiplication sign U+00D7. *)
Definition lower_char (c : ascii) : ascii :=
  let n := code c in
  if ((65 <=? n) && (n <=? 90))%nat then ascii_of_nat (n + 32)
  else if ((192 <=? n) && (n <=? 222) && negb (n =? 215))%nat
       then ascii_of_nat (n + 32)
  else c.

Fixpoint lower (s : string) : string :=
  match s with
  | EmptyString => EmptyString
  | String c s' => String (lower_char c) (lower s')
  end.

(** [c.isspace()] for a Latin-1 code point. *)
Definition isspace_char (c : ascii) : bool :=
  let n := code c in
  (((9 <=? n) && (n <=? 13)) || ((28 <=? n) && (n <=? 32))
   || (n =? 133) || (n =? 160))%nat.

(** [s.isspace()]: at least one character, and all of them whitespace. *)
Fixpoint all_space (s : string) : bool :=
  match s with
  | EmptyString => true
  | String c s' => isspace_char c && all_space s'
  end.

Definition isspace (s : string) : bool :=
  match s with
  | EmptyString => false
  | _ => all_space s
  end.

(** [s.startswith(p)] *)
Fixpoint startswith (p s : string) : bool :=
  match p, s with
  | EmptyString, _ => true
  | String a p', String b s' => bool_decide (a = b) && startswith p' s'
  | String _ _, EmptyString => false
  end.

(** [s[n:]] *)
Fixpoint slice_from (n : nat) (s : string) : string :=
  match n, s with
  | O, _ => s
  | S n', String _ s' => slice_from n' s'
  | S _, EmptyString => EmptyString
  end.

(** [s.endswith(p)] *)
Definition endswith (p s : string) : bool :=
  (String.length p <=? String.length s)%nat
  && bool_decide (slice_from (String.length s - String.length p) s = p).

(** [p in s] *)
Fixpoint contains (p s : string) : bool :=
  startswith p s ||
  match s with
  | EmptyString => false
  | String _ s' => contains p s'
  end.

(** [s.partition(sep)] restricted to the case where [sep] occurs: the text
    before the first occurrence of [sep] and the text after it. *)
Fixpoint partition (sep s : string) : option (string * string) :=
  if startswith sep s then Some (EmptyString, slice_from (String.length sep) s)
  else match s with
       | EmptyString => None
       | String c s' =>
           match partition sep s' with
           | Some (a, b) => Some (String c a, b)
           | None => None
           end
       end.

(** [s.split(sep)] for a non-empty [sep].  Every round removes one
    occurrence of [sep], so [length s] rounds are enough. *)
Fixpoint split_fuel (n : nat) (sep s : string) : list string :=
  match n with
  | O => [s]
  | S n' =>
      match partition sep s with
      | None => [s]
      | Some (a, b) => a :: split_fuel n' sep b
      end
  end.

Definition split (sep s : string) : list string :=
  split_fuel (String.length s) sep s.

(** [sep.join(l)] *)
Fixpoint join (sep : string) (l : list string) : string :=
  match l with
  | [] => EmptyString
  | [x] => x
  | x :: l' => x ++ sep ++ join sep l'
  end.

(** [s.lstrip()], [s.rstrip()], [s.strip()] *)
Fixpoint lstrip (s : string) : string :=
  match s with
  | EmptyString => EmptyString
  | String c s' => if isspace_char c then lstrip s' else s
  end.

Fixpoint rstrip (s : string) : string :=
  match s with
  | EmptyString => EmptyString
  | String c s' =>
      match rstrip s' with
      | EmptyString => if isspace_char c then EmptyString
                       else String c EmptyString
      | r => String c r
      end
  end.

Definition strip (s : string) : string := rstrip (lstrip s).

(** [s.rsplit(sep, 1)] when [sep] occurs: split at the last occurrence of
    the one-character separator. *)
Fixpoint rsplit1 (sep : ascii) (s : string) : option (string * string) :=
  match s with
  | EmptyString => None
  | String c s' =>
      match rsplit1 sep s' with
      | Some (a, b) => Some (String c a, b)
      | None => if bool_decide (c = sep) then Some (EmptyString, s') else None
      end
  end.

(** [str(n)] for a non-negative integer. *)
Definition str_nat (n : nat) : string := pretty n.

(** The double quote and the newline, as one-character strings. *)
Definition dq : string := String (ascii_of_nat 34) EmptyString.
Definition nl : string := String (ascii_of_nat 10) EmptyString.

End PyStr.

(* ===================================================================== *)
(** ** Logging and exceptions shared by the modules *)
(* ===================================================================== *)

(** The methods of [GUILogger] the sources call; [log n] is
    [GUILogger.log(n, ...)]. *)
Inductive LogCall :=
| debug | info | log (level : nat) | warning | error | exception | critical.

Definition LogEntry : Type := LogCall * string.

(** Exceptions that travel through a worker.  [WorkingException] carries
    [args[0]]: every raise site that a worker can reach passes one argument
    (the bare [raise WorkingException] of [calcExtrema] runs on the UI
    thread).  [OtherException name text] is any other subclass of
    [Exception], with [type(e).__name__] and [str(e)]. *)
Inductive exn :=
| WorkingException (arg : string)
| OtherException (name text : string).

#[global] Instance LogCall_eq_dec : EqDecision LogCall.
Proof. solve_decision. Defined.
#[global] Instance exn_eq_dec : EqDecision exn.
Proof. solve_decision. Defined.

(* ===================================================================== *)
(** ** simgui_modules/utils.py: pure helpers *)
(* ===================================================================== *)

Module Utils.

(** Numbers stored in the parameter dictionary are read as exact
    rationals. *)
Abbreviation num := Qc (only parsing).

(** Python numbers [mean] is applied to: [int], of any size, and [float],
    an IEEE 754 binary64 value. *)
Inductive number :=
| PInt (z : Z)
| PFloat (f : spec_float).

Definition prec : Z := 53.
Definition emax : Z := 1024.

Definition OverflowError (text : string) : exn :=
  OtherException "OverflowError" text.
Definition ZeroDivisionError (text : string) : exn :=
  OtherException "ZeroDivisionError" text.

(** [float(z)] for an [int]: the nearest binary64 value, ties to even;
    [OverflowError] when that is not finite. *)
Definition float_of_int (z : Z) : exn + spec_float :=
  match binary_normalize prec emax z 0 false with
  | S754_infinity _ => inl (OverflowError "int too large to convert to float")
  | f => inr f
  end.

(** [a + b] *)
Definition add (a b : number) : exn + number :=
  match a, b with
  | PInt x, PInt y => inr (PInt (x + y))
  | PInt x, PFloat g =>
      match float_of_int x with
      | inl e => inl e
      | inr f => inr (PFloat (SFadd prec emax f g))
      end
  | PFloat f, PInt y =>
      match float_of_int y with
      | inl e => inl e
      | inr g => inr (PFloat (SFadd prec emax f g))
      end
  | PFloat f, PFloat g => inr (PFloat (SFadd prec emax f g))
  end.

(** An [int] as a binary floating-point number of unbounded mantissa. *)
Definition exact_float (z : Z) : spec_float :=
  match z with
  | Z0 => S754_zero false
  | Zpos p => S754_finite false p 0
  | Zneg p => S754_finite true p 0
  end.

(** [a / b] for two [int]s: the binary64 value nearest to the exact
    quotient, ties to even. *)
Definition int_truediv (a b : Z) : exn + number :=
  if (b =? 0)%Z then inl (ZeroDivisionError "division by zero")
  else
    match SFdiv prec emax (exact_float a) (exact_float b) with
    | S754_infinity _ =>
        inl (OverflowError "integer division result too large for a float")
    | f => inr (PFloat f)
    end.

Definition is_zero (f : spec_float) : bool :=
  match f with S754_zero _ => true | _ => false end.

Definition float_truediv (f g : spec_float) : exn + number :=
  if is_zero g then inl (ZeroDivisionError "float division by zero")
  else inr (PFloat (SFdiv prec emax f g)).

(** [a / b] *)
Definition truediv (a b : number) : exn + number :=
  match a, b with
  | PInt x, PInt y => int_truediv x y
  | PInt x, PFloat g =>
      match float_of_int x with
      | inl e => inl e
      | inr f => float_truediv f g
      end
  | PFloat f, PInt y =>
      match float_of_int y with
      | inl e => inl e
      | inr g => float_truediv f g
      end
  | PFloat f, PFloat g => float_truediv f g
  end.

(** Python's built-in [sum]: the entries are added from left to right,
    starting from the [int] 0. *)
Fixpoint sum_from (acc : number) (xs : list number) : exn + number :=
  match xs with
  | [] => inr acc
  | x :: rest =>
      match add acc x with
      | inl e => inl e
      | inr acc' => sum_from acc' rest
      end
  end.

Definition sum (xs : list number) : exn + number := sum_from (PInt 0) xs.

Definition len {A} (xs : list A) : Z := Z.of_nat (length xs).

(** [def mean(xs)] *)
Definition mean (xs : list number) : exn + number :=
  if (len xs =? 0)%Z then inr (PInt 0)
  else
    match sum xs with
    | inl e => inl e
    | inr s => truediv s (PInt (len xs))
    end.

(** Values stored in the parameter dictionary. *)
Inductive value :=
| VNone
| VBool (b : bool)
| VNum (q : num)
| VStr (s : string).

#[global] Instance value_eq_dec : EqDecision value.
Proof.
  intros x y. unfold Decision.
  decide equality; apply (decide (_ = _)).
Defined.

(** [xs.append(xs.pop(0))]; [pop] on an empty list raises [IndexError]. *)
Definition pop0_append {A} (xs : list A) : option (list A) :=
  match xs with
  | [] => None
  | x :: rest => Some (rest ++ [x])%list
  end.

Definition starts : list string := ["XLStart"; "YLStart"; "ZLStart"].
Definition ends : list string := ["XLEnd"; "YLEnd"; "ZLEnd"].

Definition shuffle_error : LogEntry :=
  (error,
   "Something went wrong when transferring the coordinates to LinePlot").

(** The final loop [for i in range(3)] of [shuffleCoords]. *)
Fixpoint store_back (ks1 ks2 : list string) (i n : nat)
    (svalues evalues : list value) (d : gmap string value)
    : option (gmap string value) :=
  match n with
  | O => Some d
  | S n' =>
      k1 ← ks1 !! i; v1 ← svalues !! i;
      k2 ← ks2 !! i; v2 ← evalues !! i;
      store_back ks1 ks2 (S i) n' svalues evalues (<[k2:=v2]> (<[k1:=v1]> d))
  end.

(** [def shuffleCoords(Param_Dict)].  [None] is a raised [KeyError] or
    [IndexError]; otherwise the updated dictionary and the log entries. *)
Definition shuffleCoords (Param_Dict : gmap string value)
    : option (gmap string value * list LogEntry) :=
  svalues ← mapM (λ key, Param_Dict !! key) starts;
  evalues ← mapM (λ key, Param_Dict !! key) ends;
  naxis ← Param_Dict !! "NAxis";
  '(svalues, evalues, logged) ←
    (if decide (naxis = VStr "x") then
       s1 ← pop0_append svalues; e1 ← pop0_append evalues;
       s2 ← pop0_append s1; e2 ← pop0_append e1;
       Some (s2, e2, [])
     else if decide (naxis = VStr "y") then
       s1 ← pop0_append svalues; e1 ← pop0_append evalues;
       Some (s1, e1, [])
     else if decide (naxis = VStr "z") then
       Some (svalues, evalues, [])
     else Some (svalues, evalues, [shuffle_error]));
  d ← store_back starts ends 0 3 svalues evalues Param_Dict;
  Some (d, logged).

End Utils.

(* ===================================================================== *)
(** ** Properties of the pure helpers *)
(* ===================================================================== *)

Section MeanFacts.
Import Utils.























End MeanFacts.

Section ShuffleFacts.
Import Utils.

(** Number of left rotations [shuffleCoords] applies for a normal axis. *)
Definition rotations (naxis : value) : nat :=
  if decide (naxis = VStr "x") then 2
  else if decide (naxis = VStr "y") then 1
  else 0.

Definition logged_for (naxis : value) : list LogEntry :=
  if decide (naxis = VStr "x") then []
  else if decide (naxis = VStr "y") then []
  else if decide (naxis = VStr "z") then []
  else [shuffle_error].

Lemma shuffleCoords_eval (d : gmap string value) xs ys zs xe ye ze naxis :
  d !! "XLStart" = Some xs -> d !! "YLStart" = Some ys ->
  d !! "ZLStart" = Some zs ->
  d !! "XLEnd" = Some xe -> d !! "YLEnd" = Some ye ->
  d !! "ZLEnd" = Some ze ->
  d !! "NAxis" = Some naxis ->
  shuffleCoords d =
    match rotate (rotations naxis) [xs; ys; zs],
          rotate (rotations naxis) [xe; ye; ze] with
    | [s0; s1; s2], [e0; e1; e2] =>
        Some (<["ZLEnd":=e2]> (<["ZLStart":=s2]>
             (<["YLEnd":=e1]> (<["YLStart":=s1]>
             (<["XLEnd":=e0]> (<["XLStart":=s0]> d))))),
              logged_for naxis)
    | _, _ => None
    end.
Proof.
  intros H1 H2 H3 H4 H5 H6 H7.
  unfold shuffleCoords, starts, ends. simpl mapM.
  rewrite H1, H2, H3, H4, H5, H6, H7. simpl.
  unfold rotations, logged_for.
  repeat case_decide; reflexivity.
Qed.

(** C9. [shuffleCoords] rotates the start triple and the end triple of the
    parameter store to the left by the same amount: twice when NAxis is
    'x', once when it is 'y', not at all when it is 'z' or anything else
    (an error is logged in the last case only).  The stored values of each
    triple are a permutation of the old ones and every other key keeps its
    value. *)
Theorem shuffleCoords_spec (d : gmap string value) xs ys zs xe ye ze naxis :
  d !! "XLStart" = Some xs -> d !! "YLStart" = Some ys ->
  d !! "ZLStart" = Some zs ->
  d !! "XLEnd" = Some xe -> d !! "YLEnd" = Some ye ->
  d !! "ZLEnd" = Some ze ->
  d !! "NAxis" = Some naxis ->
  exists d',
    shuffleCoords d = Some (d', logged_for naxis) /\
    (λ key, d' !! key) <$> starts
      = Some <$> rotate (rotations naxis) [xs; ys; zs] /\
    (λ key, d' !! key) <$> ends
      = Some <$> rotate (rotations naxis) [xe; ye; ze] /\
    (naxis = VStr "x" ->
       rotate (rotations naxis) [xs; ys; zs] = [zs; xs; ys] /\
       rotate (rotations naxis) [xe; ye; ze] = [ze; xe; ye]) /\
    (naxis = VStr "y" ->
       rotate (rotations naxis) [xs; ys; zs] = [ys; zs; xs] /\
       rotate (rotations naxis) [xe; ye; ze] = [ye; ze; xe]) /\
    (naxis <> VStr "x" -> naxis <> VStr "y" ->
       rotate (rotations naxis) [xs; ys; zs] = [xs; ys; zs] /\
       rotate (rotations naxis) [xe; ye; ze] = [xe; ye; ze]) /\
    (λ key, d' !! key) <$> starts ≡ₚ (λ key, d !! key) <$> starts /\
    (λ key, d' !! key) <$> ends ≡ₚ (λ key, d !! key) <$> ends /\
    (forall key, key ∉ (starts ++ ends)%list -> d' !! key = d !! key).
Proof.
  intros H1 H2 H3 H4 H5 H6 H7.
  rewrite (shuffleCoords_eval d xs ys zs xe ye ze naxis) by assumption.
  assert (Hrot : rotations naxis = 2 /\ naxis = VStr "x"
                 \/ rotations naxis = 1 /\ naxis = VStr "y"
                 \/ rotations naxis = 0 /\ naxis <> VStr "x"
                                        /\ naxis <> VStr "y").
  { unfold rotations. repeat case_decide; subst; auto. }
  assert (Hkeep : forall (m : gmap string value) v0 v1 v2 v3 v4 v5 key,
             key ∉ (starts ++ ends)%list ->
             <["ZLEnd":=v5]> (<["ZLStart":=v4]> (<["YLEnd":=v3]>
               (<["YLStart":=v2]> (<["XLEnd":=v1]> (<["XLStart":=v0]> m)))))
             !! key = m !! key).
  { intros m v0 v1 v2 v3 v4 v5 key Hk. unfold starts, ends in Hk.
    simpl in Hk. rewrite !not_elem_of_cons in Hk.
    destruct Hk as (?&?&?&?&?&?&_).
    by rewrite !lookup_insert_ne by done. }
  destruct Hrot as [[-> Hn]|[[-> Hn]|[-> [Hx Hy]]]];
    cbn [rotate]; simpl;
    eexists; (split; [reflexivity|]);
    unfold starts, ends; simpl; simplify_map_eq.
  all: repeat split; try done; try congruence; try apply Hkeep.
  - apply (Permutation_cons_append [Some xs; Some ys] (Some zs)).
  - apply (Permutation_cons_append [Some xe; Some ye] (Some ze)).
  - symmetry. apply (Permutation_cons_append [Some ys; Some zs] (Some xs)).
  - symmetry. apply (Permutation_cons_append [Some ye; Some ze] (Some xe)).
Qed.

End ShuffleFacts.

(* ===================================================================== *)
(** ** Workers, plot routines and plot windows
       (threading.py, plots.py, plotWindow.py, utils.py) *)
(* ===================================================================== *)

Module Threading.
Import PyStr.

Inductive Mode := Slice | Projection | Line | Phase | Profile.

Definition mode_name (m : Mode) : string :=
  match m with
  | Slice => "Slice" | Projection => "Projection" | Line => "Line"
  | Phase => "Phase" | Profile => "Profile"
  end.

#[global] Instance Mode_eq_dec : EqDecision Mode.
Proof. solve_decision. Defined.

(** A plot built by a plot routine (a yt plot object, or the arrays of a
    profile): its mode and the index of the dataset it was built from. *)
Record PlotObj := { obj_mode : Mode; obj_ds : nat }.

#[global] Instance PlotObj_eq_dec : EqDecision PlotObj.
Proof. solve_decision. Defined.

(** What a figure holds: matplotlib calls made on it since it was last
    cleared, and the plots drawn into it. *)
Inductive FigItem :=
| mpl (call : string)
| shows (p : option PlotObj).

(** class PlotWindow: the attributes the plot routines assign.  All windows
    of a run are embedded ones ([isExternalWindow] is False). *)
Record PlotWindow := {
  plot : option PlotObj;             (* self.plot *)
  arr : option PlotObj;              (* self.arr and self.labels *)
  figure : list FigItem;             (* self.figure *)
  canvas : list FigItem;             (* the image of the last canvas.draw() *)
  hasProfile : bool;
  Param_Dict_copy : option PlotObj;  (* self.Param_Dict: mode and dataset *)
  fileInfo : option PlotObj;         (* toolbar.fileInfo and infoLabel *)
  toolbar : bool;                    (* enabled? *)
  restoreSettings : bool;            (* the three buttons: enabled? *)
  writeFileButton : bool;
  externalWindowButton : bool;
  visible : bool
}.

Definition set_plot v (w : PlotWindow) : PlotWindow :=
  {| plot := v; arr := arr w; figure := figure w; canvas := canvas w;
     hasProfile := hasProfile w; Param_Dict_copy := Param_Dict_copy w;
     fileInfo := fileInfo w; toolbar := toolbar w;
     restoreSettings := restoreSettings w;
     writeFileButton := writeFileButton w;
     externalWindowButton := externalWindowButton w; visible := visible w |}.
Definition set_arr v (w : PlotWindow) : PlotWindow :=
  {| plot := plot w; arr := v; figure := figure w; canvas := canvas w;
     hasProfile := hasProfile w; Param_Dict_copy := Param_Dict_copy w;
     fileInfo := fileInfo w; toolbar := toolbar w;
     restoreSettings := restoreSettings w;
     writeFileButton := writeFileButton w;
     externalWindowButton := externalWindowButton w; visible := visible w |}.
Definition set_figure v (w : PlotWindow) : PlotWindow :=
  {| plot := plot w; arr := arr w; figure := v; canvas := canvas w;
     hasProfile := hasProfile w; Param_Dict_copy := Param_Dict_copy w;
     fileInfo := fileInfo w; toolbar := toolbar w;
     restoreSettings := restoreSettings w;
     writeFileButton := writeFileButton w;
     externalWindowButton := externalWindowButton w; visible := visible w |}.
Definition set_canvas v (w : PlotWindow) : PlotWindow :=
  {| plot := plot w; arr := arr w; figure := figure w; canvas := v;
     hasProfile := hasProfile w; Param_Dict_copy := Param_Dict_copy w;
     fileInfo := fileInfo w; toolbar := toolbar w;
     restoreSettings := restoreSettings w;
     writeFileButton := writeFileButton w;
     externalWindowButton := externalWindowButton w; visible := visible w |}.
Definition set_hasProfile v (w : PlotWindow) : PlotWindow :=
  {| plot := plot w; arr := arr w; figure := figure w; canvas := canvas w;
     hasProfile := v; Param_Dict_copy := Param_Dict_copy w;
     fileInfo := fileInfo w; toolbar := toolbar w;
     restoreSettings := restoreSettings w;
     writeFileButton := writeFileButton w;
     externalWindowButton := externalWindowButton w; visible := visible w |}.
Definition set_Param_Dict_copy v (w : PlotWindow) : PlotWindow :=
  {| plot := plot w; arr := arr w; figure := figure w; canvas := canvas w;
     hasProfile := hasProfile w; Param_Dict_copy := v;
     fileInfo := fileInfo w; toolbar := toolbar w;
     restoreSettings := restoreSettings w;
     writeFileButton := writeFileButton w;
     externalWindowButton := externalWindowButton w; visible := visible w |}.
Definition set_fileInfo v (w : PlotWindow) : PlotWindow :=
  {| plot := plot w; arr := arr w; figure := figure w; canvas := canvas w;
     hasProfile := hasProfile w; Param_Dict_copy := Param_Dict_copy w;
     fileInfo := v; toolbar := toolbar w;
     restoreSettings := restoreSettings w;
     writeFileButton := writeFileButton w;
     externalWindowButton := externalWindowButton w; visible := visible w |}.
Definition set_toolbar v (w : PlotWindow) : PlotWindow :=
  {| plot := plot w; arr := arr w; figure := figure w; canvas := canvas w;
     hasProfile := hasProfile w; Param_Dict_copy := Param_Dict_copy w;
     fileInfo := fileInfo w; toolbar := v;
     restoreSettings := restoreSettings w;
     writeFileButton := writeFileButton w;
     externalWindowButton := externalWindowButton w; visible := visible w |}.
Definition set_restoreSettings v (w : PlotWindow) : PlotWindow :=
  {| plot := plot w; arr := arr w; figure := figure w; canvas := canvas w;
     hasProfile := hasProfile w; Param_Dict_copy := Param_Dict_copy w;
     fileInfo := fileInfo w; toolbar := toolbar w;
     restoreSettings := v;
     writeFileButton := writeFileButton w;
     externalWindowButton := externalWindowButton w; visible := visible w |}.
Definition set_writeFileButton v (w : PlotWindow) : PlotWindow :=
  {| plot := plot w; arr := arr w; figure := figure w; canvas := canvas w;
     hasProfile := hasProfile w; Param_Dict_copy := Param_Dict_copy w;
     fileInfo := fileInfo w; toolbar := toolbar w;
     restoreSettings := restoreSettings w;
     writeFileButton := v;
     externalWindowButton := externalWindowButton w; visible := visible w |}.
Definition set_externalWindowButton v (w : PlotWindow) : PlotWindow :=
  {| plot := plot w; arr := arr w; figure := figure w; canvas := canvas w;
     hasProfile := hasProfile w; Param_Dict_copy := Param_Dict_copy w;
     fileInfo := fileInfo w; toolbar := toolbar w;
     restoreSettings := restoreSettings w;
     writeFileButton := writeFileButton w;
     externalWindowButton := v; visible := visible w |}.
Definition set_visible v (w : PlotWindow) : PlotWindow :=
  {| plot := plot w; arr := arr w; figure := figure w; canvas := canvas w;
     hasProfile := hasProfile w; Param_Dict_copy := Param_Dict_copy w;
     fileInfo := fileInfo w; toolbar := toolbar w;
     restoreSettings := restoreSettings w;
     writeFileButton := writeFileButton w;
     externalWindowButton := externalWindowButton w; visible := v |}.

(** PlotWindow.__init__: nothing plotted, buttons and toolbar disabled. *)
Definition PlotWindow_init : PlotWindow :=
  {| plot := None; arr := None; figure := []; canvas := [];
     hasProfile := false; Param_Dict_copy := None; fileInfo := None;
     toolbar := false; restoreSettings := false; writeFileButton := false;
     externalWindowButton := false; visible := false |}.

(** The window objects: the one of single-file mode
    (Param_Dict["DataSetPlotWindow"]) and one per dataset of a series
    (Param_Dict["DataSetDict"][str(ds) + "PlotWindow"]). *)
Inductive WinRef := DataSetPlotWindow | SeriesWindow (j : nat).

#[global] Instance WinRef_eq_dec : EqDecision WinRef.
Proof. solve_decision. Defined.

(** The part of the main window's state the plot routines read and write:
    entries of Param_Dict, the window objects, the progress dialog, the
    series slider and the saved images.  [plot_var] is the local variable
    [plot] (or [arr, labels]) of the running plot routine.  [history] is a
    history variable: the plots installed by [copyParamDict], oldest
    first. *)
Record Gui := {
  windows : WinRef -> PlotWindow;
  CurrentPlotWindow : WinRef;
  CurrentDataSet : nat;
  GridUnit : string;
  oldGridUnit : string;
  isValidPlot : option Mode;
  plot_var : option PlotObj;
  history : list PlotObj;
  saved : list (string * list FigItem);
  slider : nat;
  infoLabel : string;
  cancelButton : bool
}.

Definition set_windows v (g : Gui) : Gui :=
  {| windows := v; CurrentPlotWindow := CurrentPlotWindow g;
     CurrentDataSet := CurrentDataSet g; GridUnit := GridUnit g;
     oldGridUnit := oldGridUnit g; isValidPlot := isValidPlot g;
     plot_var := plot_var g; history := history g; saved := saved g;
     slider := slider g; infoLabel := infoLabel g;
     cancelButton := cancelButton g |}.
Definition set_CurrentPlotWindow v (g : Gui) : Gui :=
  {| windows := windows g; CurrentPlotWindow := v;
     CurrentDataSet := CurrentDataSet g; GridUnit := GridUnit g;
     oldGridUnit := oldGridUnit g; isValidPlot := isValidPlot g;
     plot_var := plot_var g; history := history g; saved := saved g;
     slider := slider g; infoLabel := infoLabel g;
     cancelButton := cancelButton g |}.
Definition set_CurrentDataSet v (g : Gui) : Gui :=
  {| windows := windows g; CurrentPlotWindow := CurrentPlotWindow g;
     CurrentDataSet := v; GridUnit := GridUnit g;
     oldGridUnit := oldGridUnit g; isValidPlot := isValidPlot g;
     plot_var := plot_var g; history := history g; saved := saved g;
     slider := slider g; infoLabel := infoLabel g;
     cancelButton := cancelButton g |}.
Definition set_oldGridUnit v (g : Gui) : Gui :=
  {| windows := windows g; CurrentPlotWindow := CurrentPlotWindow g;
     CurrentDataSet := CurrentDataSet g; GridUnit := GridUnit g;
     oldGridUnit := v; isValidPlot := isValidPlot g;
     plot_var := plot_var g; history := history g; saved := saved g;
     slider := slider g; infoLabel := infoLabel g;
     cancelButton := cancelButton g |}.
Definition set_isValidPlot v (g : Gui) : Gui :=
  {| windows := windows g; CurrentPlotWindow := CurrentPlotWindow g;
     CurrentDataSet := CurrentDataSet g; GridUnit := GridUnit g;
     oldGridUnit := oldGridUnit g; isValidPlot := v;
     plot_var := plot_var g; history := history g; saved := saved g;
     slider := slider g; infoLabel := infoLabel g;
     cancelButton := cancelButton g |}.
Definition set_plot_var v (g : Gui) : Gui :=
  {| windows := windows g; CurrentPlotWindow := CurrentPlotWindow g;
     CurrentDataSet := CurrentDataSet g; GridUnit := GridUnit g;
     oldGridUnit := oldGridUnit g; isValidPlot := isValidPlot g;
     plot_var := v; history := history g; saved := saved g;
     slider := slider g; infoLabel := infoLabel g;
     cancelButton := cancelButton g |}.
Definition set_history v (g : Gui) : Gui :=
  {| windows := windows g; CurrentPlotWindow := CurrentPlotWindow g;
     CurrentDataSet := CurrentDataSet g; GridUnit := GridUnit g;
     oldGridUnit := oldGridUnit g; isValidPlot := isValidPlot g;
     plot_var := plot_var g; history := v; saved := saved g;
     slider := slider g; infoLabel := infoLabel g;
     cancelButton := cancelButton g |}.
Definition set_saved v (g : Gui) : Gui :=
  {| windows := windows g; CurrentPlotWindow := CurrentPlotWindow g;
     CurrentDataSet := CurrentDataSet g; GridUnit := GridUnit g;
     oldGridUnit := oldGridUnit g; isValidPlot := isValidPlot g;
     plot_var := plot_var g; history := history g; saved := v;
     slider := slider g; infoLabel := infoLabel g;
     cancelButton := cancelButton g |}.
Definition set_slider v (g : Gui) : Gui :=
  {| windows := windows g; CurrentPlotWindow := CurrentPlotWindow g;
     CurrentDataSet := CurrentDataSet g; GridUnit := GridUnit g;
     oldGridUnit := oldGridUnit g; isValidPlot := isValidPlot g;
     plot_var := plot_var g; history := history g; saved := saved g;
     slider := v; infoLabel := infoLabel g;
     cancelButton := cancelButton g |}.
Definition set_dialog (label : string) (cancel : bool) (g : Gui) : Gui :=
  {| windows := windows g; CurrentPlotWindow := CurrentPlotWindow g;
     CurrentDataSet := CurrentDataSet g; GridUnit := GridUnit g;
     oldGridUnit := oldGridUnit g; isValidPlot := isValidPlot g;
     plot_var := plot_var g; history := history g; saved := saved g;
     slider := slider g; infoLabel := label; cancelButton := cancel |}.

(** Update of the object Param_Dict["CurrentPlotWindow"] refers to. *)
Definition on_window (f : PlotWindow -> PlotWindow) (g : Gui) : Gui :=
  set_windows
    (fun r => (if decide (r = CurrentPlotWindow g) then f else fun w => w)
                (windows g r)) g.

Definition current (g : Gui) : PlotWindow := windows g (CurrentPlotWindow g).

(** A matplotlib call that adds to the figure of the current window. *)
Definition draw (item : Gui -> FigItem) (g : Gui) : Gui :=
  on_window (fun w => set_figure (figure w ++ [item g])%list w) g.

(** class WorkerBase *)
Record Worker := { _isRunning : bool; oldMessage : string }.

Definition WorkerBase_init : Worker :=
  {| _isRunning := true; oldMessage := "Starting up" |}.

(** Signals a worker emits. *)
Inductive Signal :=
| progressUpdate (message : string)
| multiProgress
| finished (success : bool)
| finished_dir (success : bool) (directory : string).

(** The state of a run: the worker object, what it has emitted, logged and
    printed, and the GUI state it shares with the UI thread. *)
Record State := {
  self : Worker;
  signals : list Signal;
  logged : list LogEntry;
  stderr : list exn;
  gui : Gui
}.

Definition set_self v (s : State) : State :=
  {| self := v; signals := signals s; logged := logged s;
     stderr := stderr s; gui := gui s |}.
Definition emit (sig : Signal) (s : State) : State :=
  {| self := self s; signals := (signals s ++ [sig])%list;
     logged := logged s; stderr := stderr s; gui := gui s |}.
Definition GUILogger (c : LogCall) (text : string) (s : State) : State :=
  {| self := self s; signals := signals s;
     logged := (logged s ++ [(c, text)])%list;
     stderr := stderr s; gui := gui s |}.
Definition print_exc (e : exn) (s : State) : State :=
  {| self := self s; signals := signals s; logged := logged s;
     stderr := (stderr s ++ [e])%list; gui := gui s |}.
Definition set_gui v (s : State) : State :=
  {| self := self s; signals := signals s; logged := logged s;
     stderr := stderr s; gui := v |}.

(** How a piece of code ends: normally, or by an exception raised at the
    statement with index [at_pc]. *)
Inductive outcome :=
| Done (s : State)
| Raised (e : exn) (at_pc : nat) (s : State).

(** The [worker] argument of the plot routines: the run's worker object or
    None. *)
Inductive WorkerRef := progressWorker.

Definition spaces31 : string := "                               ".

(** [def emitStatus(worker, message)] (utils.py) *)
Definition emitStatus (worker : option WorkerRef) (message : string)
    (pc : nat) (s : State) : outcome :=
  match worker with
  | None => Done s
  | Some progressWorker =>
      if _isRunning (self s) then
        Done (set_self {| _isRunning := _isRunning (self s);
                          oldMessage := message |}
                (emit (progressUpdate message)
                   (GUILogger debug message s)))
      else
        Raised (WorkingException
                  ("You cancelled the plotting process " ++ spaces31 ++
                   "while <b>" ++ lower (oldMessage (self s)) ++ ".</b>"))
               pc s
  end.

(** [def emitMultiStatus(worker, currentNumber, plotNumber)] (utils.py) *)
Definition emitMultiStatus (worker : option WorkerRef)
    (currentNumber plotNumber : nat) (pc : nat) (s : State) : outcome :=
  match worker with
  | None => Done s
  | Some progressWorker =>
      if _isRunning (self s) then Done (emit multiProgress s)
      else
        Raised (WorkingException
                  ("You cancelled the plotting process while " ++ spaces31 ++
                   "<b>producing plot " ++ str_nat currentNumber ++ "/" ++
                   str_nat plotNumber ++ "</b>."))
               pc s
  end.

(** [ProgressDialog.stopProcess]: runs on the UI thread when the user presses
    Cancel or Escape. *)
Definition stopProcess (s : State) : State :=
  let g := set_dialog
             "Plotting interrupted. Please wait until the current step is finished..."
             false (gui s) in
  let g := on_window (set_restoreSettings false) g in
  let g := on_window (set_writeFileButton false) g in
  let g := on_window (set_externalWindowButton false) g in
  set_self {| _isRunning := false; oldMessage := oldMessage (self s) |}
    (set_gui g s).

(** The statements of a worker run.  A [Call] is a call into yt, matplotlib
    or Qt: the environment decides whether it raises, and if it returns its
    effect on the GUI state is [effect].  An [Assign] is a plain assignment
    and cannot raise.  Consecutive library calls without an assignment or
    checkpoint between them are written as one [Call]. *)
Inductive action :=
| Checkpoint (worker : option WorkerRef) (message : string)
| MultiCheckpoint (worker : option WorkerRef) (currentNumber plotNumber : nat)
| Logger (c : LogCall) (text : string)
| Call (name : string) (effect : Gui -> Gui)
| Assign (effect : Gui -> Gui)
| Throw (name text : string).

(** The environment of a run: the statement index before which the UI thread
    runs [stopProcess] (if the user cancels at all), and the library calls
    that raise. *)
Record Env := {
  cancelAt : option nat;
  fails : nat -> option (string * string)
}.

Definition step (env : Env) (pc : nat) (a : action) (s : State) : outcome :=
  match a with
  | Checkpoint worker message => emitStatus worker message pc s
  | MultiCheckpoint worker i n => emitMultiStatus worker i n pc s
  | Logger c text => Done (GUILogger c text s)
  | Call _ effect =>
      match fails env pc with
      | Some (name, text) => Raised (OtherException name text) pc s
      | None => Done (set_gui (effect (gui s)) s)
      end
  | Assign effect => Done (set_gui (effect (gui s)) s)
  | Throw name text => Raised (OtherException name text) pc s
  end.

Definition cancels (env : Env) (pc : nat) : bool :=
  bool_decide (cancelAt env = Some pc).

(** Running a sequence of statements from index [pc]. *)
Fixpoint exec (env : Env) (pc : nat) (p : list action) (s : State) : outcome :=
  match p with
  | [] => Done s
  | a :: p' =>
      let s1 := if cancels env pc then stopProcess s else s in
      match step env pc a s1 with
      | Done s2 => exec env (S pc) p' s2
      | r => r
      end
  end.

(** The data-gathering part of a profile plot ([createNormalProfile],
    [createMultipleProfiles], [createProfWithTimeForX]): library calls, log
    entries and checkpoints, as many as the series and the settings ask
    for. *)
Inductive gather_step :=
| GCall (name : string)
| GLogger (c : LogCall) (text : string)
| GCheckpoint (message : string).

(** The entries of Param_Dict that steer a plot routine; none of them is
    assigned while a worker runs. *)
Record Params := {
  PlotMode : Mode;
  DimMode2D : bool;          (* Param_Dict["DimMode"] == "2D" *)
  DomainDiv : bool;
  WeightFieldNone : bool;    (* Param_Dict["WeightField"] is None *)
  SetAspect : bool;
  Timestamp : bool;
  AddProfile : bool;
  XAxisTime : bool;          (* Param_Dict["XAxis"] == "time" *)
  manyProfiles : bool;       (* len(arr) > 2 *)
  gather : list gather_step;
  ds_name : nat -> string;   (* str(ds) *)
  ds_time : nat -> string    (* the formatted time of a dataset *)
}.

Definition same : Gui -> Gui := fun g => g.

(** The yt constructor of a plot routine: binds the local variable. *)
Definition build (P : Params) (g : Gui) : Gui :=
  set_plot_var
    (Some {| obj_mode := PlotMode P; obj_ds := CurrentDataSet g |}) g.

(** *** plotWindow.py *)

(** [def prepareFigure(self)] *)
Definition prepareFigure : list action :=
  [ Call "figure.clear" (on_window (set_figure []));
    Assign (on_window (set_hasProfile false));
    Call "figure.add_subplot" (draw (fun _ => mpl "add_subplot"));
    Call "figure.subplots_adjust" same ].

(** [def copyParamDict(self, Param_Dict)] *)
Definition copyParamDict (P : Params) : list action :=
  [ Assign (set_isValidPlot (Some (PlotMode P)));
    Call "copy"
      (fun g =>
         let p := {| obj_mode := PlotMode P; obj_ds := CurrentDataSet g |} in
         set_history (history g ++ [p])%list
           (on_window (set_Param_Dict_copy (Some p)) g));
    Call "format"
      (fun g => on_window (set_fileInfo (Param_Dict_copy (current g))) g);
    Call "toolbar.setEnabled" (on_window (set_toolbar true));
    Call "infoLabel.setText" same;
    Call "restoreSettings.setEnabled" (on_window (set_restoreSettings true));
    Call "writeFileButton.setEnabled" (on_window (set_writeFileButton true));
    Call "externalWindowButton.setEnabled"
      (on_window (set_externalWindowButton true)) ].

(** [def makePlot(self, plot, Param_Dict, dim, worker=None)] *)
Definition makePlot (P : Params) (dim : nat) (worker : option WorkerRef)
    : list action :=
  ([ Call "plot.plots[field].axes" same ] ++
   (if (dim =? 3)%nat then [ Call "plot.plots[field].cax" same ] else []) ++
   [ Checkpoint worker "Drawing plot onto the canvas";
     Call "plot._setup_plots" (draw (fun g => shows (plot (current g)))) ] ++
   (if decide (PlotMode P = Line)
    then [ Call "ax.set_ylim" (draw (fun _ => mpl "set_ylim"));
           Call "annotateStartEnd" (draw (fun _ => mpl "annotateStartEnd")) ]
    else []) ++
   (if decide (PlotMode P = Slice \/ PlotMode P = Projection)
    then [ Call "ax.set_aspect"
             (draw (fun _ => mpl (if SetAspect P then "set_aspect(auto)"
                                  else "set_aspect(equal)"))) ]
    else []) ++
   (if decide (PlotMode P = Line \/ PlotMode P = Phase)
    then (if Timestamp P
          then [ Call "drawTimestampBox"
                   (draw (fun _ => mpl "drawTimestampBox")) ]
          else [])
    else []) ++
   [ Call "canvas.draw" (fun g => on_window (set_canvas (figure (current g))) g);
     Call "canvas.draw" (fun g => on_window (set_canvas (figure (current g))) g)
   ] ++
   copyParamDict P)%list.

(** [def startPlot(self, plot, Param_Dict, worker=None)] *)
Definition startPlot (P : Params) (worker : option WorkerRef) : list action :=
  ([ Checkpoint worker "Starting the plot";
     Assign (fun g => on_window (set_plot (plot_var g)) g) ] ++
   prepareFigure ++
   (if DimMode2D P
    then [ Call "make_axes_locatable" same;
           Call "divider.append_axes" (draw (fun _ => mpl "append_axes")) ] ++
         makePlot P 3 worker
    else makePlot P 2 worker))%list.

(** [def makeProfilePlot(self, Param_Dict, arr, labels, worker=None)] *)
Definition makeProfilePlot (P : Params) (worker : option WorkerRef)
    : list action :=
  ([ Assign (fun g => on_window (set_arr (plot_var g)) g);
     Checkpoint worker "Starting the plot" ] ++
   (if AddProfile P
    then [ Call "ax.tick_params" (draw (fun _ => mpl "tick_params"));
           Call "ax.twinx" (draw (fun _ => mpl "twinx"));
           Call "twinax.plot" (draw (fun g => shows (arr (current g))));
           Checkpoint worker "Setting plot modifications";
           Call "setProfileAxisSettings"
             (draw (fun _ => mpl "setProfileAxisSettings(Y)"));
           Call "twinax.tick_params" (draw (fun _ => mpl "tick_params"));
           Call "ax.legend" (draw (fun _ => mpl "legend"));
           Assign (on_window (set_hasProfile false));
           Call "changeToProfile" same ]
    else prepareFigure ++
         [ Call "ax.plot" (draw (fun g => shows (arr (current g))));
           Checkpoint worker "Setting plot modifications";
           Call "setProfileAxisSettings"
             (draw (fun _ => mpl "setProfileAxisSettings(Y)"));
           Assign (on_window (set_hasProfile true));
           Call "changeToProfile" same ] ++
         (if Timestamp P && negb (XAxisTime P)
          then (if manyProfiles P
                then [ Logger warning
                         ("Timestamp is not annotated for multiple" ++
                          " profiles. Sorry for leaving the CheckBox there.") ]
                else [ Call "drawTimestampBox"
                         (draw (fun _ => mpl "drawTimestampBox")) ])
          else []) ++
         [ Call "ax.legend" (draw (fun _ => mpl "legend"));
           Call "ax.grid" (draw (fun _ => mpl "grid")) ]) ++
   [ Call "setProfileAxisSettings"
       (draw (fun _ => mpl "setProfileAxisSettings(X)"));
     Call "ax.set_title" (draw (fun _ => mpl "set_title"));
     Checkpoint worker "Drawing plot onto the canvas";
     Call "canvas.draw" (fun g => on_window (set_canvas (figure (current g))) g);
     Call "canvas.draw" (fun g => on_window (set_canvas (figure (current g))) g)
   ] ++
   copyParamDict P)%list.

(** [def saveFigure(self, saveName)] *)
Definition saveFigure (saveName : string) : list action :=
  [ Call "figure.savefig"
      (fun g => set_saved (saved g ++ [(saveName, figure (current g))])%list g) ].

(** *** plots.py *)

(** [def finallyDrawPlot(plot, Param_Dict, worker)] *)
Definition finallyDrawPlot (P : Params) (worker : option WorkerRef)
    : list action :=
  (Call "copy" same :: startPlot P worker)%list.

(** [def SlicePlot(Param_Dict, worker)] *)
Definition SlicePlot (P : Params) (worker : option WorkerRef) : list action :=
  ([ Call "yt.YTQuantity" same;
     Call "yt.SlicePlot" (build P);
     Checkpoint worker "Setting slice plot modifications";
     Call "setAxisSettings" same;
     Call "plot.zoom" same;
     Checkpoint worker "Annotating the slice plot";
     Call "annotatePlot" same ] ++
   finallyDrawPlot P worker)%list.

(** [def ProjectionPlot(Param_Dict, worker)] *)
Definition ProjectionPlot (P : Params) (worker : option WorkerRef)
    : list action :=
  ((if DomainDiv P then [ Call "ds.add_field" same ] else []) ++
   [ Call "yt.YTQuantity" same;
     Call "yt.ProjectionPlot" (build P);
     Checkpoint worker "Setting projection plot modifications";
     Call "setAxisSettings" same;
     Call "plot.zoom" same;
     Checkpoint worker "Annotating the projection plot";
     Call "annotatePlot" same ] ++
   finallyDrawPlot P worker)%list.

(** [def LinePlot(Param_Dict, worker)] *)
Definition LinePlot (P : Params) (worker : option WorkerRef) : list action :=
  ([ Call "yt.units.YTQuantity" same;
     Call "yt.LinePlot" (build P);
     Checkpoint worker "Setting line plot modifications";
     Call "plot.annotate_legend" same;
     Call "setAxisSettings" same;
     Call "plot.set_x_unit" same;
     Checkpoint worker "Annotating the line plot";
     Call "plot.annotate_title" same ] ++
   finallyDrawPlot P worker)%list.

(** [def PhasePlot(Param_Dict, worker)] *)
Definition PhasePlot (P : Params) (worker : option WorkerRef) : list action :=
  ((if WeightFieldNone P
    then [ Logger warning
             ("Having <font color=" ++ dq ++ "DarkViolet" ++ dq ++
              ">None</font> as the " ++ "weight field just accumulates, " ++
              "so the extrema might be inaccurate.") ]
    else []) ++
   [ Call "ds.all_data" same;
     Call "yt.PhasePlot" (build P);
     Checkpoint worker "Setting phase plot modifications";
     Call "setAxisSettings" same;
     Checkpoint worker "Annotating the phase plot";
     Call "plot.annotate_title" same ] ++
   finallyDrawPlot P worker)%list.

Definition gather_action (worker : option WorkerRef) (st : gather_step)
    : action :=
  match st with
  | GCall name => Call name same
  | GLogger c text => Logger c text
  | GCheckpoint message => Checkpoint worker message
  end.

(** [def ProfilePlot(Param_Dict, worker)] *)
Definition ProfilePlot (P : Params) (worker : option WorkerRef) : list action :=
  (map (gather_action worker) (gather P) ++
   [ Assign (build P) ] ++
   (if WeightFieldNone P && negb (XAxisTime P)
    then [ Logger warning
             ("Having <b><font color=" ++ dq ++ "DarkViolet" ++ dq ++
              ">None</font></b> " ++ "as the weight field just accumulates, " ++
              "so the extrema might be inaccurate.") ]
    else []) ++
   makeProfilePlot P worker)%list.

(** [eval(f"splot.{mode}Plot(Param_Dict, worker)")] *)
Definition modePlot (P : Params) (worker : option WorkerRef) : list action :=
  match PlotMode P with
  | Slice => SlicePlot P worker
  | Projection => ProjectionPlot P worker
  | Line => LinePlot P worker
  | Phase => PhasePlot P worker
  | Profile => ProfilePlot P worker
  end.

(** *** threading.py *)

(** [def evaluateSingle(Param_Dict, worker)] *)
Definition evaluateSingle (P : Params) (worker : option WorkerRef)
    : list action :=
  ([ Checkpoint worker
       ("Creating the initial " ++ lower (mode_name (PlotMode P)) ++ " plot");
     Logger (log 29)
       ("Producing the requested " ++ lower (mode_name (PlotMode P)) ++
        " plot...");
     Assign (fun g => set_oldGridUnit (GridUnit g) g) ] ++
   modePlot P worker ++
   [ Checkpoint worker "Finishing" ])%list.

(** The request of the plot-all dialog (Request_Dict). *)
Record Request := {
  OnlyEvery : nat;
  Length : nat;
  MakeMovie : bool;
  PlotNumber : nat;
  Directory : string
}.

(** [SignalHandler.getSliderInput(value=j, seriesEval=True)] (signalHandler.py) *)
Definition getSliderInput (P : Params) (j : nat) : list action :=
  ([ Call "CurrentPlotWindow.hide" (on_window (set_visible false));
     Assign (set_CurrentPlotWindow (SeriesWindow j));
     Call "CurrentPlotWindow.show" (on_window (set_visible true));
     Call "Label_Dict.setText" same;
     Assign (set_CurrentDataSet j);
     Logger debug
       ("Selected the file '" ++ ds_name P j ++ "' at " ++ ds_time P j ++ ".")
   ] ++
   (if decide (PlotMode P = Profile) then [ Call "changeToProfile" same ]
    else []))%list.

(** The body of the loop of [evaluateMultiple] for one [j], with the counter
    [i] as it stands when the body starts. *)
Definition evaluateMultiple_body (P : Params) (R : Request)
    (worker : option WorkerRef) (i j : nat) : list action :=
  if (OnlyEvery R =? 0)%nat
  then [ Throw "ZeroDivisionError" "integer division or modulo by zero" ]
  else if (i mod OnlyEvery R =? 0)%nat
  then (getSliderInput P j ++
        modePlot P worker ++
        [ Logger info
            ("Progress: " ++ str_nat (i / OnlyEvery R + 1) ++ "/" ++
             str_nat (PlotNumber R) ++ " " ++
             lower (mode_name (PlotMode P)) ++ " plots done.") ] ++
        (if MakeMovie R
         then saveFigure (Directory R ++ "/" ++ mode_name (PlotMode P) ++
                          "plot_" ++ str_nat (i + 1))
         else []) ++
        [ MultiCheckpoint worker i (PlotNumber R) ])%list
  else [].

(** [for j in range(Request_Dict["Length"])], with [i += 1] at the end of
    every round. *)
Fixpoint evaluateMultiple_loop (P : Params) (R : Request)
    (worker : option WorkerRef) (i : nat) (js : list nat) : list action :=
  match js with
  | [] => []
  | j :: js' =>
      (evaluateMultiple_body P R worker i j ++
       evaluateMultiple_loop P R worker (S i) js')%list
  end.

(** [def evaluateMultiple(Param_Dict, Request_Dict, slider, worker)].  After
    an empty loop the name [j] is unbound. *)
Definition evaluateMultiple (P : Params) (R : Request)
    (worker : option WorkerRef) : list action :=
  ([ Logger (log 29)
       ("Producing the requested " ++ lower (mode_name (PlotMode P)) ++
        " plots...");
     Checkpoint worker
       ("Creating the initial " ++ lower (mode_name (PlotMode P)) ++ " plot");
     Assign (fun g => set_oldGridUnit (GridUnit g) g) ] ++
   evaluateMultiple_loop P R worker 0 (seq 0 (Length R)) ++
   [ match Length R with
     | O => Throw "UnboundLocalError"
              "local variable 'j' referenced before assignment"
     | S n => Call "slider.setValue" (set_slider n)
     end ])%list.

(** The text the generic handler logs for an exception [e]:
    [type(e).__name__] is [name] and [str(e)] is [text]. *)
Definition internal_exception_text (name text : string) : string :=
  "A yt-internal exception occured:<br><b><font color" ++
  "=" ++ dq ++ "DarkRed" ++ dq ++ ">" ++ name ++
  ":</font><br>" ++ text ++ "</b>".

(** The two [except] clauses shared by [PlotSingleWorker.plot] and
    [PlotMultipleWorker.plot]. *)
Definition handle (r : outcome) : State :=
  match r with
  | Done s => s
  | Raised (WorkingException arg) _ s => GUILogger error arg s
  | Raised (OtherException name text) _ s =>
      let s := print_exc (OtherException name text) s in
      let s := GUILogger exception (internal_exception_text name text) s in
      let s := GUILogger (log 29) "I've printed the traceback for you." s in
      set_self {| _isRunning := false; oldMessage := oldMessage (self s) |} s
  end.

(** [PlotSingleWorker.plot] *)
Definition PlotSingleWorker_plot (env : Env) (P : Params) (s : State)
    : outcome :=
  let s := handle (exec env 0 (evaluateSingle P (Some progressWorker)) s) in
  Done (emit (finished (_isRunning (self s))) s).

(** [PlotMultipleWorker.plot] *)
Definition PlotMultipleWorker_plot (env : Env) (P : Params) (R : Request)
    (s : State) : outcome :=
  let s := handle (exec env 0 (evaluateMultiple P R (Some progressWorker)) s) in
  Done (emit (finished_dir (_isRunning (self s)) (Directory R)) s).

End Threading.

(* ===================================================================== *)
(** ** Cooperative cancellation *)
(* ===================================================================== *)

Section Cancellation.
Import PyStr Threading.

(** The statements that read [_isRunning]: the checkpoints reached with a
    worker. *)
Definition polls (a : action) : bool :=
  match a with
  | Checkpoint (Some _) _ | MultiCheckpoint (Some _) _ _ => true
  | _ => false
  end.

Definition poll_free (p : list action) : bool := forallb (fun a => negb (polls a)) p.

(** The same environment without a cancel request. *)
Definition quiet (env : Env) : Env :=
  {| cancelAt := None; fails := fails env |}.

(** The argument of the [WorkingException] a checkpoint raises. *)
Definition cancel_message (a : action) (w : Worker) : string :=
  match a with
  | Checkpoint _ _ =>
      "You cancelled the plotting process " ++ spaces31 ++
      "while <b>" ++ lower (oldMessage w) ++ ".</b>"
  | MultiCheckpoint _ currentNumber plotNumber =>
      "You cancelled the plotting process while " ++ spaces31 ++
      "<b>producing plot " ++ str_nat currentNumber ++ "/" ++
      str_nat plotNumber ++ "</b>."
  | _ => ""
  end.

(** What a passed checkpoint leaves behind. *)
Definition progressed (a : action) (s : State) : State :=
  match a with
  | Checkpoint _ message =>
      set_self {| _isRunning := _isRunning (self s); oldMessage := message |}
        (emit (progressUpdate message) (GUILogger debug message s))
  | MultiCheckpoint _ _ _ => emit multiProgress s
  | _ => s
  end.

Lemma cancels_quiet env pc : cancels (quiet env) pc = false.
Proof. reflexivity. Qed.

Lemma step_quiet env pc a s : step (quiet env) pc a s = step env pc a s.
Proof. destruct a; reflexivity. Qed.

Lemma exec_app env p1 : forall p2 pc s,
  exec env pc (p1 ++ p2)%list s =
    match exec env pc p1 s with
    | Done s1 => exec env (pc + length p1) p2 s1
    | r => r
    end.
Proof.
  induction p1 as [|a p1 IH]; intros p2 pc s; simpl.
  - by rewrite Nat.add_0_r.
  - destruct (step env pc a _) as [s2|e k s2]; [|done].
    rewrite IH. by replace (S pc + length p1) with (pc + S (length p1)) by lia.
Qed.

Lemma exec_before_cancel env t p : forall pc s,
  cancelAt env = Some t -> pc + length p <= t ->
  exec env pc p s = exec (quiet env) pc p s.
Proof.
  induction p as [|a p IH]; intros pc s Ht Hle; simpl in *; [done|].
  assert (cancels env pc = false) as ->.
  { unfold cancels. rewrite Ht. apply bool_decide_eq_false. intros [=]. lia. }
  rewrite step_quiet.
  destruct (step env pc a s); [|done]. apply IH; [done|lia].
Qed.

Lemma exec_after_cancel env t p : forall pc s,
  cancelAt env = Some t -> t < pc ->
  exec env pc p s = exec (quiet env) pc p s.
Proof.
  induction p as [|a p IH]; intros pc s Ht Hlt; simpl in *; [done|].
  assert (cancels env pc = false) as ->.
  { unfold cancels. rewrite Ht. apply bool_decide_eq_false. intros [=]. lia. }
  rewrite step_quiet.
  destruct (step env pc a s); [|done]. apply IH; [done|lia].
Qed.

(** A cancel request at statement [t]: [stopProcess] runs, and the
    remaining statements run as they would without the request. *)
Lemma exec_at_cancel env t a p s :
  cancelAt env = Some t ->
  exec env t (a :: p) s = exec (quiet env) t (a :: p) (stopProcess s).
Proof.
  intros Ht. simpl.
  assert (cancels env t = true) as ->.
  { unfold cancels. rewrite Ht. by apply bool_decide_eq_true. }
  rewrite step_quiet.
  destruct (step env t a _); [|done].
  apply (exec_after_cancel env t); [done|lia].
Qed.

(** Statements other than checkpoints neither read nor write the worker,
    and the only exceptions they raise come from the libraries. *)
Lemma poll_free_step env pc a s :
  polls a = false ->
  match step env pc a s with
  | Done s' => self s' = self s
  | Raised e _ s' => s' = s /\ exists name text, e = OtherException name text
  end.
Proof.
  destruct a as [[[]|] m|[[]|] i n|c t|n f|f|n t]; simpl; try done.
  - destruct (fails env pc) as [[name text]|]; [|done]. split; eauto.
  - split; eauto.
Qed.

Lemma poll_free_exec env p : forall pc s,
  poll_free p = true ->
  match exec (quiet env) pc p s with
  | Done s' => self s' = self s
  | Raised e _ s' => self s' = self s /\ exists name text, e = OtherException name text
  end.
Proof.
  induction p as [|a p IH]; intros pc s Hp; simpl in *; [done|].
  apply andb_true_iff in Hp as [Ha Hp]. apply negb_true_iff in Ha.
  pose proof (poll_free_step (quiet env) pc a s Ha) as Hs.
  destruct (step (quiet env) pc a s) as [s1|e k s1].
  - specialize (IH (S pc) s1 Hp).
    destruct (exec (quiet env) (S pc) p s1); by rewrite <- Hs.
  - destruct Hs as [-> ?]. done.
Qed.

(** A checkpoint reached with [_isRunning] False raises; reached with
    [_isRunning] True it emits and returns. *)
Lemma step_checkpoint env pc a s :
  polls a = true ->
  step env pc a s =
    if _isRunning (self s) then Done (progressed a s)
    else Raised (WorkingException (cancel_message a (self s))) pc s.
Proof. destruct a as [[[]|] m|[[]|] i n|c t|n f|f|n t]; simpl; done. Qed.

(** C1. A cancel request that arrives before statement [t] of a worker run
    (any sequence [p1 ++ p2 ++ a :: p3] of statements, [t] being the length
    of [p1]) sets [_isRunning] to False and changes nothing else in the
    control flow: the statements [p2] up to the next checkpoint [a] run
    exactly as they would in a run without the request, and the checkpoint
    then raises [WorkingException] without emitting; the statements after
    it never run.  When no checkpoint follows, the request has no effect on
    the control flow at all, and no [WorkingException] is raised.  As long
    as [_isRunning] is True a checkpoint emits its progress signal and the
    run goes on with the next statement. *)
Theorem cancel_takes_effect_at_next_checkpoint
    (env : Env) (t : nat) (p1 p2 p3 : list action) (a : action)
    (s s1 : State) :
  cancelAt env = Some t ->
  length p1 = t ->
  exec (quiet env) 0 p1 s = Done s1 ->
  poll_free p2 = true ->
  polls a = true ->
  (* the next checkpoint raises, after all of [p2] has run *)
  exec env 0 (p1 ++ p2 ++ a :: p3)%list s =
    match exec (quiet env) t p2 (stopProcess s1) with
    | Done s2 =>
        Raised (WorkingException (cancel_message a (self s1)))
               (t + length p2) s2
    | r => r
    end /\
  (* without a later checkpoint the request changes nothing *)
  (forall b p2', p2 = b :: p2' ->
     exec env 0 (p1 ++ p2)%list s = exec (quiet env) t p2 (stopProcess s1) /\
     forall m k s', exec env 0 (p1 ++ p2)%list s <> Raised (WorkingException m) k s') /\
  (* a checkpoint passed while the worker is running *)
  (forall pc rest s',
     _isRunning (self s') = true -> pc <> t ->
     exec env pc (a :: rest) s' = exec env (S pc) rest (progressed a s') /\
     signals (progressed a s') =
       (signals s' ++ [match a with
                       | MultiCheckpoint _ _ _ => multiProgress
                       | Checkpoint _ m => progressUpdate m
                       | _ => multiProgress
                       end])%list /\
     _isRunning (self (progressed a s')) = true).
Proof.
  intros Ht Hlen H1 Hp2 Ha.
  assert (Hpre : forall rest, rest <> [] ->
            exec env 0 (p1 ++ rest)%list s =
            exec (quiet env) t rest (stopProcess s1)).
  { intros rest Hrest. rewrite exec_app.
    rewrite (exec_before_cancel env t) by (done || lia).
    rewrite H1. simpl. rewrite Hlen.
    destruct rest as [|b rest]; [done|]. by apply exec_at_cancel. }
  split; [|split].
  - rewrite Hpre by (by destruct p2).
    rewrite exec_app.
    pose proof (poll_free_exec env p2 t (stopProcess s1) Hp2) as Hself.
    destruct (exec (quiet env) t p2 (stopProcess s1)) as [s2|e k s2]; [|done].
    simpl. rewrite step_checkpoint by done.
    rewrite Hself. simpl. by destruct a.
  - intros b p2' ->. rewrite Hpre by done. split; [done|].
    intros m k s' Hr.
    pose proof (poll_free_exec env (b :: p2') t (stopProcess s1) Hp2) as Hself.
    rewrite Hr in Hself. destruct Hself as [_ (name & text & [=])].
  - intros pc rest s' Hrun Hpc. split; [|split].
    + simpl. assert (cancels env pc = false) as ->.
      { unfold cancels. rewrite Ht. apply bool_decide_eq_false.
        intros [=]. congruence. }
      rewrite step_checkpoint by done. by rewrite Hrun.
    + destruct a as [[[]|] m|[[]|] i n|c x|n f|f|n x]; simpl in *; done.
    + destruct a as [[[]|] m|[[]|] i n|c x|n f|f|n x]; simpl in *; done.
Qed.

End Cancellation.

(* ===================================================================== *)
(** ** The worker entry points *)
(* ===================================================================== *)

Section EntryPoints.
Import PyStr Threading.

(** A [WorkingException] only ever leaves a checkpoint, and only when
    [_isRunning] is False. *)
Lemma raised_WorkingException_stopped env p : forall pc s m k s',
  exec env pc p s = Raised (WorkingException m) k s' ->
  _isRunning (self s') = false.
Proof.
  induction p as [|a p IH]; intros pc s m k s' H; simpl in H; [done|].
  destruct (step env pc a _) as [s2|e k2 s2] eqn:Hs; [by eapply IH|].
  injection H as -> -> ->.
  destruct a as [[[]|] x|[[]|] i n|c x|n f|f|n x]; simpl in Hs;
    try done;
    try (destruct (_isRunning (self _)) eqn:Hr; [done|];
         by injection Hs as _ _ <-).
  destruct (fails env pc) as [[??]|]; done.
Qed.

(** What [handle] and the final [emit] make of the outcome [r] of the
    evaluation, for a [finished] signal built by [fin]. *)
Definition handled (fin : bool -> Signal) (r : outcome) (s' : State) : Prop :=
  match r with
  | Done s1 =>
      s' = emit (fin (_isRunning (self s1))) s1
  | Raised (WorkingException arg) _ s1 =>
      logged s' = (logged s1 ++ [(error, arg)])%list /\
      stderr s' = stderr s1 /\
      signals s' = (signals s1 ++ [fin false])%list /\
      gui s' = gui s1
  | Raised (OtherException name text) _ s1 =>
      stderr s' = (stderr s1 ++ [OtherException name text])%list /\
      logged s' =
        (logged s1 ++
         [(exception, internal_exception_text name text);
          (log 29, "I've printed the traceback for you.")])%list /\
      _isRunning (self s') = false /\
      signals s' = (signals s1 ++ [fin false])%list /\
      gui s' = gui s1
  end.

(** C2. Whatever the evaluation does inside [plot] of either worker, [plot]
    returns normally.  A [WorkingException] is logged as an error; any
    other exception has its traceback printed, is logged with
    [GUILogger.exception] followed by the level-29 note, and sets
    [_isRunning] to False.  In every case the last thing the worker does is
    emit [finished], which carries False after an exception of either
    kind. *)
Theorem plot_catches_and_finishes (env : Env) (P : Params) (R : Request)
    (s : State) :
  (exists s',
     PlotSingleWorker_plot env P s = Done s' /\
     handled finished
       (exec env 0 (evaluateSingle P (Some progressWorker)) s) s') /\
  (exists s',
     PlotMultipleWorker_plot env P R s = Done s' /\
     handled (fun ok => finished_dir ok (Directory R))
       (exec env 0 (evaluateMultiple P R (Some progressWorker)) s) s').
Proof.
  split; (eexists; split; [reflexivity|]).
  - destruct (exec env 0 (evaluateSingle _ _) s)
      as [s1|[arg|name text] k s1] eqn:Hr; simpl.
    + done.
    + apply raised_WorkingException_stopped in Hr. by rewrite Hr.
    + by rewrite <- app_assoc.
  - destruct (exec env 0 (evaluateMultiple _ _ _) s)
      as [s1|[arg|name text] k s1] eqn:Hr; simpl.
    + done.
    + apply raised_WorkingException_stopped in Hr. by rewrite Hr.
    + by rewrite <- app_assoc.
Qed.

End EntryPoints.

(* ===================================================================== *)
(** ** What an aborted plot leaves behind *)
(* ===================================================================== *)

Section AbortedPlot.
Import PyStr Threading.

(** The three buttons [stopProcess] disables. *)
Definition disable_buttons (w : PlotWindow) : PlotWindow :=
  set_externalWindowButton false
    (set_writeFileButton false (set_restoreSettings false w)).

(** Has the cancel request arrived by the time statement [k] is reached? *)
Definition cancel_requested (env : Env) (k : nat) : bool :=
  match cancelAt env with
  | Some t => (t <=? k)%nat
  | None => false
  end.

(** Statements that leave the window objects and the reference to the
    current one alone. *)
Definition window_neutral (a : action) : Prop :=
  match a with
  | Call _ f | Assign f =>
      forall g, windows (f g) = windows g /\
                CurrentPlotWindow (f g) = CurrentPlotWindow g
  | _ => True
  end.

(** The index of the first statement of [evaluateSingle] that assigns to
    the plot window: [self.plot = plot] right after the "Starting the plot"
    checkpoint of [startPlot], and [self.arr = arr] at the start of
    [makeProfilePlot] for a profile plot. *)
Definition window_phase (P : Params) : nat :=
  match PlotMode P with
  | Slice => 12
  | Projection => if DomainDiv P then 13 else 12
  | Line => 13
  | Phase => if WeightFieldNone P then 12 else 11
  | Profile =>
      3 + length (gather P) + 1 +
      (if WeightFieldNone P && negb (XAxisTime P) then 1 else 0)
  end.

Lemma step_raised env pc a s e k s' :
  step env pc a s = Raised e k s' -> k = pc /\ s' = s.
Proof.
  destruct a as [[[]|] x|[[]|] i n|c x|n f|f|n x]; simpl; try done.
  - destruct (_isRunning (self s)); [done|]. by intros [= _ <- <-].
  - destruct (_isRunning (self s)); [done|]. by intros [= _ <- <-].
  - destruct (fails env pc) as [[??]|]; [|done]. by intros [= _ <- <-].
  - by intros [= _ <- <-].
Qed.

(** No rollback: an aborted run leaves the state in which the failing
    statement was reached. *)
Lemma exec_raised_prefix env p : forall pc s e k s',
  exec env pc p s = Raised e k s' ->
  pc <= k < pc + length p /\
  exists s'',
    exec env pc (take (k - pc) p) s = Done s'' /\
    s' = if cancels env k then stopProcess s'' else s''.
Proof.
  induction p as [|a p IH]; intros pc s e k s' H; simpl in H; [done|].
  destruct (step env pc a _) as [s2|e2 k2 s2] eqn:Hs.
  - apply IH in H as [Hk (s'' & Hex & ->)].
    split; [simpl; lia|]. exists s''. split; [|done].
    replace (k - pc) with (S (k - S pc)) by lia. simpl. by rewrite Hs.
  - injection H as -> -> ->. apply step_raised in Hs as [-> ->].
    split; [simpl; lia|]. rewrite Nat.sub_diag. simpl. eauto.
Qed.

Lemma stopProcess_windows s r :
  windows (gui (stopProcess s)) r =
    if bool_decide (r = CurrentPlotWindow (gui s))
    then disable_buttons (windows (gui s) r) else windows (gui s) r.
Proof.
  unfold stopProcess, on_window, disable_buttons. simpl.
  case_bool_decide; case_decide; done.
Qed.

Lemma disable_buttons_idemp w :
  disable_buttons (disable_buttons w) = disable_buttons w.
Proof. reflexivity. Qed.

Lemma step_neutral env pc a s s' :
  window_neutral a -> step env pc a s = Done s' ->
  windows (gui s') = windows (gui s) /\
  CurrentPlotWindow (gui s') = CurrentPlotWindow (gui s).
Proof.
  destruct a as [[[]|] x|[[]|] i n|c x|n f|f|n x]; simpl; intros Hn H;
    try (destruct (_isRunning (self s)); [|done]);
    try (destruct (fails env pc) as [[??]|]; [done|]);
    try (injection H as <-; simpl; done || apply Hn); done.
Qed.

(** Window-neutral statements leave every window as it was, except that a
    cancel request in their midst disables the buttons of the current
    one. *)
Lemma exec_neutral env p : forall pc s s',
  Forall window_neutral p ->
  exec env pc p s = Done s' ->
  CurrentPlotWindow (gui s') = CurrentPlotWindow (gui s) /\
  forall r,
    windows (gui s') r =
      if match cancelAt env with
         | Some t => bool_decide (pc <= t < pc + length p)
         | None => false
         end && bool_decide (r = CurrentPlotWindow (gui s))
      then disable_buttons (windows (gui s) r) else windows (gui s) r.
Proof.
  induction p as [|a p IH]; intros pc s s' Hn H; simpl in H.
  - injection H as <-. split; [done|]. intros r.
    destruct (cancelAt env); [|done].
    rewrite bool_decide_eq_false_2; [done|simpl; lia].
  - inversion Hn as [|?? Ha Hp]; subst.
    destruct (step env pc a _) as [s2|] eqn:Hs; [|done].
    apply step_neutral in Hs as [Hw Hc]; [|done].
    apply IH in H as [Hc' Hw']; [|done].
    unfold cancels in *.
    destruct (cancelAt env) as [t|] eqn:Ht.
    + destruct (decide (t = pc)) as [->|Hne].
      * rewrite bool_decide_eq_true_2 in Hw, Hc by done. simpl in Hc.
        split; [congruence|]. intros r. rewrite Hw', Hc.
        rewrite (bool_decide_eq_false_2 (S pc <= pc < _)) by lia.
        rewrite (bool_decide_eq_true_2 (pc <= pc < _)) by (simpl; lia).
        simpl. rewrite Hw. apply stopProcess_windows.
      * rewrite bool_decide_eq_false_2 in Hw, Hc by congruence.
        split; [congruence|]. intros r. rewrite Hw', Hc, Hw.
        by rewrite (bool_decide_ext (S pc <= t < S pc + length p)
                                    (pc <= t < pc + length (a :: p)))
          by (simpl; lia).
    + rewrite bool_decide_eq_false_2 in Hw, Hc by done.
      split; [congruence|]. intros r. by rewrite Hw', Hc, Hw.
Qed.

Lemma gather_neutral worker l :
  Forall window_neutral (map (gather_action worker) l).
Proof.
  apply Forall_map, Forall_forall. intros [n|c t|m] _; simpl; done.
Qed.

Ltac neutral_list :=
  repeat first
    [ apply List.Forall_nil
    | apply List.Forall_cons; [simpl; try done; intros; by split|] ].

(** Up to [window_phase] the statements of [evaluateSingle] are
    window-neutral. *)
Lemma evaluateSingle_split P worker :
  exists l1 l2,
    evaluateSingle P worker = (l1 ++ l2)%list /\
    length l1 = window_phase P /\
    Forall window_neutral l1.
Proof.
  unfold evaluateSingle, modePlot, window_phase.
  destruct P as [m d2 dd wf sa ts ap xt mp ga dn dt].
  destruct m; [simpl ..|].
  - eexists (take 12 _), (drop 12 _). rewrite take_drop.
    split; [done|]. split; [done|]. simpl. neutral_list.
  - destruct dd; simpl.
    + eexists (take 13 _), (drop 13 _). rewrite take_drop.
      split; [done|]. split; [done|]. simpl. neutral_list.
    + eexists (take 12 _), (drop 12 _). rewrite take_drop.
      split; [done|]. split; [done|]. simpl. neutral_list.
  - eexists (take 13 _), (drop 13 _). rewrite take_drop.
    split; [done|]. split; [done|]. simpl. neutral_list.
  - destruct wf; simpl.
    + eexists (take 12 _), (drop 12 _). rewrite take_drop.
      split; [done|]. split; [done|]. simpl. neutral_list.
    + eexists (take 11 _), (drop 11 _). rewrite take_drop.
      split; [done|]. split; [done|]. simpl. neutral_list.
  - unfold ProfilePlot. cbn [PlotMode gather WeightFieldNone XAxisTime].
    match goal with
    | |- context [ (map ?f ga ++ [?b] ++ ?warn ++ ?rest)%list ] =>
        exists ([Checkpoint worker
                   ("Creating the initial " ++ lower (mode_name Profile) ++
                    " plot");
                 Logger (log 29)
                   ("Producing the requested " ++ lower (mode_name Profile) ++
                    " plot...");
                 Assign (fun g => set_oldGridUnit (GridUnit g) g)] ++
                map f ga ++ [b] ++ warn)%list,
               (rest ++ [Checkpoint worker "Finishing"])%list
    end.
    split; [|split].
    + by rewrite <- !app_assoc.
    + rewrite !length_app, length_map. simpl.
      destruct (wf && negb xt); simpl; lia.
    + apply Forall_app. split; [neutral_list|].
      apply Forall_app. split; [apply gather_neutral|].
      apply Forall_app. split; [neutral_list|].
      destruct (wf && negb xt); neutral_list.
Qed.

(** When [evaluateSingle] is aborted by a cancellation or an exception at
    statement [k], the state is the one in which statement [k] was
    reached.  If [k] is no later than the first assignment to the window
    ([k <= window_phase P]), every plot window is as it was before the run,
    except that a cancel request has disabled the three buttons of the
    current one. *)
Lemma before_window_phase
    (env : Env) (P : Params) (s : State) (e : exn) (k : nat) (s' : State) :
  exec env 0 (evaluateSingle P (Some progressWorker)) s = Raised e k s' ->
  (exists s'',
     exec env 0 (take k (evaluateSingle P (Some progressWorker))) s
       = Done s'' /\
     s' = if cancels env k then stopProcess s'' else s'') /\
  (k <= window_phase P ->
   CurrentPlotWindow (gui s') = CurrentPlotWindow (gui s) /\
   forall r,
     windows (gui s') r =
       if cancel_requested env k && bool_decide (r = CurrentPlotWindow (gui s))
       then disable_buttons (windows (gui s) r) else windows (gui s) r).
Proof.
  intros H. apply exec_raised_prefix in H as [Hk (s'' & Hex & ->)].
  rewrite Nat.sub_0_r in Hex. split; [eauto|]. intros Hle.
  destruct (evaluateSingle_split P (Some progressWorker))
    as (l1 & l2 & Heq & Hlen & Hn).
  rewrite Heq in Hex. rewrite take_app_le in Hex by lia.
  apply exec_neutral in Hex as [Hc Hw]; [|by apply Forall_take].
  rewrite length_take in Hw.
  unfold cancel_requested, cancels.
  destruct (cancelAt env) as [t|] eqn:Ht.
  - destruct (decide (t = k)) as [->|Hne].
    + rewrite bool_decide_eq_true_2 by done. split.
      * by rewrite <- Hc.
      * intros r. rewrite stopProcess_windows, Hc, Hw.
        rewrite Nat.leb_refl.
        rewrite (bool_decide_eq_false_2 (0 <= k < _)) by lia. simpl.
        by case_bool_decide.
    + rewrite bool_decide_eq_false_2 by congruence.
      split; [done|]. intros r. rewrite Hw.
      destruct (t <=? k)%nat eqn:Hl.
      * apply Nat.leb_le in Hl. by rewrite bool_decide_eq_true_2 by lia.
      * apply Nat.leb_gt in Hl. by rewrite bool_decide_eq_false_2 by lia.
  - rewrite bool_decide_eq_false_2 by done.
    split; [done|]. intros r. by rewrite Hw.
Qed.

End AbortedPlot.


(* ===================================================================== *)
(** ** Evaluating a series *)
(* ===================================================================== *)

Section SeriesEvaluation.
Import PyStr Threading.

(** The effect of a statement on the GUI state when its library call
    returns. *)
Definition gui_step (g : Gui) (a : action) : Gui :=
  match a with
  | Call _ f | Assign f => f g
  | _ => g
  end.

Definition gui_run (p : list action) (g : Gui) : Gui := fold_left gui_step p g.

Definition throws (a : action) : bool :=
  match a with
  | Throw _ _ => true
  | _ => false
  end.

Definition no_throw (p : list action) : bool :=
  forallb (fun a => negb (throws a)) p.

(** The plot a routine builds from dataset [j]. *)
Definition plot_of (P : Params) (j : nat) : PlotObj :=
  {| obj_mode := PlotMode P; obj_ds := j |}.

(** The dataset indices [evaluateMultiple] selects from [a, a + n). *)
Definition selected_from (R : Request) (a n : nat) : list nat :=
  List.filter (fun j => (j mod OnlyEvery R =? 0)%nat) (seq a n).

Definition selected (R : Request) : list nat := selected_from R 0 (Length R).

(** The name [evaluateMultiple] passes to [saveFigure] for dataset [j]. *)
Definition frame_name (P : Params) (R : Request) (j : nat) : string :=
  Directory R ++ "/" ++ mode_name (PlotMode P) ++ "plot_" ++ str_nat (j + 1).

(** The attributes of a window that describe what it shows. *)
Definition content (w : PlotWindow) :=
  (plot w, arr w, figure w, canvas w, hasProfile w, Param_Dict_copy w).

(** What one call of a plot routine does to the GUI state. *)
Definition plotted (P : Params) (g g' : Gui) : Prop :=
  let p := plot_of P (CurrentDataSet g) in
  history g' = (history g ++ [p])%list /\
  saved g' = saved g /\
  CurrentDataSet g' = CurrentDataSet g /\
  CurrentPlotWindow g' = CurrentPlotWindow g /\
  slider g' = slider g /\
  (forall r, r <> CurrentPlotWindow g -> windows g' r = windows g r) /\
  Param_Dict_copy (current g') = Some p /\
  shows (Some p) ∈ canvas (current g') /\
  figure (current g') = canvas (current g').

Lemma gui_run_app p1 p2 g :
  gui_run (p1 ++ p2)%list g = gui_run p2 (gui_run p1 g).
Proof. apply fold_left_app. Qed.

Lemma gui_run_gather w l g : gui_run (map (gather_action w) l) g = g.
Proof. induction l as [|[]]; simpl; auto. Qed.

Lemma no_throw_app p1 p2 : no_throw (p1 ++ p2)%list = no_throw p1 && no_throw p2.
Proof. apply forallb_app. Qed.

Lemma no_throw_gather w l : no_throw (map (gather_action w) l) = true.
Proof. induction l as [|[]]; simpl; auto. Qed.

(** Without a cancel request and without a failing library call, statements
    that do not throw run to the end, and the worker keeps running. *)
Lemma exec_gui_run env :
  cancelAt env = None -> (forall pc, fails env pc = None) ->
  forall p pc s,
    no_throw p = true -> _isRunning (self s) = true ->
    exists s',
      exec env pc p s = Done s' /\
      gui s' = gui_run p (gui s) /\
      _isRunning (self s') = true.
Proof.
  intros Hc Hf p. induction p as [|a p IH]; intros pc s Hp Hrun; simpl.
  - eauto.
  - apply andb_true_iff in Hp as [Ha Hp].
    assert (cancels env pc = false) as -> by (unfold cancels; by rewrite Hc).
    destruct a as [[[]|] x|[[]|] i n|c x|n f|f|n x]; simpl in Ha |- *;
      rewrite ?Hrun, ?Hf; try done;
      (edestruct (IH (S pc)) as (s' & He & Hg & Hr);
       [ exact Hp
       |
       | exists s'; split; [exact He|]; split; [by rewrite Hg|exact Hr] ]);
      done.
Qed.

Ltac modes :=
  repeat match goal with
  | |- context [decide (?a = ?b)] =>
      first [ rewrite (decide_True (P := a = b)) by reflexivity
            | rewrite (decide_False (P := a = b)) by discriminate ]
  | |- context [decide (?a = ?b \/ ?c = ?d)] =>
      first [ rewrite (decide_True (P := a = b \/ c = d)) by (by (left + right))
            | rewrite (decide_False (P := a = b \/ c = d)) by (by intros [|]) ]
  end.

Ltac crunch c :=
  unfold plotted, plot_of, gui_run; modes;
  cbn -[on_window draw current build elem_of fold_left];
  unfold current;
  cbn -[decide elem_of];
  destruct (decide (c = c)) as [_|?]; [|done];
  cbn -[decide elem_of];
  repeat split; try reflexivity;
  [ intros r Hr; destruct (decide (r = c)); [done|]; reflexivity
  | rewrite ?elem_of_app, ?elem_of_cons, ?list_elem_of_singleton; tauto ].

(** Every plot routine installs exactly one plot, the one of the current
    dataset, in the current window, draws it on the canvas, and touches no
    other window. *)
Lemma modePlot_gui P w g : plotted P g (gui_run (modePlot P w) g).
Proof.
  destruct P as [m d2 dd wf sa ts ap xt mp ga dn dt].
  destruct g as [W c ds gu ogu ivp pv hi sv sl il cb].
  unfold modePlot; cbn [PlotMode].
  destruct m.
  - unfold SlicePlot, finallyDrawPlot, startPlot, makePlot, prepareFigure,
      copyParamDict.
    cbn [PlotMode DimMode2D]. destruct d2; crunch c.
  - unfold ProjectionPlot, finallyDrawPlot, startPlot, makePlot,
      prepareFigure, copyParamDict.
    cbn [PlotMode DimMode2D DomainDiv]. destruct dd, d2; crunch c.
  - unfold LinePlot, finallyDrawPlot, startPlot, makePlot, prepareFigure,
      copyParamDict.
    cbn [PlotMode DimMode2D Timestamp]. destruct d2, ts; crunch c.
  - unfold PhasePlot, finallyDrawPlot, startPlot, makePlot, prepareFigure,
      copyParamDict.
    cbn [PlotMode DimMode2D Timestamp WeightFieldNone].
    destruct wf, d2, ts; crunch c.
  - unfold ProfilePlot. cbn [PlotMode gather WeightFieldNone XAxisTime].
    rewrite gui_run_app, gui_run_gather.
    unfold makeProfilePlot, prepareFigure, copyParamDict.
    cbn [PlotMode AddProfile Timestamp XAxisTime manyProfiles].
    generalize (wf && negb xt) (ts && negb xt). intros b1 b2.
    destruct b1, ap;
      [ crunch c | destruct b2; [destruct mp|]; crunch c
      | crunch c | destruct b2; [destruct mp|]; crunch c ].
Qed.

Lemma no_throw_modePlot P w : no_throw (modePlot P w) = true.
Proof.
  destruct P as [m d2 dd wf sa ts ap xt mp ga dn dt].
  unfold modePlot; cbn [PlotMode].
  destruct m.
  - by destruct d2.
  - by destruct dd, d2.
  - by destruct d2, ts.
  - by destruct wf, d2, ts.
  - unfold ProfilePlot. cbn [PlotMode gather WeightFieldNone XAxisTime].
    rewrite no_throw_app, no_throw_gather.
    unfold makeProfilePlot. cbn [PlotMode AddProfile Timestamp XAxisTime manyProfiles].
    generalize (wf && negb xt) (ts && negb xt). intros b1 b2.
    by destruct b1, ap, b2, mp.
Qed.

(** [getSliderInput] makes the window and the dataset of index [j] the
    current ones and changes what no window shows. *)
Lemma getSliderInput_gui P j g :
  let g' := gui_run (getSliderInput P j) g in
  CurrentPlotWindow g' = SeriesWindow j /\
  CurrentDataSet g' = j /\
  history g' = history g /\
  saved g' = saved g /\
  forall r, content (windows g' r) = content (windows g r).
Proof.
  destruct g as [W c ds gu ogu ivp pv hi sv sl il cb].
  unfold getSliderInput, gui_run.
  destruct (decide (PlotMode P = Profile));
    cbn -[decide]; (repeat split; try reflexivity);
    intros r; destruct (decide (r = SeriesWindow j));
    destruct (decide (r = c)); reflexivity.
Qed.

Lemma no_throw_getSliderInput P j : no_throw (getSliderInput P j) = true.
Proof. unfold getSliderInput. by destruct (decide (PlotMode P = Profile)). Qed.

(** One selected round of the loop of [evaluateMultiple]. *)
Lemma evaluateMultiple_body_gui P R w j g :
  OnlyEvery R <> 0 -> j mod OnlyEvery R = 0 ->
  let g' := gui_run (evaluateMultiple_body P R w j j) g in
  let win := windows g' (SeriesWindow j) in
  history g' = (history g ++ [plot_of P j])%list /\
  saved g' =
    (saved g ++
     if MakeMovie R then [(frame_name P R j, figure win)] else [])%list /\
  Param_Dict_copy win = Some (plot_of P j) /\
  shows (Some (plot_of P j)) ∈ canvas win /\
  forall r, r <> SeriesWindow j ->
            content (windows g' r) = content (windows g r).
Proof.
  intros Hk Hj. unfold evaluateMultiple_body.
  rewrite (proj2 (Nat.eqb_neq _ _) Hk), Hj. cbn [Nat.eqb].
  rewrite !gui_run_app.
  destruct (getSliderInput_gui P j g) as (Hc & Hd & Hh & Hs & Hw).
  set (g1 := gui_run (getSliderInput P j) g) in *.
  destruct (modePlot_gui P w g1)
    as (Hh2 & Hs2 & Hd2 & Hc2 & _ & Hw2 & Hcopy & Hshow & Hfig).
  set (g2 := gui_run (modePlot P w) g1) in *.
  unfold current in *. rewrite Hc2, Hc in *. rewrite Hd in *.
  cbn [gui_run fold_left gui_step].
  destruct (MakeMovie R); unfold saveFigure, frame_name, current;
    cbn [gui_run fold_left gui_step app saved set_saved history windows
         CurrentPlotWindow];
    rewrite ?Hc2, ?Hc, Hh2, Hs2, Hh, Hs; rewrite ?app_nil_r;
    (repeat split; try done);
    intros r Hr; by rewrite Hw2, Hw.
Qed.

Lemma no_throw_body P R w i j :
  OnlyEvery R <> 0 -> no_throw (evaluateMultiple_body P R w i j) = true.
Proof.
  intros Hk. unfold evaluateMultiple_body.
  rewrite (proj2 (Nat.eqb_neq _ _) Hk).
  destruct (_ =? 0)%nat; [|done].
  rewrite !no_throw_app, no_throw_getSliderInput, no_throw_modePlot.
  by destruct (MakeMovie R).
Qed.

Lemma no_throw_loop P R w : forall js i,
  OnlyEvery R <> 0 -> no_throw (evaluateMultiple_loop P R w i js) = true.
Proof.
  induction js as [|j js IH]; intros i Hk; simpl; [done|].
  by rewrite no_throw_app, no_throw_body, IH.
Qed.

Lemma selected_from_S R a n :
  selected_from R a (S n) =
    if (a mod OnlyEvery R =? 0)%nat then a :: selected_from R (S a) n
    else selected_from R (S a) n.
Proof. reflexivity. Qed.

Lemma elem_of_selected_from R a n j :
  j ∈ selected_from R a n <-> (a <= j < a + n) /\ j mod OnlyEvery R = 0.
Proof.
  unfold selected_from.
  rewrite list_elem_of_In, filter_In, <- list_elem_of_In, elem_of_seq.
  by rewrite Nat.eqb_eq.
Qed.

(** The loop of [evaluateMultiple] over the datasets [a, a + n), entered
    with the counter [i] equal to [a]. *)
Lemma evaluateMultiple_loop_gui P R w :
  OnlyEvery R <> 0 ->
  forall n a g,
    let g' := gui_run (evaluateMultiple_loop P R w a (seq a n)) g in
    history g' = (history g ++ map (plot_of P) (selected_from R a n))%list /\
    saved g' =
      (saved g ++
       if MakeMovie R
       then map (fun j => (frame_name P R j,
                           figure (windows g' (SeriesWindow j))))
                (selected_from R a n)
       else [])%list /\
    (forall j, j ∈ selected_from R a n ->
       Param_Dict_copy (windows g' (SeriesWindow j)) = Some (plot_of P j) /\
       shows (Some (plot_of P j)) ∈ canvas (windows g' (SeriesWindow j))) /\
    (forall r, (forall j, j ∈ selected_from R a n -> r <> SeriesWindow j) ->
       content (windows g' r) = content (windows g r)).
Proof.
  intros Hk. induction n as [|n IH]; intros a g.
  - cbv zeta. simpl. rewrite app_nil_r.
    split; [done|]. split; [by destruct (MakeMovie R); rewrite app_nil_r|].
    split; [|done]. intros j Hj. by apply elem_of_nil in Hj.
  - cbv zeta. cbn [seq evaluateMultiple_loop].
    rewrite gui_run_app, selected_from_S.
    set (g1 := gui_run (evaluateMultiple_body P R w a a) g).
    destruct (IH (S a) g1) as (Hh & Hs & Hsel & Hrest).
    set (g2 := gui_run (evaluateMultiple_loop P R w (S a) (seq (S a) n)) g1)
      in *.
    assert (Hlater : forall j, j ∈ selected_from R (S a) n ->
                               SeriesWindow a <> SeriesWindow j).
    { intros j Hj [= ->]. apply elem_of_selected_from in Hj. lia. }
    destruct (a mod OnlyEvery R =? 0)%nat eqn:Ha.
    + apply Nat.eqb_eq in Ha.
      destruct (evaluateMultiple_body_gui P R w a g Hk Ha)
        as (Hh1 & Hs1 & Hcopy & Hshow & Hw1).
      fold g1 in Hh1, Hs1, Hcopy, Hshow, Hw1.
      pose proof (Hrest _ Hlater) as Hkeep.
      injection Hkeep as Hk1 Hk2 Hk3 Hk4 Hk5 Hk6.
      split; [|split; [|split]].
      * rewrite Hh, Hh1. simpl. by rewrite <- app_assoc.
      * rewrite Hs, Hs1. destruct (MakeMovie R); [|by rewrite !app_nil_r].
        simpl. rewrite <- app_assoc. simpl. by rewrite Hk3.
      * intros j Hj. apply elem_of_cons in Hj as [->|Hj]; [|by apply Hsel].
        by rewrite Hk6, Hk4.
      * intros r Hr. rewrite Hrest; [apply Hw1|].
        -- apply Hr. by left.
        -- intros j Hj. apply Hr. by right.
    + assert (g1 = g) as ->.
      { unfold g1, evaluateMultiple_body.
        rewrite (proj2 (Nat.eqb_neq _ _) Hk), Ha. reflexivity. }
      done.
Qed.

(** Strictly increasing order of the selected indices. *)
Lemma selected_from_sorted R n : forall a,
  StronglySorted lt (selected_from R a n).
Proof.
  induction n as [|n IH]; intros a; [constructor|].
  rewrite selected_from_S. destruct (_ =? 0)%nat; [|apply IH].
  constructor; [apply IH|].
  apply Forall_forall. intros j Hj.
  apply elem_of_selected_from in Hj. lia.
Qed.

(** C5. A series evaluation that is not cancelled and whose library calls
    all return (stride at least 1, series not empty) runs to the end.  It
    produces one plot per dataset index [j < Length] divisible by
    [OnlyEvery], in increasing order of [j] and each in the window of its
    dataset, and none for any other index.  With [MakeMovie] it saves exactly
    one figure per plot, the figure of that plot's window, under the name
    [Directory/{mode}plot_{j+1}]; without it nothing is saved. *)
Theorem evaluateMultiple_plots_every_nth
    (env : Env) (P : Params) (R : Request) (s : State) :
  cancelAt env = None ->
  (forall pc, fails env pc = None) ->
  _isRunning (self s) = true ->
  OnlyEvery R <> 0 ->
  Length R <> 0 ->
  exists s',
    exec env 0 (evaluateMultiple P R (Some progressWorker)) s = Done s' /\
    history (gui s') =
      (history (gui s) ++ map (plot_of P) (selected R))%list /\
    (forall j, j ∈ selected R <-> j < Length R /\ j mod OnlyEvery R = 0) /\
    StronglySorted lt (selected R) /\
    (forall j, j ∈ selected R ->
       Param_Dict_copy (windows (gui s') (SeriesWindow j))
         = Some (plot_of P j) /\
       shows (Some (plot_of P j))
         ∈ canvas (windows (gui s') (SeriesWindow j))) /\
    saved (gui s') =
      (saved (gui s) ++
       if MakeMovie R
       then map (fun j => (frame_name P R j,
                           figure (windows (gui s') (SeriesWindow j))))
                (selected R)
       else [])%list.
Proof.
  intros Hc Hf Hrun Hk Hl.
  destruct (exec_gui_run env Hc Hf
              (evaluateMultiple P R (Some progressWorker)) 0 s)
    as (s' & Hex & Hg & _); [|done|].
  { unfold evaluateMultiple. rewrite !no_throw_app, no_throw_loop by done.
    by destruct (Length R). }
  exists s'. split; [done|]. rewrite Hg.
  unfold evaluateMultiple. rewrite !gui_run_app.
  cbn [gui_run fold_left gui_step].
  set (g0 := set_oldGridUnit _ _).
  destruct (evaluateMultiple_loop_gui P R (Some progressWorker) Hk
              (Length R) 0 g0) as (Hh & Hs & Hsel & _).
  set (g1 := gui_run _ g0) in *.
  assert (Hend : forall g, windows (gui_step g
                   match Length R with
                   | 0 => Throw "UnboundLocalError"
                            "local variable 'j' referenced before assignment"
                   | S n => Call "slider.setValue" (set_slider n)
                   end) = windows g /\
                 history (gui_step g
                   match Length R with
                   | 0 => Throw "UnboundLocalError"
                            "local variable 'j' referenced before assignment"
                   | S n => Call "slider.setValue" (set_slider n)
                   end) = history g /\
                 saved (gui_step g
                   match Length R with
                   | 0 => Throw "UnboundLocalError"
                            "local variable 'j' referenced before assignment"
                   | S n => Call "slider.setValue" (set_slider n)
                   end) = saved g).
  { intros g. by destruct (Length R). }
  destruct (Hend g1) as (-> & -> & ->).
  split; [exact Hh|]. split.
  { intros j. unfold selected. rewrite elem_of_selected_from. intuition lia. }
  split; [apply selected_from_sorted|]. split; [exact Hsel|exact Hs].
Qed.

End SeriesEvaluation.


(* ===================================================================== *)
(** ** GUFY.py: opening a file or a series *)
(* ===================================================================== *)

Module Loader.
Import PyStr.

(** What [yt.load] and the set-up code raise. *)
Inductive load_exn :=
| YTOutputNotIdentified
| OtherLoadError (name text : string).

(** The entries of the main window the two loaders assign.  A dataset is
    identified by the path it was loaded from. *)
Record Window := {
  Directory : string;
  Filename : string;
  Seriesname : string;
  SingleDataSet : option string;
  CurrentDataSet : option string;
  isValidFile : bool;
  isValidSeries : bool;
  Status_Dir : string;
  Status_File : string;
  Status_Series : string;
  alerts : list string;        (* texts shown by sut.alertUser *)
  logged : list LogEntry
}.

Definition set_dir (directory file_label : string) (w : Window) : Window :=
  {| Directory := directory; Filename := Filename w;
     Seriesname := Seriesname w; SingleDataSet := SingleDataSet w;
     CurrentDataSet := CurrentDataSet w; isValidFile := isValidFile w;
     isValidSeries := isValidSeries w; Status_Dir := directory;
     Status_File := file_label; Status_Series := Status_Series w;
     alerts := alerts w; logged := logged w |}.

Definition alertUser (text : string) (w : Window) : Window :=
  {| Directory := Directory w; Filename := Filename w;
     Seriesname := Seriesname w; SingleDataSet := SingleDataSet w;
     CurrentDataSet := CurrentDataSet w; isValidFile := isValidFile w;
     isValidSeries := isValidSeries w; Status_Dir := Status_Dir w;
     Status_File := Status_File w; Status_Series := Status_Series w;
     alerts := (alerts w ++ [text])%list; logged := logged w |}.

Definition GUILogger (c : LogCall) (text : string) (w : Window) : Window :=
  {| Directory := Directory w; Filename := Filename w;
     Seriesname := Seriesname w; SingleDataSet := SingleDataSet w;
     CurrentDataSet := CurrentDataSet w; isValidFile := isValidFile w;
     isValidSeries := isValidSeries w; Status_Dir := Status_Dir w;
     Status_File := Status_File w; Status_Series := Status_Series w;
     alerts := alerts w; logged := (logged w ++ [(c, text)])%list |}.

(** The assignments of [testValidFile] after a successful [loadFile]. *)
Definition file_loaded (ds filename : string) (w : Window) : Window :=
  {| Directory := Directory w; Filename := filename;
     Seriesname := ""; SingleDataSet := Some ds;
     CurrentDataSet := Some ds; isValidFile := true;
     isValidSeries := false; Status_Dir := Status_Dir w;
     Status_File := Status_File w; Status_Series := "";
     alerts := alerts w; logged := logged w |}.

(** The assignments of [askSeriesName]. *)
Definition set_series (name label : string) (w : Window) : Window :=
  {| Directory := Directory w; Filename := Filename w;
     Seriesname := name; SingleDataSet := SingleDataSet w;
     CurrentDataSet := CurrentDataSet w; isValidFile := isValidFile w;
     isValidSeries := isValidSeries w; Status_Dir := Status_Dir w;
     Status_File := Status_File w; Status_Series := label;
     alerts := alerts w; logged := logged w |}.

(** The assignments of [loadSeries] after a successful [yt.load]. *)
Definition series_loaded (w : Window) : Window :=
  {| Directory := Directory w; Filename := "";
     Seriesname := Seriesname w; SingleDataSet := SingleDataSet w;
     CurrentDataSet := CurrentDataSet w; isValidFile := true;
     isValidSeries := true; Status_Dir := Status_Dir w;
     Status_File := ""; Status_Series := Status_Series w;
     alerts := alerts w; logged := logged w |}.

(** The world outside the repository: what [yt.load] does with a path
    ([None]: it returns the dataset), and [setUpFile], the set-up run after
    a file was loaded, with what it raises or the state it leaves. *)
Record Env := {
  yt_load : string -> option load_exn;
  setUpFile : Window -> load_exn + Window
}.

(** How a handler ends.  [Prompting]: the dialog is open again and no
    answer has been given yet. *)
Inductive result (A : Type) :=
| Returned (v : A) (w : Window)
| Propagated (e : load_exn) (w : Window)
| Prompting (w : Window).
Arguments Returned {A} v w.
Arguments Propagated {A} e w.
Arguments Prompting {A} w.

(** [def loadFile(self, filename)] *)
Definition loadFile (env : Env) (filename : string) (w : Window)
    : result string :=
  match rsplit1 "/" filename with
  | None =>
      Propagated
        (OtherLoadError "ValueError"
           "not enough values to unpack (expected 2, got 1)") w
  | Some (directory, name) =>
      let w := set_dir directory ("File: " ++ name) w in
      match yt_load env filename with
      | Some e => Propagated e w
      | None =>
          Returned filename
            (GUILogger info ("Loading file '" ++ name ++ "'...") w)
      end
  end.

Definition file_alert : string := "Couldn't load this file. Please try again".
Definition file_warning : string :=
  "Couldn't load file. Click 'Open File' to start over.".

(** [def testValidFile(self)]; [answers] are the file names the user picks
    in the successive file dialogs, the empty string for a cancelled
    dialog. *)
Fixpoint testValidFile (env : Env) (answers : list string) (w : Window)
    : result unit :=
  match answers with
  | [] => Prompting w
  | filename :: answers' =>
      if bool_decide (filename <> "") then
        let attempt :=
          match loadFile env filename w with
          | Returned ds w1 =>
              match setUpFile env (file_loaded ds filename w1) with
              | inr w2 => Returned tt w2
              | inl e => Propagated e (file_loaded ds filename w1)
              end
          | Propagated e w1 => Propagated e w1
          | Prompting w1 => Prompting w1
          end in
        match attempt with
        | Propagated YTOutputNotIdentified w1 =>
            testValidFile env answers' (alertUser file_alert w1)
        | r => r
        end
      else Returned tt (GUILogger warning file_warning w)
  end.

(** [def askSeriesName(self)] for the answer [(seriesname, ok)] of the input
    dialog. *)
Definition askSeriesName (answer : string * bool) (w : Window)
    : bool * Window :=
  let '(seriesname, ok) := answer in
  if ok then (ok, set_series seriesname ("Series:" ++ seriesname) w)
  else (ok, set_series "No series selected" "No series selected" w).

Definition series_alert : string :=
  "Couldn't load this series. Please try again".
Definition series_warning : string := "Couldn't load series.".
Definition series_hint : string :=
  "Try replacing the last digits of your series with " ++
  "questionmarks or import all files of the directory " ++
  "by using *".

(** [def loadSeries(self, directory)]; the value is the loaded series or
    None. *)
Fixpoint loadSeries (env : Env) (directory : string)
    (answers : list (string * bool)) (w : Window) : result (option string) :=
  match answers with
  | [] =>
      Prompting
        (set_dir directory (Status_File w)
           (GUILogger info (directory ++ " is directory for series mode") w))
  | answer :: answers' =>
      let w := GUILogger info (directory ++ " is directory for series mode") w in
      let w := set_dir directory (Status_File w) w in
      let '(ok, w) := askSeriesName answer w in
      if ok then
        let w := GUILogger info
                   ("Loading series '" ++ Seriesname w ++ "'...") w in
        match yt_load env (directory ++ "/" ++ Seriesname w) with
        | None =>
            Returned (Some (directory ++ "/" ++ Seriesname w))
                     (series_loaded w)
        | Some YTOutputNotIdentified =>
            loadSeries env directory answers' (alertUser series_alert w)
        | Some e => Propagated e w
        end
      else
        Returned None
          (GUILogger (log 29) series_hint (GUILogger warning series_warning w))
  end.

End Loader.


Section LoaderFacts.
Import PyStr Loader.

(** A file name that [yt.load] does not recognise. *)
Definition unrecognised (env : Env) (filename : string) : Prop :=
  filename <> "" /\ is_Some (rsplit1 "/" filename) /\
  yt_load env filename = Some YTOutputNotIdentified.

(** A series name, entered and confirmed, that [yt.load] does not
    recognise. *)
Definition unrecognised_series (env : Env) (directory : string)
    (answer : string * bool) : Prop :=
  snd answer = true /\
  yt_load env (directory ++ "/" ++ fst answer) = Some YTOutputNotIdentified.

(** What one rejected attempt leaves behind. *)
Definition reject_file (w : Window) (filename : string) : Window :=
  match rsplit1 "/" filename with
  | Some (directory, name) =>
      alertUser file_alert (set_dir directory ("File: " ++ name) w)
  | None => w
  end.

Definition enter_series (directory : string) (w : Window) : Window :=
  set_dir directory (Status_File w)
    (GUILogger info (directory ++ " is directory for series mode") w).

Definition try_series (directory name : string) (w : Window) : Window :=
  GUILogger info ("Loading series '" ++ name ++ "'...")
    (set_series name ("Series:" ++ name) (enter_series directory w)).

Definition reject_series (directory : string) (w : Window)
    (answer : string * bool) : Window :=
  alertUser series_alert (try_series directory (fst answer) w).

Lemma testValidFile_retry env bad : forall rest w,
  Forall (unrecognised env) bad ->
  testValidFile env (bad ++ rest)%list w =
    testValidFile env rest (fold_left reject_file bad w).
Proof.
  induction bad as [|f bad IH]; intros rest w Hbad; [done|].
  inversion Hbad as [|?? (Hne & [[d n] Hsplit] & Hload) Hbad']; subst.
  simpl. rewrite bool_decide_eq_true_2 by done.
  unfold loadFile, reject_file. rewrite Hsplit, Hload. by apply IH.
Qed.

Lemma loadSeries_retry env directory bad : forall rest w,
  Forall (unrecognised_series env directory) bad ->
  loadSeries env directory (bad ++ rest)%list w =
    loadSeries env directory rest (fold_left (reject_series directory) bad w).
Proof.
  induction bad as [|[name ok] bad IH]; intros rest w Hbad; [done|].
  inversion Hbad as [|?? (Hok & Hload) Hbad']; subst.
  simpl in Hok, Hload. subst ok. simpl. rewrite Hload. by apply IH.
Qed.

Lemma rejected_files_state bad : forall w,
  let w' := fold_left reject_file bad w in
  logged w' = logged w /\
  isValidFile w' = isValidFile w /\ isValidSeries w' = isValidSeries w /\
  CurrentDataSet w' = CurrentDataSet w /\ Filename w' = Filename w.
Proof.
  induction bad as [|f bad IH]; intros w; simpl; [done|].
  destruct (IH (reject_file w f)) as (Hl & H1 & H2 & H3 & H4).
  rewrite Hl, H1, H2, H3, H4. unfold reject_file.
  by destruct (rsplit1 "/" f) as [[d n]|].
Qed.

Lemma rejected_files_alerts env bad : forall w,
  Forall (unrecognised env) bad ->
  alerts (fold_left reject_file bad w) =
    (alerts w ++ replicate (length bad) file_alert)%list.
Proof.
  induction bad as [|f bad IH]; intros w Hbad; simpl;
    [by rewrite app_nil_r|].
  inversion Hbad as [|?? (Hne & [[d n] Hsplit] & Hload) Hbad']; subst.
  rewrite IH by done. unfold reject_file. rewrite Hsplit. simpl.
  by rewrite <- app_assoc.
Qed.

Lemma rejected_series_alerts directory bad : forall w,
  alerts (fold_left (reject_series directory) bad w) =
    (alerts w ++ replicate (length bad) series_alert)%list.
Proof.
  induction bad as [|f bad IH]; intros w; simpl; [by rewrite app_nil_r|].
  rewrite IH. simpl. by rewrite <- app_assoc.
Qed.

(** C3. After any number of file names that [yt.load] rejects with
    [YTOutputNotIdentified], [testValidFile] has alerted the user once per
    rejected name and is prompting again.  The next answer decides: a
    cancelled dialog (empty name) ends the attempt and adds one warning to the
    log and nothing else; a name that loads, and whose set-up succeeds, ends
    it with the file loaded; any other exception of [yt.load] is not caught.
    [loadSeries] does the same with series names: one alert per rejected
    name, then a new prompt; a cancelled dialog returns None after a warning
    and a hint; a name that loads returns the series; any other exception
    is not caught. *)
Theorem loaders_retry_on_unrecognised_output
    (env : Env) (bad : list string) (directory : string)
    (bad_series : list (string * bool)) (w : Window) :
  Forall (unrecognised env) bad ->
  Forall (unrecognised_series env directory) bad_series ->
  let w1 := fold_left reject_file bad w in
  let w2 := fold_left (reject_series directory) bad_series w in
  (* testValidFile *)
  alerts w1 = (alerts w ++ replicate (length bad) file_alert)%list /\
  logged w1 = logged w /\
  testValidFile env bad w = Prompting w1 /\
  (forall rest,
     testValidFile env (bad ++ "" :: rest)%list w =
       Returned tt (GUILogger warning file_warning w1)) /\
  (forall f d n rest w',
     f <> "" -> rsplit1 "/" f = Some (d, n) -> yt_load env f = None ->
     setUpFile env
       (file_loaded f f
          (GUILogger info ("Loading file '" ++ n ++ "'...")
             (set_dir d ("File: " ++ n) w1))) = inr w' ->
     testValidFile env (bad ++ f :: rest)%list w = Returned tt w') /\
  (forall f d n rest name text,
     f <> "" -> rsplit1 "/" f = Some (d, n) ->
     yt_load env f = Some (OtherLoadError name text) ->
     testValidFile env (bad ++ f :: rest)%list w =
       Propagated (OtherLoadError name text) (set_dir d ("File: " ++ n) w1)) /\
  (* loadSeries *)
  alerts w2 = (alerts w ++ replicate (length bad_series) series_alert)%list /\
  loadSeries env directory bad_series w = Prompting (enter_series directory w2) /\
  (forall name rest,
     loadSeries env directory (bad_series ++ (name, false) :: rest)%list w =
       Returned None
         (GUILogger (log 29) series_hint
            (GUILogger warning series_warning
               (set_series "No series selected" "No series selected"
                  (enter_series directory w2))))) /\
  (forall name rest,
     yt_load env (directory ++ "/" ++ name) = None ->
     loadSeries env directory (bad_series ++ (name, true) :: rest)%list w =
       Returned (Some (directory ++ "/" ++ name))
                (series_loaded (try_series directory name w2))) /\
  (forall name rest ename text,
     yt_load env (directory ++ "/" ++ name) = Some (OtherLoadError ename text) ->
     loadSeries env directory (bad_series ++ (name, true) :: rest)%list w =
       Propagated (OtherLoadError ename text) (try_series directory name w2)).
Proof.
  intros Hbad Hseries w1 w2.
  split; [by eapply rejected_files_alerts|].
  split; [apply (rejected_files_state bad w)|].
  split.
  { rewrite <- (app_nil_r bad) at 1. by rewrite testValidFile_retry. }
  split.
  { intros rest. by rewrite testValidFile_retry. }
  split.
  { intros f d n rest w' Hne Hsplit Hload Hset.
    rewrite testValidFile_retry by done. simpl.
    rewrite bool_decide_eq_true_2 by done.
    unfold loadFile. rewrite Hsplit, Hload. fold w1. by rewrite Hset. }
  split.
  { intros f d n rest name text Hne Hsplit Hload.
    rewrite testValidFile_retry by done. simpl.
    rewrite bool_decide_eq_true_2 by done.
    unfold loadFile. by rewrite Hsplit, Hload. }
  split; [apply rejected_series_alerts|].
  split.
  { rewrite <- (app_nil_r bad_series) at 1. by rewrite loadSeries_retry. }
  split.
  { intros name rest. by rewrite loadSeries_retry. }
  split.
  { intros name rest Hload. rewrite loadSeries_retry by done. simpl.
    by rewrite Hload. }
  intros name rest ename text Hload. rewrite loadSeries_retry by done.
  simpl. by rewrite Hload.
Qed.

End LoaderFacts.


(* ===================================================================== *)
(** ** simgui_modules/configureGUI.py *)
(* ===================================================================== *)

Module ConfigureGUI.
Import PyStr.

(** *** The INI parser (Python's configparser)

    A configuration is a map from section names to maps from option names to
    values.  Option names pass through [optionxform], which lower-cases
    them; section names are case sensitive. *)

Inductive config_error :=
| KeyError (section : string)
| NoSectionError (section : string)
| NoOptionError (option section : string)
| ValueError (text : string)
| InvalidInterpolation (value : string) (position : nat)
| IndexError.

Definition optionxform (option : string) : string := lower option.

(** [s.replace(old, new)] for a non-empty [old]. *)
Definition replace (old new s : string) : string := join new (split old s).

(** [s.find(c)] for a character that occurs in [s]. *)
Fixpoint find_char (c : ascii) (s : string) : nat :=
  match s with
  | EmptyString => 0
  | String a s' => if bool_decide (a = c) then 0 else S (find_char c s')
  end.

(** The rest of [s] behind a match of [[^)]*\)s] at its start. *)
Fixpoint key_tail (s : string) : option string :=
  match s with
  | EmptyString => None
  | String ")" (String "s" rest) => Some rest
  | String ")" _ => None
  | String _ s' => key_tail s'
  end.

(** The rest of [s] behind a match of [_KEYCRE], the pattern
    [%\(([^)]+)\)s], at its start. *)
Definition match_KEYCRE (s : string) : option string :=
  match s with
  | String "%" (String "(" (String c s')) =>
      if bool_decide (c = ")"%char) then None else key_tail s'
  | _ => None
  end.

(** [_KEYCRE.sub('', s)]: the matches are removed from left to right.
    Every round removes a match or passes one character. *)
Fixpoint sub_KEYCRE_fuel (n : nat) (s : string) : string :=
  match n with
  | O => s
  | S n' =>
      match s with
      | EmptyString => EmptyString
      | String c s' =>
          match match_KEYCRE s with
          | Some rest => sub_KEYCRE_fuel n' rest
          | None => String c (sub_KEYCRE_fuel n' s')
          end
      end
  end.

Definition sub_KEYCRE (s : string) : string :=
  sub_KEYCRE_fuel (String.length s) s.

(** [BasicInterpolation.before_set], the interpolation of [ConfigParser()]:
    a percent sign that is neither doubled nor the start of [%(name)s]
    raises [ValueError('invalid interpolation syntax in %r at position
    %d')], here [InvalidInterpolation]. *)
Definition before_set (value : string) : config_error + string :=
  let tmp_value := replace "%%" "" value in
  let tmp_value := sub_KEYCRE tmp_value in
  if contains "%" tmp_value
  then inl (InvalidInterpolation value (find_char "%" tmp_value))
  else inr value.

(** [config[section][option] = value]: [config[section]] raises [KeyError]
    for a missing section; [RawConfigParser.set] passes a non-empty value
    through [before_set]. *)
Definition setitem (section option value : string)
    (config : gmap string (gmap string string))
    : config_error + gmap string (gmap string string) :=
  match config !! section with
  | None => inl (KeyError section)
  | Some options =>
      match (if decide (value = "") then inr value else before_set value) with
      | inl e => inl e
      | inr value =>
          inr (<[section := <[optionxform option := value]> options]> config)
      end
  end.

(** [RawConfigParser.BOOLEAN_STATES] *)
Definition BOOLEAN_STATES (v : string) : option bool :=
  if decide (v = "1") then Some true
  else if decide (v = "yes") then Some true
  else if decide (v = "true") then Some true
  else if decide (v = "on") then Some true
  else if decide (v = "0") then Some false
  else if decide (v = "no") then Some false
  else if decide (v = "false") then Some false
  else if decide (v = "off") then Some false
  else None.

(** [config.getboolean(section, option)].  The stored value is read as it
    is: the interpolation of a value that holds a percent sign is left
    out, a value without one is what [BasicInterpolation.before_get]
    returns. *)
Definition getboolean (section option : string)
    (config : gmap string (gmap string string)) : config_error + bool :=
  match config !! section with
  | None => inl (NoSectionError section)
  | Some options =>
      match options !! optionxform option with
      | None => inl (NoOptionError (optionxform option) section)
      | Some v =>
          match BOOLEAN_STATES (lower v) with
          | Some b => inr b
          | None => inl (ValueError ("Not a boolean: " ++ v))
          end
      end
  end.

(** *** class ConfigDialog *)

(** The keys of the check boxes of the dialog ([createCheckBoxes]). *)
Definition annoKeys : list string :=
  ["Timestamp"; "Scale"; "Grid"; "VelVectors"; "VelStreamlines";
   "MagVectors"; "MagStreamlines"; "Contour"; "Particleanno"; "LineAnno"].

Definition otherKeys : list string :=
  ["XLog"; "YLog"; "ZLog"; "SetAspect"; "QuitDialog"].

Definition dialog_keys : list string := (annoKeys ++ otherKeys)%list.

(** The check boxes whose [toggled] signal [signalsConnection] connects to
    [getStateInput]. *)
Definition connected : list string :=
  ["Timestamp"; "Scale"; "Grid"; "Contour"; "VelVectors"; "VelStreamlines";
   "MagVectors"; "MagStreamlines"; "LineAnno"; "XLog"; "YLog"; "ZLog";
   "SetAspect"; "QuitDialog"].

(** A Python dict with string keys, in insertion order. *)
Fixpoint dict_set {V} (k : string) (v : V) (d : list (string * V))
    : list (string * V) :=
  match d with
  | [] => [(k, v)]
  | (k', v') :: d' =>
      if decide (k' = k) then (k, v) :: d' else (k', v') :: dict_set k v d'
  end.

Fixpoint dict_get {V} (k : string) (d : list (string * V)) : option V :=
  match d with
  | [] => None
  | (k', v') :: d' => if decide (k' = k) then Some v' else dict_get k d'
  end.

Record ConfigDialog := {
  CheckBox_Dict : list (string * bool);   (* key and checked state *)
  Config_Dict : list (string * string);
  homeDir : string;
  ytInput : nat;
  GUIInput : nat;
  blockCount : nat
}.

(** [def getStateInput(self, key, state)] *)
Definition getStateInput (key : string) (state : bool) (d : ConfigDialog)
    : ConfigDialog :=
  let boolString := if state then "yes" else "no" in
  {| CheckBox_Dict := CheckBox_Dict d;
     Config_Dict := dict_set ("CheckBoxes_" ++ key) boolString (Config_Dict d);
     homeDir := homeDir d; ytInput := ytInput d; GUIInput := GUIInput d;
     blockCount := blockCount d |}.

(** The user sets the check box [key] to [state]; the box emits [toggled],
    which runs the slot connected to it, if any. *)
Definition toggled (key : string) (state : bool) (d : ConfigDialog)
    : ConfigDialog :=
  let d := {| CheckBox_Dict := dict_set key state (CheckBox_Dict d);
              Config_Dict := Config_Dict d;
              homeDir := homeDir d; ytInput := ytInput d;
              GUIInput := GUIInput d; blockCount := blockCount d |} in
  if bool_decide (key ∈ connected) then getStateInput key state d else d.

(** The loop [for key in self.Config_Dict.keys()] of [saveSettings]. *)
Fixpoint save_entries (entries : list (string * string))
    (config : gmap string (gmap string string))
    : config_error + gmap string (gmap string string) :=
  match entries with
  | [] => inr config
  | (key, value) :: entries' =>
      match split "_" key with
      | group :: subkey :: _ =>
          match setitem group subkey value config with
          | inr config' => save_entries entries' config'
          | inl e => inl e
          end
      | _ => inl IndexError
      end
  end.

(** [def saveSettings(self)]: the configuration that [saveConfigOptions]
    writes to the INI file. *)
Definition saveSettings (d : ConfigDialog)
    (config : gmap string (gmap string string))
    : config_error + gmap string (gmap string string) :=
  match setitem "Path" "homedir" (homeDir d) config with
  | inl e => inl e
  | inr config =>
  match setitem "Logging" "yt" (str_nat (ytInput d)) config with
  | inl e => inl e
  | inr config =>
  match setitem "Logging" "GUI" (str_nat (GUIInput d)) config with
  | inl e => inl e
  | inr config =>
  match setitem "Logging" "MaxBlocks" (str_nat (blockCount d)) config with
  | inl e => inl e
  | inr config => save_entries (Config_Dict d) config
  end end end end.

(** The keys of the check boxes of the main window, in the order of the
    dictionary: [createCheckBox_Dict] (dictionaries.py) inserts the first
    eighteen, [createAllCheckBoxes] (checkBoxes.py) adds
    "CommentsForPlot". *)
Definition window_keys : list string :=
  ["Timestamp"; "Scale"; "Grid"; "VelVectors"; "VelStreamlines";
   "MagVectors"; "MagStreamlines"; "Contour"; "ParticleAnno"; "LineAnno";
   "XLog"; "YLog"; "ZLog"; "DomainDiv"; "SetAspect"; "AddProfile";
   "TimeSeriesProf"; "ParticlePlot"; "CommentsForPlot"].

(** The loop over the check boxes at the end of [loadConfigOptions]: a
    missing option is skipped, any other error is not caught. *)
Fixpoint loadCheckBoxes (keys : list string)
    (config : gmap string (gmap string string))
    (boxes : list (string * bool)) : config_error + list (string * bool) :=
  match keys with
  | [] => inr boxes
  | key :: keys' =>
      match getboolean "CheckBoxes" key config with
      | inr b => loadCheckBoxes keys' config (dict_set key b boxes)
      | inl (NoOptionError _ _) => loadCheckBoxes keys' config boxes
      | inl e => inl e
      end
  end.

End ConfigureGUI.

Section ConfigFacts.
Import PyStr ConfigureGUI.

(** A configuration with the section of the check boxes, in which the
    default of the particle annotation is off. *)
Definition particles_off : gmap string (gmap string string) :=
  {[ "Path" := {[ "homedir" := "/home/user" ]};
     "Logging" := {[ "yt" := "30"; "gui" := "20"; "maxblocks" := "500" ]};
     "CheckBoxes" := {[ "timestamp" := "yes"; "particleanno" := "no" ]} ]}.

Definition fresh_dialog : ConfigDialog :=
  {| CheckBox_Dict := [("Timestamp", true); ("Particleanno", false)];
     Config_Dict := []; homeDir := "/home/user";
     ytInput := 30; GUIInput := 20; blockCount := 500 |}.

(** C7, at the failing input.  The user checks the box "Particles" of the
    dialog, whose key is "Particleanno", and saves: the box is checked in the
    dialog, yet no entry reaches [Config_Dict], the stored option stays
    'no', and loading the configuration afterwards unchecks the box
    "ParticleAnno" of the main window. *)
Theorem particleanno_default_is_not_stored :
  let d := toggled "Particleanno" true fresh_dialog in
  dict_get "Particleanno" (CheckBox_Dict d) = Some true /\
  Config_Dict d = [] /\
  match saveSettings d particles_off with
  | inl _ => False
  | inr config =>
      config !! "CheckBoxes" ≫= (.!! "particleanno") = Some "no" /\
      getboolean "CheckBoxes" "Particleanno" config = inr false /\
      getboolean "CheckBoxes" "ParticleAnno" config = inr false /\
      match loadCheckBoxes window_keys config [] with
      | inl _ => False
      | inr boxes => dict_get "ParticleAnno" boxes = Some false
      end
  end.
Proof. vm_compute. repeat split. Qed.

End ConfigFacts.


(* ===================================================================== *)
(** ** simgui_modules/scriptWriter.py: writing the script *)
(* ===================================================================== *)

Module ScriptWriter.
Import PyStr.

Definition coding_header : string := "# -*- coding: utf-8 -*-".

(** The literal of three double quotes, and the text that opens a
    'Note:'-block. *)
Definition triple_quote : string := dq ++ dq ++ dq.
Definition note_marker : string := triple_quote ++ nl ++ "Note:".

(** [line.strip().startswith("#")] *)
Definition is_comment_line (line : string) : bool :=
  startswith "#" (strip line).

(** What the loop [for line in textLines] appends for one line, before the
    newline. *)
Definition strip_inline (line : string) : string :=
  if contains "#" line then hd "" (split "  # " line)
  else if negb (isspace line) then line
  else "".

(** What the loop over the blocks appends for the block of index [i]. *)
Definition keep_block (i : nat) (block : string) : string :=
  if (i =? 0)%nat then block
  else join "" (tail (split triple_quote block)).

(** The branch [if noComments:] of [writePlotToScript]. *)
Definition removeComments (text : string) : string :=
  let textLines := split nl text in
  let textLines :=
    List.filter (fun line => negb (is_comment_line line)) textLines in
  let textLines := coding_header :: textLines in
  let text := join "" (map (fun line => strip_inline line ++ nl) textLines) in
  let textBlocks := split note_marker text in
  join "" (imap keep_block textBlocks).

Section WritePlotToScript.

(** The parameter store, and [constructCompleteString], the templates that
    turn it into the text of the script for a file name. *)
Variable Param_Dict : Type.
Variable constructCompleteString : Param_Dict -> bool -> string -> string.

(** [def writePlotToScript(Param_Dict, filename, noComments, plotAll)], on a
    file system that maps paths to contents. *)
Definition writePlotToScript (params : Param_Dict) (filename : string)
    (noComments plotAll : bool) (files : gmap string string)
    : gmap string string :=
  let filename :=
    if negb (endswith ".py" filename) then filename ++ ".py" else filename in
  let text := constructCompleteString params plotAll filename in
  let text := if noComments then removeComments text else text in
  <[filename := text]> files.

End WritePlotToScript.

End ScriptWriter.


(* ===================================================================== *)
(** ** Facts about the string methods *)
(* ===================================================================== *)

Section StringFacts.
Import PyStr.

Lemma str_app_cons (x : ascii) (a b : string) :
  String x a ++ b = String x (a ++ b).
Proof. reflexivity. Qed.

Lemma str_app_nil_l (a : string) : "" ++ a = a.
Proof. reflexivity. Qed.

Lemma str_app_assoc (a b c : string) : (a ++ b) ++ c = a ++ (b ++ c).
Proof.
  induction a as [|x a IH]; [done|]. by rewrite !str_app_cons, IH.
Qed.

Lemma str_app_nil_r (a : string) : a ++ "" = a.
Proof. induction a as [|x a IH]; [done|]. by rewrite str_app_cons, IH. Qed.

Lemma str_length_app (a b : string) :
  String.length (a ++ b) = String.length a + String.length b.
Proof.
  induction a as [|x a IH]; [done|]. rewrite str_app_cons. simpl.
  by rewrite IH.
Qed.

Ltac str_simpl := rewrite ?str_app_cons, ?str_app_nil_l in *.

(** [startswith] finds a prefix. *)
Lemma startswith_spec p : forall s,
  startswith p s = true <-> exists r, s = p ++ r.
Proof.
  induction p as [|a p IH]; intros s; simpl.
  - split; eauto.
  - destruct s as [|b s]; simpl.
    + split; [done|]. by intros [r [=]].
    + rewrite andb_true_iff, bool_decide_eq_true, IH. split.
      * intros [-> [r ->]]. eauto.
      * intros [r [= -> ->]]. eauto.
Qed.

Lemma slice_from_app p : forall r, slice_from (String.length p) (p ++ r) = r.
Proof. induction p as [|a p IH]; intros r; simpl; [by destruct r|]. apply IH. Qed.

(** [s.endswith(p)] holds of [s ++ p]. *)
Lemma endswith_app s p : endswith p (s ++ p) = true.
Proof.
  unfold endswith. rewrite str_length_app.
  apply andb_true_iff. split; [apply Nat.leb_le; lia|].
  apply bool_decide_eq_true.
  replace (String.length s + String.length p - String.length p)
    with (String.length s) by lia.
  apply slice_from_app.
Qed.

(** [partition] splits at an occurrence of the separator... *)
Lemma partition_Some sep : forall s a b,
  partition sep s = Some (a, b) -> s = a ++ sep ++ b.
Proof.
  induction s as [|c s IH]; intros a b; simpl.
  - destruct (startswith sep "") eqn:Hs; [|done].
    intros [= <- <-]. apply startswith_spec in Hs as [r Hr].
    destruct sep; [done|]. by rewrite str_app_cons in Hr.
  - destruct (startswith sep (String c s)) eqn:Hs.
    + intros [= <- <-]. apply startswith_spec in Hs as [r Hr].
      rewrite str_app_nil_l, Hr. by rewrite slice_from_app.
    + destruct (partition sep s) as [[a' b']|] eqn:Hp; [|done].
      intros [= <- <-]. rewrite str_app_cons. f_equal. by apply IH.
Qed.

(** ...and fails exactly when there is none. *)
Lemma partition_None sep : forall s,
  partition sep s = None <-> contains sep s = false.
Proof.
  induction s as [|c s IH]; simpl.
  - destruct (startswith sep ""); simpl; by split.
  - destruct (startswith sep (String c s)); simpl; [by split|].
    rewrite <- IH. destruct (partition sep s) as [[??]|]; by split.
Qed.

Lemma startswith_app_l p a : forall b,
  startswith p a = true -> startswith p (a ++ b) = true.
Proof.
  intros b Hp. apply startswith_spec in Hp as [r ->].
  apply startswith_spec. exists (r ++ b). apply str_app_assoc.
Qed.



Lemma partition_shorter sep s a b :
  sep <> "" -> partition sep s = Some (a, b) ->
  String.length b < String.length s.
Proof.
  intros Hsep Hp. apply partition_Some in Hp. subst s.
  rewrite !str_length_app. destruct sep; [done|]. simpl. lia.
Qed.

Lemma split_fuel_enough sep : sep <> "" ->
  forall n s, String.length s <= n ->
  split_fuel n sep s =
    match partition sep s with
    | None => [s]
    | Some (a, b) => a :: split_fuel (String.length b) sep b
    end.
Proof.
  intros Hsep. induction n as [n IH] using lt_wf_ind. intros s Hn.
  destruct n as [|n]; simpl.
  - destruct s; [|simpl in Hn; lia].
    destruct (partition sep "") as [[a b]|] eqn:Hp; [|done].
    apply partition_shorter in Hp; [simpl in Hp; lia|done].
  - destruct (partition sep s) as [[a b]|] eqn:Hp; [|done].
    pose proof (partition_shorter _ _ _ _ Hsep Hp) as Hlt.
    f_equal. rewrite (IH n) by lia.
    by rewrite (IH (String.length b)) by lia.
Qed.

(** [s.split(sep)] for a non-empty separator: the text before the first
    occurrence, then the pieces of the rest. *)
Lemma split_unfold sep s : sep <> "" ->
  split sep s =
    match partition sep s with
    | None => [s]
    | Some (a, b) => a :: split sep b
    end.
Proof. intros Hsep. unfold split. by apply split_fuel_enough. Qed.

Lemma split_nonempty sep s : split sep s <> [].
Proof. unfold split. destruct (String.length s); simpl; [done|]. by destruct (partition sep s) as [[??]|]. Qed.

(** Joining the pieces with the separator gives the text back. *)
Lemma join_split sep : sep <> "" -> forall s, join sep (split sep s) = s.
Proof.
  intros Hsep s.
  induction s as [s IH] using (induction_ltof1 _ String.length).
  rewrite split_unfold by done.
  destruct (partition sep s) as [[a b]|] eqn:Hp; [|done].
  pose proof (partition_shorter _ _ _ _ Hsep Hp) as Hlt.
  specialize (IH b Hlt). apply partition_Some in Hp. subst s.
  pose proof (split_nonempty sep b) as Hne.
  destruct (split sep b) as [|x l]; [done|].
  change (join sep (a :: x :: l)) with (a ++ sep ++ join sep (x :: l)).
  by rewrite IH.
Qed.




(** An occurrence of a text holds an occurrence of each of its
    characters; here: of the last character of a four-character text. *)
Lemma contains_app_r p : forall s r,
  contains p s = true -> contains p (s ++ r) = true.
Proof.
  induction s as [|x s IH]; intros r.
  - simpl. rewrite orb_false_r. intros Hp. destruct p; [|done].
    by destruct r.
  - rewrite str_app_cons. simpl. intros [Hp|Hp]%orb_true_iff.
    + apply orb_true_iff. left.
      apply (startswith_app_l _ _ r) in Hp. by rewrite str_app_cons in Hp.
    + apply orb_true_iff. right. by apply IH.
Qed.

Lemma contains_app_l p : forall a s,
  contains p s = true -> contains p (a ++ s) = true.
Proof.
  induction a as [|x a IH]; intros s Hs; [done|].
  rewrite str_app_cons. simpl. apply orb_true_iff. right. by apply IH.
Qed.

Lemma contains_spec p s :
  contains p s = true <-> exists a b, s = a ++ p ++ b.
Proof.
  split.
  - induction s as [|x s IH]; simpl.
    + rewrite orb_false_r. intros Hp. apply startswith_spec in Hp as [r Hr].
      exists "", r. by rewrite str_app_nil_l.
    + intros [Hp|Hp]%orb_true_iff.
      * apply startswith_spec in Hp as [r Hr]. exists "", r.
        by rewrite str_app_nil_l.
      * destruct (IH Hp) as (a & b & ->). exists (String x a), b.
        by rewrite str_app_cons.
  - intros (a & b & ->). apply contains_app_l, contains_app_r.
    destruct p; simpl; [done|].
    apply orb_true_iff. left. rewrite bool_decide_eq_true_2 by done.
    simpl. apply startswith_spec. exists "". by rewrite str_app_nil_r.
Qed.

(** [lstrip] and [strip]. *)
Lemma lstrip_head s c x : lstrip s = String c x -> isspace_char c = false.
Proof.
  induction s as [|y s IH]; simpl; [done|].
  destruct (isspace_char y) eqn:Hy; [done|]. by intros [= <- _].
Qed.


Lemma startswith_strip p s :
  startswith (String p "") (strip s) =
    match lstrip s with
    | String c _ => bool_decide (p = c)
    | EmptyString => false
    end.
Proof.
  unfold strip. destruct (lstrip s) as [|c x] eqn:Hs; [done|].
  apply lstrip_head in Hs. simpl. rewrite Hs.
  destruct (rstrip x); simpl; by rewrite andb_true_r.
Qed.

End StringFacts.

(* ===================================================================== *)
(** ** What the script writer writes *)
(* ===================================================================== *)

Section ScriptFacts.
Import PyStr ScriptWriter.













End ScriptFacts.

(* ===================================================================== *)
(** ** Worked runs *)
(* ===================================================================== *)

Section Examples.
Import PyStr Utils Threading.

(** A parameter store asking for a plot of mode [m], with no options set. *)
Definition demo_params (m : Mode) : Params :=
  {| PlotMode := m; DimMode2D := true; DomainDiv := false;
     WeightFieldNone := false; SetAspect := false; Timestamp := false;
     AddProfile := false; XAxisTime := false; manyProfiles := false;
     gather := [GCall "yt.create_profile"];
     ds_name := fun j => "run_" ++ str_nat j;
     ds_time := fun _ => "1 kyr" |}.

(** The GUI as it starts: empty windows, the single-file window current. *)
Definition demo_gui : Gui :=
  {| windows := fun _ => PlotWindow_init;
     CurrentPlotWindow := DataSetPlotWindow;
     CurrentDataSet := 0; GridUnit := "au"; oldGridUnit := "";
     isValidPlot := None; plot_var := None; history := []; saved := [];
     slider := 0; infoLabel := ""; cancelButton := true |}.

Definition demo_state : State :=
  {| self := WorkerBase_init; signals := []; logged := []; stderr := [];
     gui := demo_gui |}.

Definition state_of (o : outcome) : State :=
  match o with
  | Done s | Raised _ _ s => s
  end.

(** No cancel request, no failing library call. *)
Definition calm : Env := {| cancelAt := None; fails := fun _ => None |}.

(** The user cancels before statement [t]. *)
Definition cancel_before (t : nat) : Env :=
  {| cancelAt := Some t; fails := fun _ => None |}.

(** The library call at statement [t] raises a RuntimeError. *)
Definition failing_at (t : nat) : Env :=
  {| cancelAt := None;
     fails := fun pc => if (pc =? t)%nat then Some ("RuntimeError", "boom")
                        else None |}.

(** The window shows a phase plot of dataset 0, made by an earlier worker;
    a new worker is about to make a slice plot. *)
Definition demo_previous : State :=
  let s := state_of (exec calm 0 (evaluateSingle (demo_params Phase)
                                     (Some progressWorker)) demo_state) in
  {| self := WorkerBase_init; signals := []; logged := []; stderr := [];
     gui := gui s |}.

Definition slice_run : list action :=
  evaluateSingle (demo_params Slice) (Some progressWorker).

(** What a run ended with, without the state. *)
Definition ending (o : outcome) : option (exn * nat) :=
  match o with
  | Done _ => None
  | Raised e k _ => Some (e, k)
  end.

Lemma done_state o : ending o = None -> o = Done (state_of o).
Proof. by destruct o. Qed.

Lemma raised_state o e k :
  ending o = Some (e, k) -> o = Raised e k (state_of o).
Proof. destruct o; simpl; [done|]. by intros [= -> ->]. Qed.

(** The exception a checkpoint raises after the progress message [m]. *)
Definition cancelled_after (m : string) : exn :=
  WorkingException
    (cancel_message (Checkpoint None "")
       {| _isRunning := false; oldMessage := m |}).

(** The claim of C4 as the specification words it: an aborted plot leaves
    the current plot window as it was. *)
Definition aborted_plot_leaves_window_unchanged : Prop :=
  forall env P s e k s',
    exec env 0 (evaluateSingle P (Some progressWorker)) s = Raised e k s' ->
    current (gui s') = current (gui s).

(** C4, counterexample.  The window shows a phase plot.  A slice plot is
    cancelled while the figure is being prepared: the run stops at the
    "Drawing plot onto the canvas" checkpoint with the slice plot installed
    in the window and the figure cleared.  Cancelled just before "Finishing",
    the run stops with the slice plot drawn on the canvas.  The window is
    also changed when [plot._setup_plots] raises. *)
Lemma aborted_plot_changes_window :
  (let o := exec (cancel_before 13) 0 slice_run demo_previous in
   ending o = Some (cancelled_after "Starting the plot", 21) /\
   plot (current (gui demo_previous))
     = Some {| obj_mode := Phase; obj_ds := 0 |} /\
   plot (current (gui (state_of o)))
     = Some {| obj_mode := Slice; obj_ds := 0 |} /\
   figure (current (gui (state_of o)))
     = [mpl "add_subplot"; mpl "append_axes"]) /\
  (let o := exec (cancel_before 34) 0 slice_run demo_previous in
   ending o = Some (cancelled_after "Drawing plot onto the canvas", 34) /\
   shows (Some {| obj_mode := Slice; obj_ds := 0 |})
     ∈ canvas (current (gui (state_of o)))) /\
  (let o := exec (failing_at 22) 0 slice_run demo_previous in
   ending o = Some (OtherException "RuntimeError" "boom", 22) /\
   plot (current (gui (state_of o)))
     = Some {| obj_mode := Slice; obj_ds := 0 |}) /\
  ~ aborted_plot_leaves_window_unchanged.
Proof.
  split; [|split; [|split]].
  - vm_compute. done.
  - split; [vm_compute; reflexivity|].
    match goal with
    | |- _ ∈ ?l =>
        let l' := eval vm_compute in l in
        replace l with l' by (vm_compute; reflexivity)
    end.
    rewrite !elem_of_cons. tauto.
  - vm_compute. done.
  - intros Hclaim.
    assert (H : exec (cancel_before 13) 0 slice_run demo_previous
                = Raised (cancelled_after "Starting the plot") 21
                    (state_of (exec (cancel_before 13) 0 slice_run
                                 demo_previous)))
      by (apply raised_state; vm_compute; reflexivity).
    apply Hclaim, (f_equal plot) in H. vm_compute in H. discriminate H.
Qed.

(** The slice run cut around the checkpoint of [startPlot] that follows
    the installation of the plot. *)
Definition slice_head : list action := take 13 slice_run.
Definition slice_middle : list action := take 8 (drop 13 slice_run).
Definition slice_tail : list action := drop 22 slice_run.
Definition drawing_checkpoint : action :=
  Checkpoint (Some progressWorker) "Drawing plot onto the canvas".

(** C1 at work: a cancel request during the preparation of the figure of a
    slice plot lets the run go on up to "Drawing plot onto the canvas". *)
Lemma cancel_takes_effect_witness :
  let env := cancel_before 13 in
  let s1 := state_of (exec (quiet env) 0 slice_head demo_state) in
  exec env 0
    (slice_head ++ slice_middle ++ drawing_checkpoint :: slice_tail)%list
    demo_state =
    match exec (quiet env) 13 slice_middle (stopProcess s1) with
    | Done s2 =>
        Raised (WorkingException (cancel_message drawing_checkpoint (self s1)))
               (13 + length slice_middle) s2
    | r => r
    end.
Proof.
  refine (proj1 (cancel_takes_effect_at_next_checkpoint
                   (cancel_before 13) 13 slice_head slice_middle slice_tail
                   drawing_checkpoint demo_state _ _ _ _ _ _)).
  - reflexivity.
  - vm_compute. reflexivity.
  - apply done_state. vm_compute. reflexivity.
  - vm_compute. reflexivity.
  - reflexivity.
Defined.

Definition demo_request : Request :=
  {| OnlyEvery := 2; Length := 5; MakeMovie := true; PlotNumber := 3;
     Directory := "/home/user/movie" |}.

(** C5 at work: every second dataset of a series of five. *)
Lemma evaluateMultiple_witness :
  exists s',
    exec calm 0 (evaluateMultiple (demo_params Slice) demo_request
                   (Some progressWorker)) demo_state = Done s' /\
    history (gui s') = map (plot_of (demo_params Slice)) [0; 2; 4] /\
    map fst (saved (gui s')) =
      ["/home/user/movie/Sliceplot_1"; "/home/user/movie/Sliceplot_3";
       "/home/user/movie/Sliceplot_5"].
Proof.
  destruct (evaluateMultiple_plots_every_nth calm (demo_params Slice)
              demo_request demo_state)
    as (s' & Hrun & Hhist & _ & _ & _ & Hsaved).
  - reflexivity.
  - intros pc. reflexivity.
  - reflexivity.
  - discriminate.
  - discriminate.
  - exists s'. split; [exact Hrun|]. split; [exact Hhist|].
    rewrite Hsaved. reflexivity.
Defined.

(** [yt.load] recognises nothing whose name holds "notes". *)
Definition demo_loader : Loader.Env :=
  {| Loader.yt_load := fun f =>
       if contains "notes" f then Some Loader.YTOutputNotIdentified else None;
     Loader.setUpFile := inr |}.

Definition demo_window : Loader.Window :=
  {| Loader.Directory := ""; Loader.Filename := ""; Loader.Seriesname := "";
     Loader.SingleDataSet := None; Loader.CurrentDataSet := None;
     Loader.isValidFile := false; Loader.isValidSeries := false;
     Loader.Status_Dir := ""; Loader.Status_File := "";
     Loader.Status_Series := ""; Loader.alerts := []; Loader.logged := [] |}.

(** C3 at work: two rejected files, one rejected series name. *)
Lemma loaders_retry_witness :
  let bad := ["/data/notes.txt"; "/data/more_notes"] in
  Loader.alerts (fold_left reject_file bad demo_window)
    = [Loader.file_alert; Loader.file_alert] /\
  Loader.testValidFile demo_loader bad demo_window
    = Loader.Prompting (fold_left reject_file bad demo_window) /\
  Loader.loadSeries demo_loader "/data" [("notes_????", true)] demo_window
    = Loader.Prompting
        (enter_series "/data"
           (fold_left (reject_series "/data") [("notes_????", true)]
              demo_window)).
Proof.
  destruct (loaders_retry_on_unrecognised_output demo_loader
              ["/data/notes.txt"; "/data/more_notes"] "/data"
              [("notes_????", true)] demo_window)
    as (Ha & _ & Hp & _ & _ & _ & _ & Hs & _).
  - repeat constructor; try (vm_compute; discriminate);
      try (vm_compute; eexists; reflexivity).
  - repeat constructor.
  - split; [exact Ha|]. split; [exact Hp|exact Hs].
Defined.

(** A parameter store whose line starts at (1, 2, 3) and ends at (4, 5, 6),
    with the normal axis 'x'. *)
Definition demo_line : gmap string value :=
  <["XLStart" := VNum (Qc_of_Z 1)]> (<["YLStart" := VNum (Qc_of_Z 2)]>
  (<["ZLStart" := VNum (Qc_of_Z 3)]> (<["XLEnd" := VNum (Qc_of_Z 4)]>
  (<["YLEnd" := VNum (Qc_of_Z 5)]> (<["ZLEnd" := VNum (Qc_of_Z 6)]>
  (<["NAxis" := VStr "x"]> ∅)))))).

(** C9 at work: with the normal axis 'x' the triples are rotated twice. *)
Lemma shuffleCoords_witness :
  exists d',
    shuffleCoords demo_line = Some (d', logged_for (VStr "x")) /\
    (λ key, d' !! key) <$> starts
      = Some <$> [VNum (Qc_of_Z 3); VNum (Qc_of_Z 1); VNum (Qc_of_Z 2)] /\
    (λ key, d' !! key) <$> ends
      = Some <$> [VNum (Qc_of_Z 6); VNum (Qc_of_Z 4); VNum (Qc_of_Z 5)].
Proof.
  destruct (shuffleCoords_spec demo_line
              (VNum (Qc_of_Z 1)) (VNum (Qc_of_Z 2)) (VNum (Qc_of_Z 3))
              (VNum (Qc_of_Z 4)) (VNum (Qc_of_Z 5)) (VNum (Qc_of_Z 6))
              (VStr "x"))
    as (d' & Hrun & Hs & He & _); try reflexivity.
  exists d'. split; [exact Hrun|]. split; [exact Hs|exact He].
Defined.




(** Evaluations of [mean]: [mean([1, 2])] is [1.5], [mean([0, -5])] is
    [-2.5], [mean([2.0, 4.0])] is [3.0]. *)
Lemma mean_examples :
  mean [PInt 1; PInt 2] = inr (PFloat (S754_finite false 6755399441055744 (-52))) /\
  mean [PInt 0; PInt (-5)] = inr (PFloat (S754_finite true 5629499534213120 (-51))) /\
  mean [PFloat (S754_finite false 4503599627370496 (-51));
        PFloat (S754_finite false 4503599627370496 (-50))]
  = inr (PFloat (S754_finite false 6755399441055744 (-51))).
Proof. repeat split; vm_compute; reflexivity. Qed.


End Examples.

(* ===================================================================== *)
(** ** simgui_modules/utils.py: further helpers *)
(* ===================================================================== *)

Module Helpers.
Import PyStr.

(** [def convertToLessThanThree(number)] *)
Definition convertToLessThanThree (number : Z) : Z :=
  if (2 <? number)%Z then (number - 3)%Z else number.

(** The two lines of [readOutExtrema] and [setDomainConstraints] that pick
    the horizontal and the vertical axis for the normal axis of index [n]. *)
Definition plane_axes (n : Z) : Z * Z :=
  (convertToLessThanThree (n + 1), convertToLessThanThree (n + 2)).

(** [str(v)] for a value that is a string or None. *)
Definition str_or_None (v : option string) : string :=
  match v with
  | Some s => s
  | None => "None"
  end.

(** [def getCalcQuanString(Param_Dict)], with the entries "TimeQuantity",
    "YAxis", "YUnit" and "WeightField" of the parameter store. *)
Definition getCalcQuanString (TimeQuantity YAxis YUnit : string)
    (WeightField : option string) : string :=
  let calcQuan := TimeQuantity in
  let field := YAxis in
  let unit := YUnit in
  let calcQuan :=
    if bool_decide (calcQuan = "weighted_average")
    then calcQuan ++ "_quantity" else calcQuan in
  let calcQuan :=
    if bool_decide
         (calcQuan ∈ ["weighted_average_quantity"; "weighted_variance"])
    then
      let weight :=
        match WeightField with
        | None => "ones"
        | Some w => w
        end in
      "quantities." ++ calcQuan ++ "('" ++ field ++ "', '" ++ weight ++ "')"
    else calcQuan ++ "('" ++ field ++ "')" in
  "ad." ++ calcQuan ++ ".to_value('" ++ unit ++ "')".

(** [def getCalcQuanName(Param_Dict)] *)
Definition getCalcQuanName (TimeQuantity : string)
    (WeightField : option string) : string :=
  let calcQuan := TimeQuantity in
  let calcQuan := "_" ++ calcQuan in
  if bool_decide (calcQuan ∈ ["weighted_average"; "weighted_variance"])
  then calcQuan ++ ("_" ++ str_or_None WeightField)
  else calcQuan.

(** The ordinal ending looked up by the [suf] lambda of
    [coolSpinBox.textFromValue] and [createMultipleProfiles]:
    [{1:"st",2:"nd",3:"rd"}.get(n if n<20 else n%10,"th")]. *)
Definition ending (n : nat) : string :=
  match (if (n <? 20)%nat then n else n mod 10) with
  | 1 => "st"
  | 2 => "nd"
  | 3 => "rd"
  | _ => "th"
  end.

(** [suf = lambda n: "%d%s "%(n, ...)] *)
Definition suf (n : nat) : string := str_nat n ++ ending n ++ " ".

(** [def textFromValue(self, value)] of [coolSpinBox] *)
Definition textFromValue (value : nat) : string :=
  if (value =? 1)%nat then "" else suf value.

End Helpers.

Section HelperFacts.
Import PyStr Helpers.

(** X1. [convertToLessThanThree] returns a value between 0 and 2 exactly
    for the arguments 0 to 5, and there it is the remainder modulo 3; so
    for a normal axis 0, 1 or 2 the horizontal and the vertical axis are
    the next two axes in cyclic order, different from it and from each
    other. *)
Theorem convertToLessThanThree_range (number : Z) :
  ((0 <= convertToLessThanThree number <= 2)%Z <-> (0 <= number <= 5)%Z) /\
  ((0 <= number <= 5)%Z ->
     convertToLessThanThree number = (number mod 3)%Z) /\
  ((0 <= number <= 2)%Z ->
     let '(hor, ver) := plane_axes number in
     hor = ((number + 1) mod 3)%Z /\ ver = ((number + 2) mod 3)%Z /\
     hor <> number /\ ver <> number /\ hor <> ver).
Proof.
  unfold plane_axes, convertToLessThanThree.
  split; [|split].
  - destruct (2 <? number)%Z eqn:H; [apply Z.ltb_lt in H|apply Z.ltb_ge in H];
      lia.
  - intros H. assert (number = 0 \/ number = 1 \/ number = 2 \/ number = 3
                      \/ number = 4 \/ number = 5)%Z as Hn by lia.
    destruct Hn as [-> |[-> |[-> |[-> |[-> | ->]]]]]; reflexivity.
  - intros H. assert (number = 0 \/ number = 1 \/ number = 2)%Z as Hn by lia.
    destruct Hn as [-> |[-> | ->]]; simpl; repeat split; lia.
Qed.

Lemma convertToLessThanThree_witness :
  (0 <= 4 <= 5)%Z /\ convertToLessThanThree 4 = (4 mod 3)%Z.
Proof.
  split; [lia|].
  apply (proj1 (proj2 (convertToLessThanThree_range 4))). lia.
Defined.

Lemma str_app_inv_l (a : string) : forall x y, a ++ x = a ++ y -> x = y.
Proof.
  induction a as [|c a IH]; intros x y H; [done|].
  rewrite !str_app_cons in H. injection H as H. by apply IH.
Qed.

Lemma str_app_inv_r (b : string) : forall x y, x ++ b = y ++ b -> x = y.
Proof.
  intros x y H.
  assert (Hlen : String.length x = String.length y).
  { apply (f_equal String.length) in H. rewrite !str_length_app in H. lia. }
  revert y H Hlen.
  induction x as [|c x IH]; intros [|d y] H Hlen; simpl in Hlen; try done.
  rewrite !str_app_cons in H. injection H as -> H. f_equal. apply IH; [done|lia].
Qed.

(** X2. [getCalcQuanName] returns "_" followed by the quantity, whatever the
    weight field is: the name it tests against the two weighted quantities
    already starts with the underscore.  So for a weighted quantity two
    different weight fields lead to different calculation strings under
    one and the same name. *)
Theorem getCalcQuanName_ignores_weight
    (TimeQuantity YAxis YUnit : string) (w1 w2 : option string) :
  getCalcQuanName TimeQuantity w1 = "_" ++ TimeQuantity /\
  (TimeQuantity ∈ ["weighted_average"; "weighted_variance"] ->
   w1 <> w2 -> w1 <> Some "ones" -> w2 <> Some "ones" ->
   getCalcQuanString TimeQuantity YAxis YUnit w1
     <> getCalcQuanString TimeQuantity YAxis YUnit w2 /\
   getCalcQuanName TimeQuantity w1 = getCalcQuanName TimeQuantity w2).
Proof.
  assert (Hname : forall w, getCalcQuanName TimeQuantity w = "_" ++ TimeQuantity).
  { intros w. unfold getCalcQuanName.
    rewrite bool_decide_eq_false_2; [done|].
    rewrite !elem_of_cons, elem_of_nil. rewrite str_app_cons.
    intros [H|[H|[]]]; discriminate H. }
  split; [apply Hname|].
  intros Hq Hw H1 H2. split; [|by rewrite !Hname].
  assert (Hweight : forall q (a b : string),
            a <> b ->
            "ad." ++ ("quantities." ++ q ++ "('" ++ YAxis ++ "', '" ++ a ++ "')")
              ++ ".to_value('" ++ YUnit ++ "')" <>
            "ad." ++ ("quantities." ++ q ++ "('" ++ YAxis ++ "', '" ++ b ++ "')")
              ++ ".to_value('" ++ YUnit ++ "')").
  { intros q a b Hab H. apply Hab.
    apply str_app_inv_l in H. rewrite !str_app_assoc in H.
    do 5 apply str_app_inv_l in H.
    by apply str_app_inv_r in H. }
  apply elem_of_cons in Hq as [->|Hq]; [|apply list_elem_of_singleton in Hq as ->];
    unfold getCalcQuanString; cbn -[String.append];
    apply Hweight; destruct w1, w2; congruence.
Qed.

Lemma getCalcQuanName_witness :
  getCalcQuanString "weighted_average" "density" "g/cm**3" (Some "cell_mass")
    <> getCalcQuanString "weighted_average" "density" "g/cm**3" None /\
  getCalcQuanName "weighted_average" (Some "cell_mass")
    = getCalcQuanName "weighted_average" None.
Proof.
  apply (proj2 (getCalcQuanName_ignores_weight "weighted_average" "density"
                  "g/cm**3" (Some "cell_mass") None)).
  - rewrite elem_of_cons. by left.
  - discriminate.
  - discriminate.
  - discriminate.
Defined.

(** X3. The ordinal ending of [textFromValue]: 1 gives the empty text; 2
    and 3 get "nd" and "rd"; 4 to 19 get "th"; from 20 on the ending is
    decided by the last digit alone, so that 21, 22, 23 get "st", "nd",
    "rd", and so do 111, 112 and 113. *)
Theorem textFromValue_ending (value : nat) :
  (value = 1 -> textFromValue value = "") /\
  (value <> 1 -> textFromValue value = str_nat value ++ ending value ++ " ") /\
  (4 <= value < 20 -> ending value = "th") /\
  (20 <= value -> ending value = ending (value mod 10)) /\
  (20 <= value -> value mod 10 = 1 -> ending value = "st") /\
  (20 <= value -> value mod 10 = 2 -> ending value = "nd") /\
  (20 <= value -> value mod 10 = 3 -> ending value = "rd").
Proof.
  unfold textFromValue, suf, ending.
  split; [by intros ->|].
  split; [intros H; by rewrite (proj2 (Nat.eqb_neq _ _) H)|].
  split.
  { intros H. rewrite (proj2 (Nat.ltb_lt _ _)) by lia.
    do 4 (destruct value as [|value]; [lia|]). done. }
  assert (Hbig : 20 <= value -> (value <? 20)%nat = false)
    by (intros; apply Nat.ltb_ge; lia).
  assert (Hsmall : (value mod 10 <? 20)%nat = true).
  { apply Nat.ltb_lt. pose proof (Nat.mod_upper_bound value 10). lia. }
  split; [intros H; by rewrite (Hbig H), Hsmall|].
  split; [|split]; intros H Hm; by rewrite (Hbig H), Hm.
Qed.

Lemma textFromValue_witness :
  textFromValue 112 = str_nat 112 ++ ending 112 ++ " " /\
  ending 112 = "nd" /\ ending 12 = "th".
Proof.
  split; [|split].
  - apply (proj1 (proj2 (textFromValue_ending 112))). discriminate.
  - apply (textFromValue_ending 112); [lia|reflexivity].
  - apply (textFromValue_ending 12). lia.
Defined.

End HelperFacts.

(* ===================================================================== *)
(** ** The worker as the progress dialog sees it *)
(* ===================================================================== *)

Section WorkerFacts.
Import PyStr Threading.

(** The message of the last [progressUpdate] among [sigs], or [d] when
    there is none. *)
Fixpoint last_message (sigs : list Signal) (d : string) : string :=
  match sigs with
  | [] => d
  | progressUpdate m :: rest => last_message rest m
  | _ :: rest => last_message rest d
  end.

Lemma stopProcess_worker s :
  signals (stopProcess s) = signals s /\
  oldMessage (self (stopProcess s)) = oldMessage (self s) /\
  _isRunning (self (stopProcess s)) = false.
Proof. done. Qed.

(** One statement: what it emits, and what it leaves in [oldMessage]. *)
Lemma step_signals env pc a s :
  exists new,
    signals (state_of (step env pc a s)) = (signals s ++ new)%list /\
    oldMessage (self (state_of (step env pc a s)))
      = last_message new (oldMessage (self s)) /\
    (_isRunning (self s) = false ->
     _isRunning (self (state_of (step env pc a s))) = false).
Proof.
  destruct a as [[[]|] x|[[]|] i n|c x|n f|f|n x]; simpl;
    try (destruct (_isRunning (self s)) eqn:Hr);
    try (destruct (fails env pc) as [[??]|]);
    simpl;
    first [ by exists [progressUpdate x]
          | by exists [multiProgress]
          | exists []; by rewrite app_nil_r ].
Qed.

Lemma run_signals (env : Env) (p : list action) (pc : nat) (s : State) :
  exists new,
    signals (state_of (exec env pc p s)) = (signals s ++ new)%list /\
    oldMessage (self (state_of (exec env pc p s)))
      = last_message new (oldMessage (self s)) /\
    (_isRunning (self s) = false ->
     _isRunning (self (state_of (exec env pc p s))) = false) /\
    (forall m k s',
       exec env pc p s = Raised (WorkingException m) k s' ->
       exists a,
         p !! (k - pc) = Some a /\ polls a = true /\
         m = cancel_message a
               {| _isRunning := false;
                  oldMessage := last_message new (oldMessage (self s)) |}).
Proof.
  revert pc s. induction p as [|a p IH]; intros pc s; simpl.
  - exists []. rewrite app_nil_r. done.
  - set (s1 := if cancels env pc then stopProcess s else s).
    assert (H1 : signals s1 = signals s /\
                 oldMessage (self s1) = oldMessage (self s) /\
                 (_isRunning (self s) = false -> _isRunning (self s1) = false)).
    { unfold s1. by destruct (cancels env pc). }
    destruct H1 as (Hsig & Hold & Hrun).
    destruct (step_signals env pc a s1) as (n1 & Hs1 & Ho1 & Hr1).
    destruct (step env pc a s1) as [s2|e k2 s2] eqn:Hstep; simpl in *.
    + destruct (IH (S pc) s2) as (n2 & Hs2 & Ho2 & Hr2 & Hm2).
      exists (n1 ++ n2)%list. split; [|split; [|split]].
      * by rewrite Hs2, Hs1, Hsig, <- app_assoc.
      * rewrite Ho2, Ho1, Hold. clear.
        generalize (oldMessage (self s)). induction n1 as [|[] n1 IHn];
          intros d; simpl; auto.
      * auto.
      * intros m k s' Hex. destruct (Hm2 m k s' Hex) as (b & Hb & Hp & ->).
        assert (S pc <= k).
        { apply exec_raised_prefix in Hex. lia. }
        exists b. split; [|split; [done|]].
        -- replace (k - pc) with (S (k - S pc)) by lia. done.
        -- rewrite Ho1, Hold. f_equal. f_equal. clear.
           generalize (oldMessage (self s)). induction n1 as [|[] n1 IHn];
             intros d; simpl; auto.
    + exists n1. split; [by rewrite Hs1, Hsig|].
      split; [by rewrite Ho1, Hold|]. split; [auto|].
      intros m k s' [= -> -> ->].
      pose proof (step_raised _ _ _ _ _ _ _ Hstep) as [-> ->].
      rewrite Nat.sub_diag. exists a. split; [done|].
      destruct a as [[[]|] x|[[]|] i n|c x|n f|f|n x]; simpl in Hstep;
        try done;
        try (destruct (fails env pc) as [[??]|]; done).
      * destruct (_isRunning (self s1)); [done|].
        injection Hstep as <-. simpl in Hs1.
        split; [done|]. simpl.
        assert (n1 = []) as ->.
        { apply (f_equal length) in Hs1. rewrite length_app in Hs1.
          destruct n1; [done|]. rewrite Hsig in Hs1. simpl in Hs1. lia. }
        simpl. by rewrite Hold.
      * destruct (_isRunning (self s1)); [done|].
        by injection Hstep as <-.
Qed.

(** X4. Throughout a run [oldMessage] of the worker is the message of the
    last progress update it has emitted (cancel requests in between do not
    change it) and [_isRunning] never turns back to True.  A
    [WorkingException] is raised by a checkpoint only: [emitStatus] names
    that last message in it, [emitMultiStatus] names its two plot counters
    and not the last message. *)
Theorem cancel_message_names_last_step
    (env : Env) (p : list action) (pc : nat) (s : State) :
  exists new,
    signals (state_of (exec env pc p s)) = (signals s ++ new)%list /\
    oldMessage (self (state_of (exec env pc p s)))
      = last_message new (oldMessage (self s)) /\
    (_isRunning (self s) = false ->
     _isRunning (self (state_of (exec env pc p s))) = false) /\
    (forall m k s',
       exec env pc p s = Raised (WorkingException m) k s' ->
       (exists worker message,
          p !! (k - pc) = Some (Checkpoint (Some worker) message) /\
          m = "You cancelled the plotting process " ++ spaces31 ++
              "while <b>" ++
              lower (last_message new (oldMessage (self s))) ++ ".</b>") \/
       (exists worker currentNumber plotNumber,
          p !! (k - pc)
            = Some (MultiCheckpoint (Some worker) currentNumber plotNumber) /\
          m = "You cancelled the plotting process while " ++ spaces31 ++
              "<b>producing plot " ++ str_nat currentNumber ++ "/" ++
              str_nat plotNumber ++ "</b>.")).
Proof.
  destruct (run_signals env p pc s) as (new & Hsig & Hold & Hrun & Hmsg).
  exists new. split; [exact Hsig|]. split; [exact Hold|].
  split; [exact Hrun|].
  intros m k s' Hex.
  destruct (Hmsg m k s' Hex) as (a & Ha & Hp & ->).
  destruct a as [[w|] x|[w|] i n|c x|n f|f|n x]; try discriminate Hp.
  - left. exists w, x. by split.
  - right. exists w, i, n. by split.
Qed.

(** Statements that do not poll neither emit nor raise
    [WorkingException], cancel request or not. *)
Lemma poll_free_silent env p : forall pc s,
  poll_free p = true ->
  signals (state_of (exec env pc p s)) = signals s /\
  oldMessage (self (state_of (exec env pc p s))) = oldMessage (self s) /\
  forall m k s', exec env pc p s <> Raised (WorkingException m) k s'.
Proof.
  induction p as [|a p IH]; intros pc s Hp; simpl in *; [done|].
  apply andb_true_iff in Hp as [Ha Hp]. apply negb_true_iff in Ha.
  set (s1 := if cancels env pc then stopProcess s else s).
  assert (H1 : signals s1 = signals s /\
               oldMessage (self s1) = oldMessage (self s)).
  { unfold s1. by destruct (cancels env pc). }
  destruct H1 as [Hsig Hold].
  pose proof (poll_free_step env pc a s1 Ha) as Hs.
  assert (Hsig1 : signals (state_of (step env pc a s1)) = signals s1).
  { destruct a as [[[]|] x|[[]|] i n|c x|n f|f|n x]; simpl in Ha |- *;
      try done; by destruct (fails env pc) as [[??]|]. }
  destruct (step env pc a s1) as [s2|e k s2]; simpl in *.
  - destruct (IH (S pc) s2 Hp) as (H2 & H3 & H4).
    rewrite H2, H3, Hs, Hsig1. done.
  - destruct Hs as [-> (name & text & ->)]. done.
Qed.

Lemma poll_free_app p1 p2 :
  poll_free (p1 ++ p2)%list = poll_free p1 && poll_free p2.
Proof. apply forallb_app. Qed.

Lemma poll_free_gather l :
  poll_free (map (gather_action None) l) = true.
Proof. induction l as [|[]]; simpl; auto. Qed.

Lemma poll_free_modePlot P : poll_free (modePlot P None) = true.
Proof.
  destruct P as [m d2 dd wf sa ts ap xt mp ga dn dt].
  unfold modePlot; cbn [PlotMode].
  destruct m.
  - by destruct d2.
  - by destruct dd, d2.
  - by destruct d2, ts.
  - by destruct wf, d2, ts.
  - unfold ProfilePlot. cbn [PlotMode gather WeightFieldNone XAxisTime].
    rewrite poll_free_app, poll_free_gather.
    unfold makeProfilePlot.
    cbn [PlotMode AddProfile Timestamp XAxisTime manyProfiles].
    generalize (wf && negb xt) (ts && negb xt). intros b1 b2.
    by destruct b1, ap, b2, mp.
Qed.

Lemma poll_free_loop P R : forall js i,
  poll_free (evaluateMultiple_loop P R None i js) = true.
Proof.
  induction js as [|j js IH]; intros i; simpl; [done|].
  rewrite poll_free_app, IH, andb_true_r.
  unfold evaluateMultiple_body.
  destruct (OnlyEvery R =? 0)%nat; [done|].
  destruct (_ =? 0)%nat; [|done].
  rewrite !poll_free_app, poll_free_modePlot.
  unfold getSliderInput.
  by destruct (decide (PlotMode P = Profile)), (MakeMovie R).
Qed.

(** X5. Called without a worker, the evaluation routines never emit a
    signal, never change the message of the worker and never raise
    [WorkingException], also when the user asks to cancel. *)
Theorem no_worker_no_cancellation
    (env : Env) (P : Params) (R : Request) (s : State) :
  let single := exec env 0 (evaluateSingle P None) s in
  let series := exec env 0 (evaluateMultiple P R None) s in
  signals (state_of single) = signals s /\
  oldMessage (self (state_of single)) = oldMessage (self s) /\
  (forall m k s', single <> Raised (WorkingException m) k s') /\
  signals (state_of series) = signals s /\
  oldMessage (self (state_of series)) = oldMessage (self s) /\
  (forall m k s', series <> Raised (WorkingException m) k s').
Proof.
  assert (H1 : poll_free (evaluateSingle P None) = true).
  { unfold evaluateSingle. rewrite !poll_free_app, poll_free_modePlot. done. }
  assert (H2 : poll_free (evaluateMultiple P R None) = true).
  { unfold evaluateMultiple. rewrite !poll_free_app, poll_free_loop.
    by destruct (Length R). }
  destruct (poll_free_silent env _ 0 s H1) as (?&?&?).
  destruct (poll_free_silent env _ 0 s H2) as (?&?&?).
  done.
Qed.

(** X6. Asking to cancel a second time (the Cancel button, then Escape)
    changes nothing: [stopProcess] is idempotent. *)
Theorem stopProcess_idempotent (s : State) :
  let s1 := stopProcess s in
  let s2 := stopProcess s1 in
  self s2 = self s1 /\ signals s2 = signals s1 /\ logged s2 = logged s1 /\
  stderr s2 = stderr s1 /\
  infoLabel (gui s2) = infoLabel (gui s1) /\
  cancelButton (gui s2) = cancelButton (gui s1) /\
  CurrentPlotWindow (gui s2) = CurrentPlotWindow (gui s1) /\
  history (gui s2) = history (gui s1) /\ saved (gui s2) = saved (gui s1) /\
  (forall r, windows (gui s2) r = windows (gui s1) r) /\
  _isRunning (self s1) = false /\ cancelButton (gui s1) = false.
Proof.
  repeat split; try reflexivity.
  intros r. rewrite !stopProcess_windows.
  change (CurrentPlotWindow (gui (stopProcess s)))
    with (CurrentPlotWindow (gui s)).
  by case_bool_decide.
Qed.

End WorkerFacts.

(* ===================================================================== *)
(** ** The dialogs around a run: threading.py, additionalWidgets.py,
       GUFY.py *)
(* ===================================================================== *)

Module Dialogs.
Import PyStr Threading.

(** A QProgressBar whose minimum is 0.  In Qt, [setValue] with a value
    outside the range has no effect. *)
Record QProgressBar := { maximum : nat; value : nat }.

Definition setValue (v : nat) (b : QProgressBar) : QProgressBar :=
  if (v <=? maximum b)%nat then {| maximum := maximum b; value := v |} else b.

(** The [mode] of a ProgressDialog that plots, with the [Request_Dict] it is
    given in mode "PlotAll". *)
Inductive DialogMode :=
| PlotSingle
| PlotAll (Request_Dict : Request).

(** class ProgressDialog: the widgets its slots write. *)
Record ProgressDialog := {
  mode : DialogMode;
  progressBar : QProgressBar;
  infoLabel : string;
  multipleProgressBar : option QProgressBar;
  multiInfoLabel : option string;
  debugged : list string;            (* GUILogger.debug *)
  closed : bool
}.

(** [def determineProgressLength(self, Param_Dict)]; [profileAdditions] is
    the value of [sut.calculateProfileAdditions(Param_Dict)]. *)
Definition determineProgressLength (P : Params) (profileAdditions : nat)
    : QProgressBar :=
  let length := 6 in
  let length :=
    if decide (PlotMode P = Profile) then length + profileAdditions
    else length in
  {| maximum := length; value := 0 |}.

(** [ProgressDialog.__init__] with [initUi]. *)
Definition ProgressDialog_init (P : Params) (profileAdditions : nat)
    (m : DialogMode) : ProgressDialog :=
  {| mode := m;
     progressBar := determineProgressLength P profileAdditions;
     infoLabel := "";
     multipleProgressBar :=
       match m with
       | PlotAll R => Some {| maximum := PlotNumber R; value := 0 |}
       | PlotSingle => None
       end;
     multiInfoLabel :=
       match m with
       | PlotAll R =>
           Some ("Currently working on plot 1/" ++ str_nat (PlotNumber R)
                 ++ "...")
       | PlotSingle => None
       end;
     debugged := []; closed := false |}.

(** [def updateProgress(self, message)] *)
Definition updateProgress (message : string) (d : ProgressDialog)
    : ProgressDialog :=
  {| mode := mode d;
     progressBar := setValue (value (progressBar d) + 1) (progressBar d);
     infoLabel := message ++ "...";
     multipleProgressBar := multipleProgressBar d;
     multiInfoLabel := multiInfoLabel d;
     debugged := debugged d; closed := closed d |}.

(** [def updateMultiProgress(self)]; the slot is connected in mode "PlotAll"
    only. *)
Definition updateMultiProgress (d : ProgressDialog) : ProgressDialog :=
  match mode d, multipleProgressBar d with
  | PlotAll R, Some bar =>
      let oldValue := value bar in
      let text := str_nat (oldValue + 2) ++ "/" ++ str_nat (PlotNumber R) in
      {| mode := mode d;
         progressBar := setValue 0 (progressBar d);
         infoLabel := infoLabel d;
         multipleProgressBar := Some (setValue (oldValue + 1) bar);
         multiInfoLabel := Some ("Currently working on plot " ++ text ++ "...");
         debugged := (debugged d ++ [text])%list; closed := closed d |}
  | _, _ => d
  end.

(** The slots [signalsConnection] connects to the signals of the worker. *)
Definition deliver (d : ProgressDialog) (sig : Signal) : ProgressDialog :=
  match sig with
  | progressUpdate message => updateProgress message d
  | multiProgress => updateMultiProgress d
  | finished _ | finished_dir _ _ =>
      {| mode := mode d; progressBar := progressBar d;
         infoLabel := infoLabel d;
         multipleProgressBar := multipleProgressBar d;
         multiInfoLabel := multiInfoLabel d;
         debugged := debugged d; closed := true |}
  end.

(** class PlotAllDialog (additionalWidgets.py) *)
Record PlotAllDialog := {
  length : nat;
  plotNumber : nat;
  onlyEvery : nat;
  makeMovie : bool
}.

Definition PlotAllDialog_init (series_length : nat) : PlotAllDialog :=
  {| length := series_length; plotNumber := series_length; onlyEvery := 1;
     makeMovie := false |}.

(** [ceil(a/b)] for non-negative integers [a] and a positive [b]. *)
Definition ceil_div (a b : nat) : nat := (a + b - 1) / b.

(** [def getOnlyEveryInput(self, value)]; [None] is the
    [ZeroDivisionError] of [self.length/value]. *)
Definition getOnlyEveryInput (v : nat) (d : PlotAllDialog)
    : option PlotAllDialog :=
  if (v =? 0)%nat then None
  else Some {| length := length d; plotNumber := ceil_div (length d) v;
               onlyEvery := v; makeMovie := makeMovie d |}.

(** [def getMovieInput(self, state)] *)
Definition getMovieInput (state : bool) (d : PlotAllDialog) : PlotAllDialog :=
  {| length := length d; plotNumber := plotNumber d; onlyEvery := onlyEvery d;
     makeMovie := state |}.

(** [def applyPressed(self)]: the Request_Dict it builds. *)
Definition applyPressed (d : PlotAllDialog) : Request :=
  {| OnlyEvery := onlyEvery d; Length := length d; MakeMovie := makeMovie d;
     PlotNumber := plotNumber d; Directory := "" |}.

(** [def giveSingleFeedback(self, success)] and
    [def giveMultipleFeedback(self, success, directory)] (GUFY.py): the
    entries they log, and whether they show the button "MakeLinePlot".
    [cart] is [Param_Dict["Geometry"] == "cartesian"] and [aligned] is
    [Param_Dict["NormVecMode"] == "Axis-Aligned"]. *)
Definition slcproj (m : Mode) : bool :=
  bool_decide (m = Slice \/ m = Projection).

Definition giveSingleFeedback (P : Params) (cart aligned : bool)
    (success : bool) : list LogEntry * bool :=
  if success
  then ([(log 29, mode_name (PlotMode P) ++ " plot successful.")],
        cart && slcproj (PlotMode P) && aligned)
  else ([], false).

Definition giveMultipleFeedback (P : Params) (cart aligned : bool)
    (success : bool) (directory : string) : list LogEntry * bool :=
  if success
  then ((log 29, mode_name (PlotMode P) ++ " plots successful.") ::
        (if bool_decide (directory <> "")
         then [(log 29, "The pictures have been saved to <b>" ++ directory
                        ++ "</b>.")]
         else []),
        cart && slcproj (PlotMode P) && aligned)
  else ([], false).

(** The slot connected to [finished], run on the last signal of a worker. *)
Definition feedback (P : Params) (cart aligned : bool) (s : State)
    : list LogEntry * bool :=
  match last (signals s) with
  | Some (finished success) => giveSingleFeedback P cart aligned success
  | Some (finished_dir success directory) =>
      giveMultipleFeedback P cart aligned success directory
  | _ => ([], false)
  end.

End Dialogs.

Section DialogFacts.
Import PyStr Threading.

(** What a statement emits when the worker is running. *)
Definition emitted_by (a : action) : list Signal :=
  match a with
  | Checkpoint (Some _) message => [progressUpdate message]
  | MultiCheckpoint (Some _) _ _ => [multiProgress]
  | _ => []
  end.

Definition emitted (p : list action) : list Signal :=
  flat_map emitted_by p.

Lemma emitted_app p1 p2 : emitted (p1 ++ p2)%list = (emitted p1 ++ emitted p2)%list.
Proof. apply flat_map_app. Qed.

(** A run without cancel request and failing call emits what its
    checkpoints announce, in order. *)
Lemma exec_emitted env :
  cancelAt env = None -> (forall pc, fails env pc = None) ->
  forall p pc s,
    no_throw p = true -> _isRunning (self s) = true ->
    exists s',
      exec env pc p s = Done s' /\
      signals s' = (signals s ++ emitted p)%list /\
      gui s' = gui_run p (gui s) /\
      _isRunning (self s') = true.
Proof.
  intros Hc Hf p. induction p as [|a p IH]; intros pc s Hp Hrun; simpl.
  - exists s. by rewrite app_nil_r.
  - apply andb_true_iff in Hp as [Ha Hp].
    assert (cancels env pc = false) as -> by (unfold cancels; by rewrite Hc).
    destruct a as [[[]|] x|[[]|] i n|c x|n f|f|n x]; simpl in Ha |- *;
      rewrite ?Hrun, ?Hf; try done;
      (edestruct (IH (S pc)) as (s' & He & Hs & Hg & Hr);
       [ exact Hp
       |
       | exists s'; split; [exact He|]; split;
         [rewrite Hs; simpl; by rewrite <- ?app_assoc
         |split; [by rewrite Hg|exact Hr]] ]);
      done.
Qed.

(** The progress messages of a single plot that is no profile plot. *)
Definition single_messages (m : Mode) : list string :=
  [ "Creating the initial " ++ lower (mode_name m) ++ " plot";
    "Setting " ++ lower (mode_name m) ++ " plot modifications";
    "Annotating the " ++ lower (mode_name m) ++ " plot";
    "Starting the plot";
    "Drawing plot onto the canvas";
    "Finishing" ].

Definition gather_messages (l : list gather_step) : list string :=
  flat_map (fun st => match st with GCheckpoint m => [m] | _ => [] end) l.

Definition profile_messages (l : list gather_step) : list string :=
  ("Creating the initial profile plot" :: gather_messages l ++
   [ "Starting the plot"; "Setting plot modifications";
     "Drawing plot onto the canvas"; "Finishing" ])%list.

Lemma emitted_gather l :
  emitted (map (gather_action (Some progressWorker)) l)
    = map progressUpdate (gather_messages l).
Proof.
  induction l as [|[] l IH]; simpl; [done|done|done|]. by rewrite <- IH.
Qed.

Lemma emitted_evaluateSingle P :
  emitted (evaluateSingle P (Some progressWorker)) =
    map progressUpdate
      (if decide (PlotMode P = Profile) then profile_messages (gather P)
       else single_messages (PlotMode P)).
Proof.
  destruct P as [m d2 dd wf sa ts ap xt mp ga dn dt].
  unfold evaluateSingle, modePlot; cbn [PlotMode].
  destruct m.
  - by destruct d2.
  - by destruct dd, d2.
  - by destruct d2, ts.
  - by destruct wf, d2, ts.
  - rewrite decide_True by done.
    unfold ProfilePlot. cbn [PlotMode gather WeightFieldNone XAxisTime].
    rewrite !emitted_app, emitted_gather.
    unfold makeProfilePlot, profile_messages.
    cbn [PlotMode AddProfile Timestamp XAxisTime manyProfiles].
    rewrite map_cons, map_app.
    generalize (wf && negb xt) (ts && negb xt). intros b1 b2.
    destruct b1, ap, b2, mp; simpl; rewrite <- ?app_assoc; reflexivity.
Qed.

Definition deliver_all (sigs : list Signal) (d : Dialogs.ProgressDialog)
    : Dialogs.ProgressDialog :=
  fold_left Dialogs.deliver sigs d.

(** The progress bar after [updateProgress] has run for each of [msgs]. *)
Lemma deliver_progress msgs : forall d,
  let d' := deliver_all (map progressUpdate msgs) d in
  Dialogs.value (Dialogs.progressBar d') =
    Nat.min (Dialogs.value (Dialogs.progressBar d) + List.length msgs)
            (Nat.max (Dialogs.value (Dialogs.progressBar d))
                     (Dialogs.maximum (Dialogs.progressBar d))) /\
  Dialogs.maximum (Dialogs.progressBar d')
    = Dialogs.maximum (Dialogs.progressBar d) /\
  Dialogs.infoLabel d' =
    match last msgs with
    | Some m => m ++ "..."
    | None => Dialogs.infoLabel d
    end.
Proof.
  induction msgs as [|m msgs IH]; intros d; cbv zeta.
  - simpl. split; [lia|done].
  - cbn [map deliver_all fold_left Dialogs.deliver].
    destruct (IH (Dialogs.updateProgress m d)) as (Hv & Hm & Hl).
    unfold deliver_all in *. rewrite Hv, Hm, Hl. clear IH Hv Hm Hl.
    destruct d as [md [mx v] il mb ml db cl].
    unfold Dialogs.updateProgress, Dialogs.setValue. simpl.
    split; [|split].
    + destruct (v + 1 <=? mx)%nat eqn:Hle;
        [apply Nat.leb_le in Hle|apply Nat.leb_gt in Hle]; simpl; lia.
    + by destruct (v + 1 <=? mx)%nat.
    + destruct msgs as [|m' msgs]; [reflexivity|].
      change (last (m :: m' :: msgs)) with (last (m' :: msgs)).
      destruct (last (m' :: msgs)) eqn:E; [reflexivity|].
      by apply last_None in E.
Qed.

(** X7. A single plot that is neither cancelled nor failing runs to the
    end and emits the progress updates of its checkpoints.  In the modes
    Slice, Projection, Line and Phase these are six, the range that
    [determineProgressLength] gives the progress bar, which therefore ends
    full, the label reading "Finishing...".  A profile plot emits five
    updates and one per checkpoint of its data gathering, while the range
    is six plus the profile additions; the bar shows the smaller of the
    two. *)
Theorem single_run_fills_progress_bar
    (env : Env) (P : Params) (profileAdditions : nat) (s : State) :
  cancelAt env = None ->
  (forall pc, fails env pc = None) ->
  _isRunning (self s) = true ->
  let msgs := if decide (PlotMode P = Profile)
              then profile_messages (gather P)
              else single_messages (PlotMode P) in
  let dialog :=
    deliver_all (map progressUpdate msgs)
      (Dialogs.ProgressDialog_init P profileAdditions Dialogs.PlotSingle) in
  exists s',
    exec env 0 (evaluateSingle P (Some progressWorker)) s = Done s' /\
    signals s' = (signals s ++ map progressUpdate msgs)%list /\
    Dialogs.infoLabel dialog = "Finishing..." /\
    (PlotMode P <> Profile ->
     List.length msgs = 6 /\
     Dialogs.progressBar dialog = {| Dialogs.maximum := 6; Dialogs.value := 6 |}) /\
    (PlotMode P = Profile ->
     List.length msgs = 5 + List.length (gather_messages (gather P)) /\
     Dialogs.progressBar dialog =
       {| Dialogs.maximum := 6 + profileAdditions;
          Dialogs.value := Nat.min (5 + List.length (gather_messages (gather P)))
                                   (6 + profileAdditions) |}).
Proof.
  intros Hc Hf Hrun msgs dialog.
  assert (Hnt : no_throw (evaluateSingle P (Some progressWorker)) = true).
  { unfold evaluateSingle. rewrite !no_throw_app, no_throw_modePlot. done. }
  destruct (exec_emitted env Hc Hf _ 0 s Hnt Hrun) as (s' & Hex & Hsig & _).
  exists s'. split; [exact Hex|].
  split; [by rewrite Hsig, emitted_evaluateSingle|].
  destruct (deliver_progress msgs
              (Dialogs.ProgressDialog_init P profileAdditions Dialogs.PlotSingle))
    as (Hv & Hm & Hl).
  fold dialog in Hv, Hm, Hl.
  assert (Hbar : Dialogs.progressBar dialog =
                 {| Dialogs.maximum := Dialogs.maximum (Dialogs.progressBar dialog);
                    Dialogs.value := Dialogs.value (Dialogs.progressBar dialog) |})
    by (by destruct (Dialogs.progressBar dialog)).
  rewrite Hbar, Hv, Hm. clear Hbar Hv Hm.
  unfold Dialogs.ProgressDialog_init, Dialogs.determineProgressLength.
  cbn [Dialogs.progressBar Dialogs.maximum Dialogs.value].
  split; [|split].
  - rewrite Hl. unfold msgs.
    destruct (decide (PlotMode P = Profile)).
    + unfold profile_messages.
      generalize (gather_messages (gather P)) "Creating the initial profile plot".
      intros l. induction l as [|y l IHl]; intros x; [reflexivity|apply IHl].
    + by destruct (PlotMode P).
  - intros Hm. unfold msgs. rewrite !decide_False by done.
    split; [done|]. done.
  - intros Hm. unfold msgs. rewrite !decide_True by done.
    assert (List.length (profile_messages (gather P))
            = 5 + List.length (gather_messages (gather P))) as ->.
    { unfold profile_messages. simpl. rewrite length_app. simpl. lia. }
    split; [done|]. f_equal.
Qed.

Lemma single_run_witness :
  exists s',
    exec calm 0 (evaluateSingle (demo_params Slice) (Some progressWorker))
      demo_state = Done s' /\
    signals s' = map progressUpdate (single_messages Slice).
Proof.
  destruct (single_run_fills_progress_bar calm (demo_params Slice) 0 demo_state)
    as (s' & Hex & Hsig & _).
  - reflexivity.
  - intros pc. reflexivity.
  - reflexivity.
  - exists s'. split; [exact Hex|exact Hsig].
Defined.

End DialogFacts.

Section SeriesDialogFacts.
Import PyStr Threading.

(** [GUFYMainWindow.evaluateMultiple] (GUFY.py): the request that reaches the
    ProgressDialog.  [folder] is the value of [sut.setUpMovieFolder]: the
    directory made for the pictures, or None (False) when the user chose
    none, in which case nothing is evaluated. *)
Definition movie_request (R : Request) (folder : option string)
    : option Request :=
  if MakeMovie R then
    match folder with
    | Some directory =>
        Some {| OnlyEvery := OnlyEvery R; Length := Length R;
                MakeMovie := MakeMovie R; PlotNumber := PlotNumber R;
                Directory := directory |}
    | None => None
    end
  else Some R.

Definition is_multi (sig : Signal) : bool :=
  match sig with
  | multiProgress => true
  | _ => false
  end.

Definition count_multi (sigs : list Signal) : nat :=
  List.length (List.filter is_multi sigs).

Lemma count_multi_app l1 l2 :
  count_multi (l1 ++ l2)%list = count_multi l1 + count_multi l2.
Proof. unfold count_multi. by rewrite List.filter_app, length_app. Qed.

Lemma count_multi_updates msgs : count_multi (map progressUpdate msgs) = 0.
Proof. induction msgs; simpl; auto. Qed.

Lemma count_multi_modePlot P :
  count_multi (emitted (modePlot P (Some progressWorker))) = 0.
Proof.
  pose proof (emitted_evaluateSingle P) as H.
  apply (f_equal count_multi) in H.
  unfold evaluateSingle in H.
  rewrite !emitted_app, !count_multi_app, count_multi_updates in H. lia.
Qed.

Lemma count_multi_body P R i j :
  OnlyEvery R <> 0 ->
  count_multi (emitted (evaluateMultiple_body P R (Some progressWorker) i j))
    = if (i mod OnlyEvery R =? 0)%nat then 1 else 0.
Proof.
  intros Hk. unfold evaluateMultiple_body.
  rewrite (proj2 (Nat.eqb_neq _ _) Hk).
  destruct (_ =? 0)%nat; [|done].
  rewrite !emitted_app, !count_multi_app, count_multi_modePlot.
  unfold getSliderInput.
  by destruct (decide (PlotMode P = Profile)), (MakeMovie R).
Qed.

Lemma count_multi_loop P R :
  OnlyEvery R <> 0 ->
  forall n a,
    count_multi
      (emitted (evaluateMultiple_loop P R (Some progressWorker) a (seq a n)))
    = List.length (selected_from R a n).
Proof.
  intros Hk. induction n as [|n IH]; intros a; [done|].
  cbn [seq evaluateMultiple_loop].
  rewrite emitted_app, count_multi_app, count_multi_body, IH by done.
  rewrite selected_from_S. by destruct (_ =? 0)%nat.
Qed.

Lemma ceil_div_S n k :
  k <> 0 ->
  Dialogs.ceil_div (S n) k =
    Dialogs.ceil_div n k + (if (n mod k =? 0)%nat then 1 else 0).
Proof.
  intros Hk. unfold Dialogs.ceil_div.
  pose proof (Nat.div_mod_eq n k) as Hn.
  pose proof (Nat.mod_upper_bound n k Hk) as Hr.
  set (q := n / k) in *. set (r := n mod k) in *.
  assert ((S n + k - 1) / k = q + 1) as ->.
  { symmetry. apply (Nat.div_unique _ k (q + 1) r); [done|]. nia. }
  destruct (r =? 0)%nat eqn:H0;
    [apply Nat.eqb_eq in H0|apply Nat.eqb_neq in H0].
  - assert ((n + k - 1) / k = q) as ->; [|done].
    symmetry. apply (Nat.div_unique _ k q (k - 1)); [lia|]. nia.
  - assert ((n + k - 1) / k = q + 1) as ->; [|lia].
    symmetry. apply (Nat.div_unique _ k (q + 1) (r - 1)); [lia|]. nia.
Qed.

(** The datasets [evaluateMultiple] selects are as many as the plot-all
    dialog announces. *)
Lemma length_selected R :
  OnlyEvery R <> 0 ->
  List.length (selected R) = Dialogs.ceil_div (Length R) (OnlyEvery R).
Proof.
  intros Hk. unfold selected, selected_from.
  induction (Length R) as [|n IH].
  - unfold Dialogs.ceil_div. simpl.
    symmetry. apply Nat.div_small. lia.
  - rewrite seq_S, List.filter_app, length_app, IH, ceil_div_S by done.
    simpl. by destruct (_ =? 0)%nat.
Qed.

(** The second progress bar after the signals [sigs], as long as it does
    not run over. *)
Lemma deliver_multi R sigs : forall d bar,
  Dialogs.mode d = Dialogs.PlotAll R ->
  Dialogs.multipleProgressBar d = Some bar ->
  Dialogs.value bar + count_multi sigs <= Dialogs.maximum bar ->
  let d' := deliver_all sigs d in
  Dialogs.multipleProgressBar d' =
    Some {| Dialogs.maximum := Dialogs.maximum bar;
            Dialogs.value := Dialogs.value bar + count_multi sigs |} /\
  Dialogs.multiInfoLabel d' =
    if (count_multi sigs =? 0)%nat then Dialogs.multiInfoLabel d
    else Some ("Currently working on plot " ++
               (str_nat (Dialogs.value bar + count_multi sigs + 1) ++ "/" ++
                str_nat (PlotNumber R)) ++ "...").
Proof.
  induction sigs as [|sig sigs IH]; intros d bar Hmode Hbar Hle; cbv zeta.
  - simpl. rewrite Hbar, Nat.add_0_r. by destruct bar.
  - cbn [deliver_all fold_left].
    destruct sig as [m| |b|b dir].
    + destruct (IH (Dialogs.deliver d (progressUpdate m)) bar Hmode Hbar Hle)
        as [H1 H2].
      unfold deliver_all in *. by rewrite H1, H2.
    + change (count_multi (multiProgress :: sigs)) with (S (count_multi sigs))
        in *.
      assert (Hd : Dialogs.deliver d multiProgress =
                   Dialogs.updateMultiProgress d) by done.
      set (bar' := Dialogs.setValue (Dialogs.value bar + 1) bar).
      assert (Hbar' : bar' = {| Dialogs.maximum := Dialogs.maximum bar;
                                Dialogs.value := Dialogs.value bar + 1 |}).
      { unfold bar', Dialogs.setValue.
        rewrite (proj2 (Nat.leb_le _ _)) by lia. done. }
      destruct (IH (Dialogs.updateMultiProgress d) bar') as [H1 H2].
      * unfold Dialogs.updateMultiProgress. by rewrite Hmode, Hbar.
      * unfold Dialogs.updateMultiProgress. by rewrite Hmode, Hbar.
      * rewrite Hbar'. simpl. lia.
      * unfold deliver_all in *. rewrite Hd, H1, H2, Hbar'. simpl.
        split; [do 2 f_equal; lia|].
        destruct (count_multi sigs =? 0)%nat eqn:H0.
        -- apply Nat.eqb_eq in H0. rewrite H0.
           unfold Dialogs.updateMultiProgress. rewrite Hmode, Hbar. simpl.
           repeat (f_equal; try lia).
        -- repeat (f_equal; try lia).
    + destruct (IH (Dialogs.deliver d (finished b)) bar Hmode Hbar Hle)
        as [H1 H2].
      unfold deliver_all in *. by rewrite H1, H2.
    + destruct (IH (Dialogs.deliver d (finished_dir b dir)) bar Hmode Hbar Hle)
        as [H1 H2].
      unfold deliver_all in *. by rewrite H1, H2.
Qed.

(** X8. From the plot-all dialog to the progress dialog: for a stride of
    at least 1 the dialog announces [ceil(length/value)] plots, and a
    series run that is neither cancelled nor failing makes exactly that
    many and emits one [multiProgress] for each.  The second progress
    bar therefore ends full, while its label, which names the plot after
    the one just finished, ends one beyond the number of plots. *)
Theorem series_run_fills_multi_bar
    (env : Env) (P : Params) (profileAdditions series_length v : nat)
    (movie : bool) (folder : option string) (s : State) :
  cancelAt env = None ->
  (forall pc, fails env pc = None) ->
  _isRunning (self s) = true ->
  v <> 0 -> series_length <> 0 ->
  match Dialogs.getOnlyEveryInput v
          (Dialogs.getMovieInput movie
             (Dialogs.PlotAllDialog_init series_length)) with
  | None => False
  | Some dialog =>
      match movie_request (Dialogs.applyPressed dialog) folder with
      | None => movie = true /\ folder = None
      | Some R =>
          PlotNumber R = List.length (selected R) /\
          exists s',
            exec env 0 (evaluateMultiple P R (Some progressWorker)) s
              = Done s' /\
            history (gui s') =
              (history (gui s) ++ map (plot_of P) (selected R))%list /\
            signals s' =
              (signals s ++ emitted (evaluateMultiple P R (Some progressWorker)))%list /\
            let sigs := emitted (evaluateMultiple P R (Some progressWorker)) in
            let d' :=
              deliver_all sigs
                (Dialogs.ProgressDialog_init P profileAdditions
                   (Dialogs.PlotAll R)) in
            count_multi sigs = PlotNumber R /\
            Dialogs.multipleProgressBar d' =
              Some {| Dialogs.maximum := PlotNumber R;
                      Dialogs.value := PlotNumber R |} /\
            Dialogs.multiInfoLabel d' =
              Some ("Currently working on plot " ++
                    (str_nat (PlotNumber R + 1) ++ "/" ++
                     str_nat (PlotNumber R)) ++ "...")
      end
  end.
Proof.
  intros Hc Hf Hrun Hv Hlen.
  unfold Dialogs.getOnlyEveryInput.
  rewrite (proj2 (Nat.eqb_neq _ _) Hv).
  unfold movie_request, Dialogs.applyPressed, Dialogs.getMovieInput,
    Dialogs.PlotAllDialog_init.
  cbn [Dialogs.length Dialogs.plotNumber Dialogs.onlyEvery Dialogs.makeMovie
       MakeMovie OnlyEvery Length PlotNumber Directory].
  assert (Hgoal : forall directory,
    let R := {| OnlyEvery := v; Length := series_length; MakeMovie := movie;
                PlotNumber := Dialogs.ceil_div series_length v;
                Directory := directory |} in
    PlotNumber R = List.length (selected R) /\
    exists s',
      exec env 0 (evaluateMultiple P R (Some progressWorker)) s = Done s' /\
      history (gui s') =
        (history (gui s) ++ map (plot_of P) (selected R))%list /\
      signals s' =
        (signals s ++ emitted (evaluateMultiple P R (Some progressWorker)))%list /\
      let sigs := emitted (evaluateMultiple P R (Some progressWorker)) in
      let d' :=
        deliver_all sigs
          (Dialogs.ProgressDialog_init P profileAdditions (Dialogs.PlotAll R)) in
      count_multi sigs = PlotNumber R /\
      Dialogs.multipleProgressBar d' =
        Some {| Dialogs.maximum := PlotNumber R;
                Dialogs.value := PlotNumber R |} /\
      Dialogs.multiInfoLabel d' =
        Some ("Currently working on plot " ++
              (str_nat (PlotNumber R + 1) ++ "/" ++ str_nat (PlotNumber R))
              ++ "...")).
  { intros directory R.
    assert (Hk : OnlyEvery R <> 0) by done.
    assert (Hnum : PlotNumber R = List.length (selected R)).
    { by rewrite length_selected. }
    split; [exact Hnum|].
    assert (Hnt : no_throw (evaluateMultiple P R (Some progressWorker)) = true).
    { unfold evaluateMultiple. rewrite !no_throw_app, no_throw_loop by done.
      cbn [Length R]. by destruct series_length. }
    destruct (exec_emitted env Hc Hf _ 0 s Hnt Hrun) as (s' & Hex & Hsig & Hg & _).
    exists s'. split; [exact Hex|]. split.
    { rewrite Hg. unfold evaluateMultiple. rewrite !gui_run_app.
      cbn [gui_run fold_left gui_step].
      set (g0 := set_oldGridUnit _ _).
      destruct (evaluateMultiple_loop_gui P R (Some progressWorker) Hk
                  (Length R) 0 g0) as (Hh & _).
      set (g1 := gui_run _ g0) in *.
      match goal with
      | |- history (gui_step ?g ?a) = _ =>
          assert (history (gui_step g a) = history g) as ->
            by (by destruct (Length R))
      end.
      exact Hh. }
    split; [exact Hsig|]. cbv zeta.
    assert (Hcount : count_multi
                       (emitted (evaluateMultiple P R (Some progressWorker)))
                     = PlotNumber R).
    { unfold evaluateMultiple.
      rewrite !emitted_app, !count_multi_app, count_multi_loop by done.
      fold (selected R). rewrite <- Hnum. cbn [Length R].
      match goal with
      | |- ?a + (_ + ?b) = _ =>
          assert (a = 0) as -> by reflexivity;
          assert (b = 0) as -> by (by destruct series_length)
      end.
      lia. }
    split; [exact Hcount|].
    destruct (deliver_multi R
                (emitted (evaluateMultiple P R (Some progressWorker)))
                (Dialogs.ProgressDialog_init P profileAdditions (Dialogs.PlotAll R))
                {| Dialogs.maximum := PlotNumber R; Dialogs.value := 0 |})
      as [H1 H2];
      [done|done|cbn [Dialogs.value Dialogs.maximum]; rewrite Hcount; lia|].
    rewrite H1, H2, Hcount. simpl Dialogs.value. simpl Dialogs.maximum.
    split; [done|].
    assert (PlotNumber R <> 0) as Hpos.
    { rewrite Hnum. unfold selected. cbn [Length R].
      destruct series_length as [|n]; [done|].
      rewrite selected_from_S. rewrite Nat.Div0.mod_0_l. done. }
    rewrite (proj2 (Nat.eqb_neq _ _) Hpos). done. }
  destruct movie.
  - destruct folder as [directory|]; [apply Hgoal|done].
  - apply Hgoal.
Qed.

Lemma series_run_witness :
  match Dialogs.getOnlyEveryInput 2
          (Dialogs.getMovieInput true (Dialogs.PlotAllDialog_init 5)) with
  | None => False
  | Some dialog =>
      match movie_request (Dialogs.applyPressed dialog)
              (Some "/home/user/movie") with
      | None => False
      | Some R =>
          PlotNumber R = 3 /\ selected R = [0; 2; 4] /\
          count_multi (emitted (evaluateMultiple (demo_params Slice) R
                                  (Some progressWorker))) = 3
      end
  end.
Proof.
  pose proof (series_run_fills_multi_bar calm (demo_params Slice) 0 5 2 true
                (Some "/home/user/movie") demo_state) as H.
  cbv beta iota delta [Dialogs.getOnlyEveryInput Dialogs.getMovieInput
       Dialogs.PlotAllDialog_init Dialogs.applyPressed movie_request
       Nat.eqb Dialogs.length Dialogs.plotNumber Dialogs.onlyEvery
       Dialogs.makeMovie MakeMovie] in H |- *.
  destruct H as (Hn & s' & _ & _ & _ & Hc & _).
  - reflexivity.
  - intros pc. reflexivity.
  - reflexivity.
  - discriminate.
  - discriminate.
  - split; [reflexivity|]. split; [reflexivity|]. exact Hc.
Defined.

(** Once [_isRunning] is False it stays so. *)
Lemma exec_stays_stopped env p : forall pc s,
  _isRunning (self s) = false ->
  _isRunning (self (state_of (exec env pc p s))) = false.
Proof.
  induction p as [|a p IH]; intros pc s Hs; simpl; [done|].
  set (s1 := if cancels env pc then stopProcess s else s).
  assert (H1 : _isRunning (self s1) = false).
  { unfold s1. by destruct (cancels env pc). }
  destruct (step_signals env pc a s1) as (n1 & _ & _ & Hr).
  destruct (step env pc a s1) as [s2|e k s2]; simpl in *; auto.
Qed.

(** A run that returns although a cancel request arrived leaves the worker
    stopped. *)
Lemma exec_cancelled_done env t p : forall pc s s',
  cancelAt env = Some t -> pc <= t < pc + List.length p ->
  exec env pc p s = Done s' -> _isRunning (self s') = false.
Proof.
  induction p as [|a p IH]; intros pc s s' Ht Hpc Hex; simpl in *; [lia|].
  destruct (decide (t = pc)) as [->|Hne].
  - assert (cancels env pc = true) as Hcan.
    { unfold cancels. rewrite Ht. by apply bool_decide_eq_true. }
    rewrite Hcan in Hex.
    destruct (step_signals env pc a (stopProcess s)) as (n1 & _ & _ & Hr).
    destruct (step env pc a (stopProcess s)) as [s2|e k s2]; [|done].
    simpl in Hr.
    pose proof (exec_stays_stopped env p (S pc) s2 (Hr eq_refl)) as H.
    by rewrite Hex in H.
  - assert (cancels env pc = false) as Hcan.
    { unfold cancels. rewrite Ht. apply bool_decide_eq_false.
      intros [=]. congruence. }
    rewrite Hcan in Hex.
    destruct (step env pc a s) as [s2|e k s2]; [|done].
    eapply (IH (S pc)); [done| |done]. lia.
Qed.

(** The success flag the worker reports with its last signal. *)
Definition reported (s : State) : option bool :=
  match last (signals s) with
  | Some (finished success) | Some (finished_dir success _) => Some success
  | _ => None
  end.

Lemma handle_raised env p pc s e k s' :
  exec env pc p s = Raised e k s' ->
  _isRunning (self (handle (Raised e k s'))) = false.
Proof.
  destruct e as [m|name text]; [|done]. simpl.
  apply raised_WorkingException_stopped.
Qed.

Lemma reported_emit s sig :
  reported (emit sig s) =
    match sig with
    | finished success | finished_dir success _ => Some success
    | _ => None
    end.
Proof. unfold reported, emit. simpl. by rewrite last_snoc. Qed.

(** X9. A worker reports success only for an evaluation that returned and
    during which no cancel request arrived.  If the user asked to cancel,
    or anything was raised, [finished] carries False and the main window
    logs no success and does not show the line-plot button, even when the
    request came so late that every plot had been made. *)
Theorem cancelled_run_reports_failure
    (env : Env) (P : Params) (R : Request) (cart aligned : bool) (s : State) :
  let single := exec env 0 (evaluateSingle P (Some progressWorker)) s in
  let series := exec env 0 (evaluateMultiple P R (Some progressWorker)) s in
  let s1 := state_of (PlotSingleWorker_plot env P s) in
  let s2 := state_of (PlotMultipleWorker_plot env P R s) in
  ((exists t, cancelAt env = Some t /\
              t < List.length (evaluateSingle P (Some progressWorker)))
   \/ ending single <> None ->
   reported s1 = Some false /\
   Dialogs.feedback P cart aligned s1 = ([], false)) /\
  ((exists t, cancelAt env = Some t /\
              t < List.length (evaluateMultiple P R (Some progressWorker)))
   \/ ending series <> None ->
   reported s2 = Some false /\
   Dialogs.feedback P cart aligned s2 = ([], false)) /\
  (reported s1 = Some true ->
   ending single = None /\
   fst (Dialogs.feedback P cart aligned s1) =
     [(log 29, mode_name (PlotMode P) ++ " plot successful.")]).
Proof.
  intros single series s1 s2.
  assert (Hflag : forall p (fin : bool -> Signal),
            (exists t, cancelAt env = Some t /\ t < List.length p)
            \/ ending (exec env 0 p s) <> None ->
            _isRunning (self (handle (exec env 0 p s))) = false).
  { intros p fin [(t & Ht & Hlt)|Hend].
    - destruct (exec env 0 p s) as [s'|e k s'] eqn:Hex.
      + simpl. eapply exec_cancelled_done; [exact Ht| |exact Hex]. lia.
      + by eapply handle_raised.
    - destruct (exec env 0 p s) as [s'|e k s'] eqn:Hex; [done|].
      by eapply handle_raised. }
  assert (Hlast : forall sig s0, last (signals (emit sig s0)) = Some sig).
  { intros sig s0. unfold emit. simpl. by rewrite last_snoc. }
  subst single series s1 s2.
  unfold PlotSingleWorker_plot, PlotMultipleWorker_plot, Dialogs.feedback.
  cbn [state_of]. rewrite !reported_emit, !Hlast.
  split; [|split].
  - intros H.
    apply (Hflag (evaluateSingle P (Some progressWorker)) finished) in H.
    by rewrite H.
  - intros H.
    apply (Hflag (evaluateMultiple P R (Some progressWorker)) finished) in H.
    by rewrite H.
  - intros Hrep.
    assert (Hrun : _isRunning (self (handle
                     (exec env 0 (evaluateSingle P (Some progressWorker)) s)))
                   = true) by congruence.
    rewrite Hrun. split; [|done].
    destruct (exec env 0 (evaluateSingle P (Some progressWorker)) s)
      as [s'|e k s'] eqn:Hex; [done|].
    apply handle_raised in Hex. congruence.
Qed.

(** A complete series of three plots whose last statement, the update of
    the slider, is reached after a cancel request: all plots are made, and
    the worker reports failure. *)
Definition late_cancel : Env :=
  cancel_before
    (Nat.pred (List.length (evaluateMultiple (demo_params Slice) demo_request
                              (Some progressWorker)))).

Lemma cancelled_run_witness :
  ending (exec late_cancel 0
            (evaluateMultiple (demo_params Slice) demo_request
               (Some progressWorker)) demo_state) = None /\
  List.length (history (gui (state_of
     (PlotMultipleWorker_plot late_cancel (demo_params Slice) demo_request
        demo_state)))) = 3 /\
  reported (state_of (PlotMultipleWorker_plot late_cancel (demo_params Slice)
                        demo_request demo_state)) = Some false /\
  Dialogs.feedback (demo_params Slice) true true
    (state_of (PlotMultipleWorker_plot late_cancel (demo_params Slice)
                 demo_request demo_state)) = ([], false).
Proof.
  split; [vm_compute; reflexivity|].
  split; [vm_compute; reflexivity|].
  apply (cancelled_run_reports_failure late_cancel (demo_params Slice)
           demo_request true true demo_state).
  left. eexists. split; [reflexivity|]. vm_compute. lia.
Defined.

End SeriesDialogFacts.

(* ===================================================================== *)
(** ** More on the loaders and the configuration *)
(* ===================================================================== *)

Section LoaderPaths.
Import PyStr Loader.

(** [rsplit('/', 1)] splits at the last slash. *)
Lemma rsplit1_Some sep : forall s a b,
  rsplit1 sep s = Some (a, b) ->
  s = a ++ String sep b /\ contains (String sep "") b = false.
Proof.
  induction s as [|c s IH]; intros a b; simpl; [done|].
  destruct (rsplit1 sep s) as [[a' b']|] eqn:Hs.
  - intros [= <- <-]. destruct (IH a' b' eq_refl) as [-> Hb].
    by rewrite str_app_cons.
  - case_bool_decide as Hc; [|done]. intros [= <- <-]. subst c.
    split; [done|]. clear IH.
    induction s as [|x s IHs]; [done|]. simpl in Hs |- *.
    destruct (rsplit1 sep s) as [[??]|]; [done|].
    case_bool_decide as Hx; [done|].
    rewrite bool_decide_eq_false_2 by congruence. simpl. by apply IHs.
Qed.

Lemma rsplit1_None sep : forall s,
  rsplit1 sep s = None <-> contains (String sep "") s = false.
Proof.
  induction s as [|c s IH]; simpl; [done|].
  destruct (rsplit1 sep s) as [[a b]|].
  - split; [done|]. intros [_ H]%orb_false_iff. apply IH in H. done.
  - destruct IH as [IH _]. rewrite (IH eq_refl), orb_false_r, andb_true_r.
    case_bool_decide as Hc.
    + rewrite bool_decide_eq_true_2 by done. done.
    + rewrite bool_decide_eq_false_2 by congruence. done.
Qed.

(** X10. [loadFile] splits the path at its last slash: the directory it
    stores and shows, followed by a slash and the shown file name, is the
    path again, and the file name holds no slash.  It returns what
    [yt.load] loaded from the full path.  A path without a slash raises
    (the unpacking of the split fails) before anything is assigned. *)
Theorem loadFile_splits_path (env : Env) (filename : string) (w : Window) :
  (forall ds w',
     loadFile env filename w = Returned ds w' ->
     ds = filename /\ yt_load env filename = None /\
     exists name,
       filename = Directory w' ++ "/" ++ name /\
       contains "/" name = false /\
       Status_Dir w' = Directory w' /\
       Status_File w' = "File: " ++ name /\
       logged w' =
         (logged w ++ [(info, ("Loading file '" ++ name ++ "'...")%string)])%list) /\
  (contains "/" filename = false ->
   exists text, loadFile env filename w
                = Propagated (OtherLoadError "ValueError" text) w) /\
  (contains "/" filename = true ->
   forall e w', loadFile env filename w = Propagated e w' ->
     yt_load env filename = Some e /\
     exists name, filename = Directory w' ++ "/" ++ name /\
                  contains "/" name = false).
Proof.
  unfold loadFile. split; [|split].
  - intros ds w'.
    destruct (rsplit1 "/" filename) as [[d n]|] eqn:Hs; [|done].
    apply rsplit1_Some in Hs as [Hf Hn].
    destruct (yt_load env filename); [done|].
    intros [= <- <-]. split; [done|]. split; [done|].
    exists n. by rewrite Hf at 1.
  - intros H. apply rsplit1_None in H. rewrite H. eauto.
  - intros H e w'.
    destruct (rsplit1 "/" filename) as [[d n]|] eqn:Hs.
    + apply rsplit1_Some in Hs as [Hf Hn].
      destruct (yt_load env filename); [|done].
      intros [= <- <-]. split; [done|]. exists n. by rewrite Hf at 1.
    + apply rsplit1_None in Hs. congruence.
Qed.

Lemma loadFile_witness :
  exists name,
    "/data/run/plt_0001" = "/data/run" ++ "/" ++ name /\
    contains "/" name = false.
Proof.
  destruct (proj1 (loadFile_splits_path demo_loader "/data/run/plt_0001"
                     demo_window) "/data/run/plt_0001"
              (GUILogger info "Loading file 'plt_0001'..."
                 (set_dir "/data/run" "File: plt_0001" demo_window)))
    as (_ & _ & name & Hname & Hslash & _).
  - reflexivity.
  - exists name. split; [exact Hname|exact Hslash].
Defined.

Lemma rejected_files_keep_dataset bad : forall w,
  let w' := fold_left reject_file bad w in
  SingleDataSet w' = SingleDataSet w /\ CurrentDataSet w' = CurrentDataSet w /\
  isValidFile w' = isValidFile w /\ isValidSeries w' = isValidSeries w /\
  Filename w' = Filename w /\ Seriesname w' = Seriesname w /\
  Status_Series w' = Status_Series w.
Proof.
  induction bad as [|f bad IH]; intros w; simpl; [done|].
  destruct (IH (reject_file w f)) as (H1 & H2 & H3 & H4 & H5 & H6 & H7).
  rewrite H1, H2, H3, H4, H5, H6, H7. unfold reject_file.
  by destruct (rsplit1 "/" f) as [[d n]|].
Qed.

(** X11. File names that [yt.load] rejects, followed by a cancelled
    dialog, leave the loaded dataset, the file and series names and the
    validity flags as they were; but the working directory and the status
    labels are those of the last rejected file, because [loadFile] assigns
    them before it calls [yt.load]. *)
Theorem rejected_file_moves_directory
    (env : Env) (bad : list string) (f d n : string) (rest : list string)
    (w : Window) :
  Forall (unrecognised env) bad ->
  unrecognised env f ->
  rsplit1 "/" f = Some (d, n) ->
  exists w',
    testValidFile env (bad ++ f :: "" :: rest)%list w = Returned tt w' /\
    Directory w' = d /\ Status_Dir w' = d /\ Status_File w' = "File: " ++ n /\
    SingleDataSet w' = SingleDataSet w /\
    CurrentDataSet w' = CurrentDataSet w /\
    isValidFile w' = isValidFile w /\ isValidSeries w' = isValidSeries w /\
    Filename w' = Filename w /\ Seriesname w' = Seriesname w /\
    alerts w' = (alerts w ++ replicate (S (List.length bad)) file_alert)%list.
Proof.
  intros Hbad Hf Hsplit.
  assert (Hall : Forall (unrecognised env) (bad ++ [f])%list).
  { apply Forall_app. split; [done|]. by apply Forall_singleton. }
  replace (bad ++ f :: "" :: rest)%list with ((bad ++ [f]) ++ "" :: rest)%list
    by (by rewrite <- app_assoc).
  rewrite testValidFile_retry by done. simpl.
  eexists. split; [reflexivity|].
  rewrite fold_left_app.
  destruct (rejected_files_keep_dataset bad w) as (H1 & H2 & H3 & H4 & H5 & H6 & _).
  pose proof (rejected_files_alerts env bad w Hbad) as Ha.
  set (w1 := fold_left reject_file bad w) in *.
  cbn [fold_left]. unfold reject_file. rewrite Hsplit. simpl.
  rewrite H1, H2, H3, H4, H5, H6, Ha.
  repeat split; try done.
  rewrite <- app_assoc. f_equal.
  change (file_alert :: replicate (List.length bad) file_alert)
    with (replicate (S (List.length bad)) file_alert).
  by rewrite replicate_S_end.
Qed.

Lemma rejected_file_witness :
  exists w',
    testValidFile demo_loader ["/data/notes.txt"; "/tmp/more_notes"; ""]
      demo_window = Returned tt w' /\
    Directory w' = "/tmp" /\ isValidFile w' = false.
Proof.
  destruct (rejected_file_moves_directory demo_loader ["/data/notes.txt"]
              "/tmp/more_notes" "/tmp" "more_notes" [] demo_window)
    as (w' & Hrun & Hdir & _ & _ & _ & _ & Hvalid & _).
  - repeat constructor; try (vm_compute; discriminate);
      try (vm_compute; eexists; reflexivity).
  - repeat split; try (vm_compute; discriminate);
      try (vm_compute; eexists; reflexivity).
  - reflexivity.
  - exists w'. split; [exact Hrun|]. split; [exact Hdir|exact Hvalid].
Defined.

End LoaderPaths.

Section ConfigRoundTrip.
Import PyStr ConfigureGUI.

Lemma contains_percent_cons (c : ascii) (s : string) :
  contains "%" (String c s) = bool_decide ("%"%char = c) || contains "%" s.
Proof. simpl. by rewrite andb_true_r. Qed.

Lemma partition_percent_None (s : string) :
  contains "%" s = false -> partition "%%" s = None.
Proof.
  induction s as [|c s IH]; [done|].
  rewrite contains_percent_cons. intros [Hc Hs]%orb_false_elim.
  cbn [partition startswith]. rewrite Hc. cbn [andb].
  by rewrite (IH Hs).
Qed.

Lemma replace_percent_plain (s : string) :
  contains "%" s = false -> replace "%%" "" s = s.
Proof.
  intros Hs. unfold replace, split.
  destruct (String.length s); cbn [split_fuel];
    by rewrite ?(partition_percent_None s Hs).
Qed.

Lemma sub_KEYCRE_plain (n : nat) (s : string) :
  contains "%" s = false -> sub_KEYCRE_fuel n s = s.
Proof.
  revert s. induction n as [|n IH]; intros s; [done|].
  destruct s as [|c s]; [done|].
  rewrite contains_percent_cons. intros [Hc Hs]%orb_false_elim.
  cbn [sub_KEYCRE_fuel].
  assert (match_KEYCRE (String c s) = None) as ->.
  { unfold match_KEYCRE. apply bool_decide_eq_false in Hc.
    destruct c as [[] [] [] [] [] [] [] []]; try done. }
  by rewrite (IH s Hs).
Qed.

(** A value without a percent sign passes the check of the interpolation. *)
Lemma before_set_plain (value : string) :
  contains "%" value = false -> before_set value = inr value.
Proof.
  intros Hv. unfold before_set, sub_KEYCRE.
  rewrite (replace_percent_plain value Hv), sub_KEYCRE_plain by done.
  by rewrite Hv.
Qed.

Lemma setitem_Some section option value config options :
  config !! section = Some options ->
  contains "%" value = false ->
  setitem section option value config =
    inr (<[section := <[lower option := value]> options]> config).
Proof.
  intros H Hv. unfold setitem. rewrite H.
  destruct (decide (value = "")); [done|].
  by rewrite (before_set_plain value Hv).
Qed.

(** The decimal digits of a number hold no percent sign. *)
Lemma pretty_N_go_plain (x : N) (s : string) :
  contains "%" s = false -> contains "%" (pretty_N_go x s) = false.
Proof.
  revert s. induction (N.lt_wf_0 x) as [x _ IH]; intros s Hs.
  destruct (decide (x = 0)%N) as [->|Hx]; [by rewrite pretty_N_go_0|].
  rewrite pretty_N_go_step by lia.
  apply IH.
  - apply N.div_lt; lia.
  - rewrite contains_percent_cons, Hs, orb_false_r.
    apply bool_decide_eq_false.
    unfold pretty_N_char. by repeat case_match.
Qed.

Lemma str_nat_plain (n : nat) : contains "%" (str_nat n) = false.
Proof.
  unfold str_nat, pretty, pretty_nat, pretty, pretty_N.
  destruct (decide (N.of_nat n = 0)%N); [done|].
  by apply pretty_N_go_plain.
Qed.

(** None of the connected keys holds an underscore. *)
Lemma connected_split key :
  key ∈ connected -> split "_" ("CheckBoxes_" ++ key) = ["CheckBoxes"; key].
Proof.
  unfold connected. rewrite !elem_of_cons, elem_of_nil.
  intros H. repeat (destruct H as [->|H]; [vm_compute; reflexivity|]). done.
Qed.

(** X12. The write-then-read round trip holds for the fourteen check
    boxes whose signal is connected, when the home directory holds no
    percent sign (with one, the first assignment of [saveSettings] can
    raise [ValueError]) and no stored check box option holds one: after
    such a box is set to [state] in a dialog with no other change and the
    settings are saved, the option of that key holds 'yes' or 'no',
    [getboolean] gives back [state], and the options of the other check
    boxes are as before. *)
Theorem connected_checkbox_round_trip
    (key : string) (state : bool) (d : ConfigDialog)
    (config : gmap string (gmap string string))
    (path logging boxes : gmap string string) :
  key ∈ connected ->
  Config_Dict d = [] ->
  contains "%" (homeDir d) = false ->
  config !! "Path" = Some path ->
  config !! "Logging" = Some logging ->
  config !! "CheckBoxes" = Some boxes ->
  (forall option v, boxes !! option = Some v -> contains "%" v = false) ->
  exists config',
    saveSettings (toggled key state d) config = inr config' /\
    config' !! "CheckBoxes"
      = Some (<[lower key := if state then "yes" else "no"]> boxes) /\
    getboolean "CheckBoxes" key config' = inr state /\
    (forall other, lower other <> lower key ->
       getboolean "CheckBoxes" other config'
         = getboolean "CheckBoxes" other config).
Proof.
  intros Hkey Hd Hhome Hpath Hlog Hbox _.
  unfold toggled. rewrite bool_decide_eq_true_2 by done.
  unfold saveSettings, getStateInput. cbn [homeDir ytInput GUIInput blockCount
    Config_Dict CheckBox_Dict]. rewrite Hd. cbn [dict_set].
  rewrite (setitem_Some _ _ _ _ path) by done.
  rewrite (setitem_Some "Logging" _ _ _ logging)
    by (by rewrite ?lookup_insert_ne; try apply str_nat_plain).
  erewrite (setitem_Some "Logging")
    by (by rewrite ?lookup_insert_eq; try apply str_nat_plain).
  erewrite (setitem_Some "Logging")
    by (by rewrite ?lookup_insert_eq; try apply str_nat_plain).
  cbn [save_entries]. rewrite connected_split by done.
  erewrite (setitem_Some "CheckBoxes")
    by (by rewrite ?lookup_insert_ne by done; try (by destruct state)).
  eexists. split; [reflexivity|].
  split; [by rewrite lookup_insert_eq|].
  split.
  - unfold getboolean, optionxform. rewrite lookup_insert_eq, lookup_insert_eq.
    by destruct state.
  - intros other Hne. unfold getboolean, optionxform.
    rewrite lookup_insert_eq, Hbox. by rewrite lookup_insert_ne.
Qed.

Lemma connected_checkbox_witness :
  exists config',
    saveSettings (toggled "Grid" true fresh_dialog) particles_off
      = inr config' /\
    getboolean "CheckBoxes" "Grid" config' = inr true.
Proof.
  destruct (connected_checkbox_round_trip "Grid" true fresh_dialog
              particles_off
              {[ "homedir" := "/home/user" ]}
              {[ "yt" := "30"; "gui" := "20"; "maxblocks" := "500" ]}
              {[ "timestamp" := "yes"; "particleanno" := "no" ]})
    as (config' & Hsave & _ & Hget & _).
  - unfold connected. rewrite !elem_of_cons. tauto.
  - reflexivity.
  - reflexivity.
  - reflexivity.
  - reflexivity.
  - reflexivity.
  - intros option v Hv.
    apply lookup_insert_Some in Hv as [[_ <-]|[_ Hv]]; [reflexivity|].
    apply lookup_singleton_Some in Hv as [_ <-]. reflexivity.
  - exists config'. split; [exact Hsave|exact Hget].
Defined.

(** With a percent sign in the home directory nothing is saved:
    [config["Path"]["homedir"] = self.homeDir] raises [ValueError]. *)
Lemma saveSettings_percent_in_homeDir :
  saveSettings
    {| CheckBox_Dict := []; Config_Dict := []; homeDir := "/home/100%";
       ytInput := 30; GUIInput := 20; blockCount := 500 |} particles_off
  = inl (InvalidInterpolation "/home/100%" 9).
Proof. vm_compute. reflexivity. Qed.

End ConfigRoundTrip.

(* ===================================================================== *)
(** ** More on the pure helpers and on the series evaluation *)
(* ===================================================================== *)

Section ShuffleCycle.
Import Utils.

(** X13. [shuffleCoords] with the normal axis 'y' is a rotation of order
    three: applied three times it gives the parameter store back, logging
    nothing; and with the normal axis 'x' it does in one step what two
    steps with 'y' do. *)
Theorem shuffleCoords_cycle (d : gmap string value) xs ys zs xe ye ze :
  d !! "XLStart" = Some xs -> d !! "YLStart" = Some ys ->
  d !! "ZLStart" = Some zs ->
  d !! "XLEnd" = Some xe -> d !! "YLEnd" = Some ye ->
  d !! "ZLEnd" = Some ze ->
  d !! "NAxis" = Some (VStr "y") ->
  exists d1 d2,
    shuffleCoords d = Some (d1, []) /\
    shuffleCoords d1 = Some (d2, []) /\
    shuffleCoords d2 = Some (d, []) /\
    shuffleCoords (<["NAxis" := VStr "x"]> d)
      = Some (<["NAxis" := VStr "x"]> d2, []).
Proof.
  intros H1 H2 H3 H4 H5 H6 H7.
  eexists _, _.
  split; [|split; [|split]].
  - rewrite (shuffleCoords_eval d xs ys zs xe ye ze (VStr "y")) by done.
    reflexivity.
  - rewrite (shuffleCoords_eval _ ys zs xs ye ze xe (VStr "y"))
      by (by simplify_map_eq).
    reflexivity.
  - rewrite (shuffleCoords_eval _ zs xs ys ze xe ye (VStr "y"))
      by (by simplify_map_eq).
    cbn. f_equal. f_equal.
    apply map_eq. intros key.
    repeat match goal with
    | |- context [<[?k := _]> _ !! key] =>
        destruct (decide (k = key)) as [<-|?];
        [by simplify_map_eq|rewrite (lookup_insert_ne _ k key) by done]
    end.
    done.
  - rewrite (shuffleCoords_eval _ xs ys zs xe ye ze (VStr "x"))
      by (by simplify_map_eq).
    cbn. f_equal. f_equal.
    apply map_eq. intros key.
    repeat match goal with
    | |- context [<[?k := _]> _ !! key] =>
        destruct (decide (k = key)) as [<-|?];
        [by simplify_map_eq|rewrite (lookup_insert_ne _ k key) by done]
    end.
    done.
Qed.

Definition demo_line_y : gmap string value := <["NAxis" := VStr "y"]> demo_line.

Lemma shuffleCoords_cycle_witness :
  exists d1 d2,
    shuffleCoords demo_line_y = Some (d1, []) /\
    shuffleCoords d1 = Some (d2, []) /\
    shuffleCoords d2 = Some (demo_line_y, []).
Proof.
  destruct (shuffleCoords_cycle demo_line_y
              (VNum (Qc_of_Z 1)) (VNum (Qc_of_Z 2)) (VNum (Qc_of_Z 3))
              (VNum (Qc_of_Z 4)) (VNum (Qc_of_Z 5)) (VNum (Qc_of_Z 6)))
    as (d1 & d2 & Ha & Hb & Hc & _); try reflexivity.
  exists d1, d2. split; [exact Ha|]. split; [exact Hb|exact Hc].
Defined.

End ShuffleCycle.

Section PlainScripts.
Import PyStr ScriptWriter.

Lemma lstrip_suffix s : exists a, s = a ++ lstrip s.
Proof.
  induction s as [|c s [a IH]]; [by exists ""|]. simpl.
  destruct (isspace_char c).
  - exists (String c a). by rewrite str_app_cons, <- IH.
  - by exists "".
Qed.

(** A full-line comment holds a '#'. *)
Lemma comment_line_has_hash l :
  is_comment_line l = true -> contains "#" l = true.
Proof.
  unfold is_comment_line. rewrite startswith_strip.
  destruct (lstrip_suffix l) as [a Ha].
  destruct (lstrip l) as [|c x]; [done|].
  intros <-%bool_decide_eq_true. apply contains_spec.
  exists a, x. by rewrite Ha at 1.
Qed.

(** Every piece of a split is a part of the text. *)
Lemma split_piece_part sep : sep <> "" -> forall s piece,
  piece ∈ split sep s -> exists a b, s = a ++ piece ++ b.
Proof.
  intros Hsep s.
  induction s as [s IH] using (induction_ltof1 _ String.length).
  intros piece. rewrite split_unfold by done.
  destruct (partition sep s) as [[a0 b0]|] eqn:Hp.
  - pose proof (partition_shorter _ _ _ _ Hsep Hp) as Hlt.
    apply partition_Some in Hp. subst s.
    intros [->|Hin]%elem_of_cons.
    + exists "", (sep ++ b0). by rewrite str_app_nil_l.
    + destruct (IH b0 Hlt piece Hin) as (a & b & ->).
      exists (a0 ++ sep ++ a), b. by rewrite !str_app_assoc.
  - intros ->%list_elem_of_singleton. exists "", "".
    by rewrite str_app_nil_l, str_app_nil_r.
Qed.

Lemma contains_part p a s b :
  contains p s = true -> contains p (a ++ s ++ b) = true.
Proof. intros H. by apply contains_app_l, contains_app_r. Qed.

Lemma contains_first_char c m s :
  contains (String c m) s = true -> contains (String c "") s = true.
Proof.
  intros (a & b & ->)%contains_spec. apply contains_spec.
  exists a, (m ++ b). by rewrite !str_app_cons, str_app_nil_l.
Qed.

Lemma contains_char_app c a : forall b,
  contains (String c "") (a ++ b) =
    contains (String c "") a || contains (String c "") b.
Proof.
  induction a as [|x a IH]; intros b.
  - rewrite str_app_nil_l. simpl. by destruct b.
  - rewrite str_app_cons. simpl. rewrite IH, !andb_true_r.
    by rewrite orb_assoc.
Qed.

Lemma filter_all {A} (f : A -> bool) (l : list A) :
  Forall (fun x => f x = true) l -> List.filter f l = l.
Proof.
  induction 1 as [|x l Hx _ IH]; simpl; [done|]. by rewrite Hx, IH.
Qed.

Lemma join_lines l :
  l <> [] -> join "" (map (fun x => x ++ nl) l) = join nl l ++ nl.
Proof.
  induction l as [|x [|y l] IH]; intros Hne; [done|done|].
  change (join "" (map (fun x => x ++ nl) (x :: y :: l)))
    with ((x ++ nl) ++ "" ++ join "" (map (fun x => x ++ nl) (y :: l))).
  change (join nl (x :: y :: l)) with (x ++ nl ++ join nl (y :: l)).
  rewrite IH by done. by rewrite str_app_nil_l, !str_app_assoc.
Qed.

(** X15. On a script text that holds no '#', no double quote and no line
    of blanks only, the no-comments option changes nothing but for the
    coding header it puts in front and the newline it puts at the end. *)
Theorem removeComments_plain_text (text : string) :
  contains "#" text = false ->
  contains dq text = false ->
  Forall (fun line => isspace line = false) (split nl text) ->
  removeComments text = coding_header ++ nl ++ text ++ nl.
Proof.
  intros Hhash Hdq Hblank.
  assert (Hlines : Forall (fun l => contains "#" l = false) (split nl text)).
  { apply Forall_forall. intros l Hl.
    apply split_piece_part in Hl as (a & b & Ht); [|done].
    destruct (contains "#" l) eqn:Hc; [|done].
    apply (contains_part _ a _ b) in Hc. congruence. }
  assert (Hkeep : List.filter (fun line => negb (is_comment_line line))
                    (split nl text) = split nl text).
  { apply filter_all. eapply Forall_impl; [exact Hlines|].
    intros l Hl. simpl. destruct (is_comment_line l) eqn:Hc; [|done].
    apply comment_line_has_hash in Hc. congruence. }
  assert (Hstrip : map (fun line => strip_inline line ++ nl) (split nl text)
                   = map (fun line => line ++ nl) (split nl text)).
  { apply map_ext_Forall.
    pose proof (conj Hlines Hblank) as H. rewrite <- Forall_and in H.
    eapply Forall_impl; [exact H|]. intros l [Hl Hb]. simpl.
    unfold strip_inline. by rewrite Hl, Hb. }
  assert (Hwhole : join ""
            (map (fun line => strip_inline line ++ nl)
               (coding_header :: split nl text))
          = coding_header ++ nl ++ text ++ nl).
  { rewrite map_cons, Hstrip.
    pose proof (split_nonempty nl text) as Hne.
    assert (Hjoin := join_lines (split nl text) Hne).
    rewrite join_split in Hjoin by done.
    destruct (map (fun line => line ++ nl) (split nl text)) as [|y l] eqn:Hm.
    { by destruct (split nl text). }
    change (join "" (?h :: y :: l)) with (h ++ "" ++ join "" (y :: l)).
    rewrite Hjoin, str_app_nil_l.
    change (strip_inline coding_header) with coding_header.
    by rewrite !str_app_assoc. }
  assert (Hnote : contains note_marker (coding_header ++ nl ++ text ++ nl)
                  = false).
  { destruct (contains note_marker _) eqn:Hc; [|done].
    apply contains_first_char in Hc.
    rewrite !contains_char_app in Hc. fold dq in Hc. rewrite Hdq in Hc.
    done. }
  unfold removeComments. cbv zeta. rewrite Hkeep, Hwhole.
  rewrite split_unfold by done.
  apply partition_None in Hnote. rewrite Hnote. simpl.
  done.
Qed.

Lemma removeComments_witness :
  removeComments ("import yt" ++ nl ++ "ds = yt.load(path)") =
    coding_header ++ nl ++ ("import yt" ++ nl ++ "ds = yt.load(path)") ++ nl.
Proof.
  apply removeComments_plain_text.
  - vm_compute. reflexivity.
  - vm_compute. reflexivity.
  - vm_compute. repeat constructor.
Defined.

End PlainScripts.

Section SeriesEdges.
Import PyStr Threading.

(** X16. A series evaluation with stride 0, or over an empty series, makes
    no plot: after the first progress update it raises (ZeroDivisionError
    in the first round, resp. UnboundLocalError after the empty loop), the
    generic handler prints and logs the exception, and the worker reports
    failure. *)
Theorem series_without_plots
    (env : Env) (P : Params) (R : Request) (s : State) :
  cancelAt env = None ->
  _isRunning (self s) = true ->
  OnlyEvery R = 0 \/ Length R = 0 ->
  exists name text s3,
    exec env 0 (evaluateMultiple P R (Some progressWorker)) s
      = Raised (OtherException name text) 3 s3 /\
    name = (if (Length R =? 0)%nat then "UnboundLocalError"
            else "ZeroDivisionError") /\
    gui s3 = set_oldGridUnit (GridUnit (gui s)) (gui s) /\
    signals s3 =
      (signals s ++
       [progressUpdate ("Creating the initial " ++
                        lower (mode_name (PlotMode P)) ++ " plot")])%list /\
    let s' := state_of (PlotMultipleWorker_plot env P R s) in
    history (gui s') = history (gui s) /\
    saved (gui s') = saved (gui s) /\
    stderr s' = (stderr s ++ [OtherException name text])%list /\
    reported s' = Some false.
Proof.
  intros Hc Hrun Hcase.
  assert (Hcan : forall pc, cancels env pc = false).
  { intros pc. unfold cancels. by rewrite Hc. }
  set (s2 := set_self {| _isRunning := true;
                         oldMessage := "Creating the initial " ++
                                       lower (mode_name (PlotMode P)) ++ " plot" |}
               (emit (progressUpdate ("Creating the initial " ++
                                      lower (mode_name (PlotMode P)) ++ " plot"))
                  (GUILogger debug ("Creating the initial " ++
                                    lower (mode_name (PlotMode P)) ++ " plot")
                     (GUILogger (log 29)
                        ("Producing the requested " ++
                         lower (mode_name (PlotMode P)) ++ " plots...") s)))).
  set (s3 := set_gui (set_oldGridUnit (GridUnit (gui s2)) (gui s2)) s2).
  assert (Hex : exists name text,
            exec env 0 (evaluateMultiple P R (Some progressWorker)) s
              = Raised (OtherException name text) 3 s3 /\
            name = (if (Length R =? 0)%nat then "UnboundLocalError"
                    else "ZeroDivisionError")).
  { unfold evaluateMultiple.
    destruct (Length R) as [|n] eqn:Hlen.
    - do 2 eexists.
      cbn [app evaluateMultiple_loop seq exec step]. rewrite !Hcan.
      cbn [GUILogger emitStatus self]. rewrite Hrun. split; reflexivity.
    - destruct Hcase as [Hk|]; [|done].
      do 2 eexists. cbn [seq evaluateMultiple_loop].
      unfold evaluateMultiple_body at 1. rewrite Hk. cbn [Nat.eqb].
      cbn [app exec step]. rewrite !Hcan.
      cbn [GUILogger emitStatus self]. rewrite Hrun. split; reflexivity. }
  destruct Hex as (name & text & Hex & Hname).
  exists name, text, s3. split; [exact Hex|]. split; [exact Hname|].
  split; [reflexivity|]. split; [reflexivity|].
  unfold PlotMultipleWorker_plot. rewrite Hex.
  cbn [state_of handle]. rewrite reported_emit.
  repeat split; reflexivity.
Qed.

Definition stride_zero : Request :=
  {| OnlyEvery := 0; Length := 5; MakeMovie := false; PlotNumber := 5;
     Directory := "" |}.

Lemma series_without_plots_witness :
  exists name text s3,
    exec calm 0 (evaluateMultiple (demo_params Slice) stride_zero
                   (Some progressWorker)) demo_state
      = Raised (OtherException name text) 3 s3 /\
    name = "ZeroDivisionError".
Proof.
  destruct (series_without_plots calm (demo_params Slice) stride_zero
              demo_state) as (name & text & s3 & Hex & Hname & _).
  - reflexivity.
  - reflexivity.
  - left. reflexivity.
  - exists name, text, s3. split; [exact Hex|exact Hname].
Defined.

End SeriesEdges.

Section MoreDialogFacts.
Import PyStr Threading.

(** X17. The number of plots the plot-all dialog announces for a stride
    between 1 and the length of the series (the range of its spin box)
    lies between 1 and that length; it is the length for stride 1 and 1
    for a stride equal to the length; and that many strides always cover
    the series. *)
Theorem getOnlyEveryInput_plotNumber (series_length v : nat) :
  1 <= v <= series_length ->
  match Dialogs.getOnlyEveryInput v
          (Dialogs.PlotAllDialog_init series_length) with
  | None => False
  | Some d =>
      Dialogs.onlyEvery d = v /\ Dialogs.length d = series_length /\
      1 <= Dialogs.plotNumber d <= series_length /\
      series_length <= Dialogs.plotNumber d * v < series_length + v /\
      (v = 1 -> Dialogs.plotNumber d = series_length) /\
      (v = series_length -> Dialogs.plotNumber d = 1)
  end.
Proof.
  intros [Hv Hlen]. unfold Dialogs.getOnlyEveryInput.
  rewrite (proj2 (Nat.eqb_neq _ _)) by lia.
  cbn [Dialogs.onlyEvery Dialogs.length Dialogs.plotNumber
       Dialogs.PlotAllDialog_init].
  unfold Dialogs.ceil_div.
  pose proof (Nat.div_mod_eq (series_length + v - 1) v) as Hd.
  pose proof (Nat.mod_upper_bound (series_length + v - 1) v) as Hm.
  set (q := (series_length + v - 1) / v) in *.
  set (r := (series_length + v - 1) mod v) in *.
  assert (Hr : r < v) by (apply Hm; lia).
  split; [done|]. split; [done|].
  assert (H1 : 1 <= q) by nia.
  assert (H2 : series_length <= q * v < series_length + v) by nia.
  split; [nia|]. split; [done|]. split; intros ->; nia.
Qed.

Lemma getOnlyEveryInput_witness :
  match Dialogs.getOnlyEveryInput 3 (Dialogs.PlotAllDialog_init 10) with
  | None => False
  | Some d => Dialogs.plotNumber d = 4
  end.
Proof.
  pose proof (getOnlyEveryInput_plotNumber 10 3) as H.
  destruct (Dialogs.getOnlyEveryInput 3 (Dialogs.PlotAllDialog_init 10))
    as [d|] eqn:Hd.
  - destruct H as (_ & _ & _ & H & _); [lia|]. lia.
  - apply H. lia.
Defined.

End MoreDialogFacts.

Section SeriesDialogCancel.
Import PyStr Loader.

(** X18. Cancelling the series-name dialog is not neutral, unlike
    cancelling the file dialog: [loadSeries] has by then stored the chosen
    directory, and [askSeriesName] overwrites the series name with
    'No series selected'; the validity flags and the loaded datasets stay
    as they were.  Cancelling the file dialog of [testValidFile] changes
    nothing but the log. *)
Theorem cancelled_series_dialog_overwrites_name
    (env : Env) (directory name : string) (rest : list (string * bool))
    (more : list string) (w : Window) :
  (exists w',
     loadSeries env directory ((name, false) :: rest) w = Returned None w' /\
     Seriesname w' = "No series selected" /\
     Status_Series w' = "No series selected" /\
     Directory w' = directory /\ Status_Dir w' = directory /\
     isValidFile w' = isValidFile w /\ isValidSeries w' = isValidSeries w /\
     SingleDataSet w' = SingleDataSet w /\
     CurrentDataSet w' = CurrentDataSet w /\
     Filename w' = Filename w /\ alerts w' = alerts w) /\
  (exists w',
     testValidFile env ("" :: more) w = Returned tt w' /\
     Seriesname w' = Seriesname w /\ Directory w' = Directory w /\
     Status_Dir w' = Status_Dir w /\ Status_File w' = Status_File w /\
     Status_Series w' = Status_Series w /\
     isValidFile w' = isValidFile w /\ isValidSeries w' = isValidSeries w /\
     SingleDataSet w' = SingleDataSet w /\
     CurrentDataSet w' = CurrentDataSet w /\
     Filename w' = Filename w /\ alerts w' = alerts w /\
     logged w' = (logged w ++ [(warning, file_warning)])%list).
Proof.
  split; eexists; (split; [reflexivity|]); repeat split.
Qed.

End SeriesDialogCancel.

Section ScriptNames.
Import PyStr ScriptWriter.

(** X19. The suffix is added once: writing under a name without ".py" is
    the same as writing under that name with ".py" appended, and a name
    that ends in ".py" is used as it is. *)
Theorem writePlotToScript_suffix_once
    (Param_Dict : Type)
    (constructCompleteString : Param_Dict -> bool -> string -> string)
    (params : Param_Dict) (filename : string) (noComments plotAll : bool)
    (files : gmap string string) :
  let write := writePlotToScript Param_Dict constructCompleteString params in
  (endswith ".py" filename = false ->
   write filename noComments plotAll files
     = write (filename ++ ".py") noComments plotAll files) /\
  (endswith ".py" filename = true ->
   dom (write filename noComments plotAll files) = {[ filename ]} ∪ dom files) /\
  dom (write filename noComments plotAll files) ⊆
    {[ filename; filename ++ ".py" ]} ∪ dom files.
Proof.
  cbv zeta. unfold writePlotToScript.
  split; [|split].
  - intros H. rewrite H, endswith_app. done.
  - intros H. rewrite H. simpl. by rewrite dom_insert_L.
  - destruct (endswith ".py" filename); simpl; rewrite dom_insert_L;
      apply union_mono_r; [apply union_subseteq_l|apply union_subseteq_r].
Qed.

Lemma writePlotToScript_suffix_witness :
  writePlotToScript unit (fun _ _ name => "# " ++ name) tt "plot" false false ∅
    = writePlotToScript unit (fun _ _ name => "# " ++ name) tt "plot.py"
        false false ∅.
Proof.
  apply (writePlotToScript_suffix_once unit (fun _ _ name => "# " ++ name) tt
           "plot" false false ∅).
  reflexivity.
Defined.

End ScriptNames.

Section ConfigLoading.
Import PyStr ConfigureGUI.

Lemma dict_get_set {V} (k k' : string) (v : V) (d : list (string * V)) :
  dict_get k (dict_set k' v d) =
    if decide (k' = k) then Some v else dict_get k d.
Proof.
  induction d as [|[k0 v0] d IH]; simpl.
  - by destruct (decide (k' = k)).
  - destruct (decide (k0 = k')) as [->|Hne]; simpl.
    + by destruct (decide (k' = k)).
    + destruct (decide (k0 = k)) as [->|Hne2].
      * by rewrite decide_False by congruence.
      * exact IH.
Qed.

(** X20. The loop over the check boxes at the end of [loadConfigOptions]:
    if every stored option of a listed key is one of the boolean words
    (in any case), the loop ends normally; afterwards a box whose option
    exists shows the stored boolean, and a box without an option keeps its
    state.  Keys are matched without regard to case. *)
Theorem loadCheckBoxes_reads_options
    (keys : list string) (config : gmap string (gmap string string))
    (options : gmap string string) (boxes : list (string * bool)) :
  config !! "CheckBoxes" = Some options ->
  (forall key v, key ∈ keys -> options !! lower key = Some v ->
                 is_Some (BOOLEAN_STATES (lower v))) ->
  exists boxes',
    loadCheckBoxes keys config boxes = inr boxes' /\
    (forall key, key ∈ keys ->
       dict_get key boxes' =
         match options !! lower key with
         | Some v => BOOLEAN_STATES (lower v)
         | None => dict_get key boxes
         end) /\
    (forall key, key ∉ keys -> dict_get key boxes' = dict_get key boxes).
Proof.
  intros Hsec. revert boxes.
  induction keys as [|k keys IH]; intros boxes Hbool; simpl.
  - exists boxes. split; [done|]. split; [|done].
    intros key Hkey. by apply elem_of_nil in Hkey.
  - unfold getboolean, optionxform. rewrite Hsec.
    assert (Hrest : forall key v, key ∈ keys ->
              options !! lower key = Some v ->
              is_Some (BOOLEAN_STATES (lower v))).
    { intros key v Hkey. apply Hbool. by right. }
    destruct (options !! lower k) as [v|] eqn:Hk.
    + destruct (Hbool k v) as [b Hb]; [by left|done|]. rewrite Hb.
      destruct (IH (dict_set k b boxes) Hrest) as (boxes' & Hrun & Hin & Hout).
      exists boxes'. split; [exact Hrun|]. split.
      * intros key Hkey.
        destruct (decide (key ∈ keys)) as [Hmem|Hmem].
        -- rewrite (Hin key Hmem).
           destruct (options !! lower key) as [v'|] eqn:Hv; [done|].
           rewrite dict_get_set. destruct (decide (k = key)) as [->|]; [|done].
           congruence.
        -- apply elem_of_cons in Hkey as [->|]; [|done].
           rewrite (Hout k Hmem), dict_get_set, decide_True by done.
           by rewrite Hk.
      * intros key Hkey. apply not_elem_of_cons in Hkey as [Hne Hkey].
        rewrite (Hout key Hkey), dict_get_set. by rewrite decide_False.
    + destruct (IH boxes Hrest) as (boxes' & Hrun & Hin & Hout).
      exists boxes'. split; [exact Hrun|]. split.
      * intros key Hkey.
        destruct (decide (key ∈ keys)) as [Hmem|Hmem]; [by apply Hin|].
        apply elem_of_cons in Hkey as [->|]; [|done].
        by rewrite (Hout k Hmem), Hk.
      * intros key Hkey. apply not_elem_of_cons in Hkey as [Hne Hkey].
        by apply Hout.
Qed.

Definition timestamp_on : gmap string (gmap string string) :=
  {[ "CheckBoxes" := {[ "timestamp" := "Yes" ]} ]}.

Lemma loadCheckBoxes_witness :
  exists boxes',
    loadCheckBoxes ["Timestamp"; "Grid"] timestamp_on [("Grid", true)]
      = inr boxes' /\
    dict_get "Timestamp" boxes' = Some true /\
    dict_get "Grid" boxes' = Some true.
Proof.
  destruct (loadCheckBoxes_reads_options ["Timestamp"; "Grid"] timestamp_on
              {[ "timestamp" := "Yes" ]} [("Grid", true)])
    as (boxes' & Hrun & Hin & _).
  - reflexivity.
  - intros key v Hkey. rewrite !elem_of_cons, elem_of_nil in Hkey.
    destruct Hkey as [->|[->|[]]].
    + intros Hv. vm_compute in Hv. injection Hv as <-. eexists. reflexivity.
    + intros Hv. vm_compute in Hv. discriminate Hv.
  - exists boxes'. split; [exact Hrun|]. split.
    + rewrite Hin by (rewrite !elem_of_cons; tauto). reflexivity.
    + rewrite Hin by (rewrite !elem_of_cons; tauto). reflexivity.
Defined.

End ConfigLoading.

Section AbortedSeries.
Import PyStr Threading.

(** Statements whose effect on the list of installed plots and on the
    current dataset depends on these two alone, and which only add to the
    list. *)
Definition history_step (a : action) : Prop :=
  match a with
  | Call _ f | Assign f =>
      (forall g g',
         history g = history g' -> CurrentDataSet g = CurrentDataSet g' ->
         history (f g) = history (f g') /\
         CurrentDataSet (f g) = CurrentDataSet (f g')) /\
      (forall g, exists l, history (f g) = (history g ++ l)%list)
  | _ => True
  end.

Ltac history_call :=
  split;
  [ let Hh := fresh in let Hd := fresh in
    intros ? ? Hh Hd; unfold draw, build, same, on_window;
    cbn [history CurrentDataSet set_windows set_history set_plot_var
         set_isValidPlot set_oldGridUnit set_CurrentPlotWindow
         set_CurrentDataSet set_saved set_slider];
    rewrite ?Hh, ?Hd; split; reflexivity
  | intros ?; unfold draw, build, same, on_window;
    cbn [history CurrentDataSet set_windows set_history set_plot_var
         set_isValidPlot set_oldGridUnit set_CurrentPlotWindow
         set_CurrentDataSet set_saved set_slider];
    first [ by eexists | exists []; by rewrite app_nil_r ] ].

Ltac history_action :=
  lazymatch goal with
  | |- history_step (Call _ _) => history_call
  | |- history_step (Assign _) => history_call
  | |- history_step _ => exact I
  end.

Ltac history_list :=
  repeat first [ apply List.Forall_nil
               | apply List.Forall_cons; [history_action|] ].

Lemma history_gather w l : Forall history_step (map (gather_action w) l).
Proof.
  induction l as [|[] l IH]; simpl; [constructor| |by constructor..].
  apply List.Forall_cons; [history_action|done].
Qed.

Lemma history_modePlot P w : Forall history_step (modePlot P w).
Proof.
  destruct P as [m d2 dd wf sa ts ap xt mp ga dn dt].
  unfold modePlot; cbn [PlotMode].
  destruct m.
  - unfold SlicePlot, finallyDrawPlot, startPlot, makePlot, prepareFigure,
      copyParamDict.
    cbn [PlotMode DimMode2D]. destruct d2; simpl; history_list.
  - unfold ProjectionPlot, finallyDrawPlot, startPlot, makePlot,
      prepareFigure, copyParamDict.
    cbn [PlotMode DimMode2D DomainDiv]. destruct dd, d2; simpl; history_list.
  - unfold LinePlot, finallyDrawPlot, startPlot, makePlot, prepareFigure,
      copyParamDict.
    cbn [PlotMode DimMode2D Timestamp]. destruct d2, ts; simpl; history_list.
  - unfold PhasePlot, finallyDrawPlot, startPlot, makePlot, prepareFigure,
      copyParamDict.
    cbn [PlotMode DimMode2D Timestamp WeightFieldNone].
    destruct wf, d2, ts; simpl; history_list.
  - unfold ProfilePlot. cbn [PlotMode gather WeightFieldNone XAxisTime].
    apply Forall_app. split; [apply history_gather|].
    unfold makeProfilePlot, prepareFigure, copyParamDict.
    cbn [PlotMode AddProfile Timestamp XAxisTime manyProfiles].
    generalize (wf && negb xt) (ts && negb xt). intros b1 b2.
    destruct b1, ap, b2, mp; simpl; history_list.
Qed.

Lemma history_loop P R w : forall js i,
  Forall history_step (evaluateMultiple_loop P R w i js).
Proof.
  induction js as [|j js IH]; intros i; simpl; [constructor|].
  apply Forall_app. split; [|apply IH].
  unfold evaluateMultiple_body.
  destruct (OnlyEvery R =? 0)%nat; [history_list|].
  destruct (_ =? 0)%nat; [|constructor].
  apply Forall_app. split.
  { unfold getSliderInput.
    destruct (decide (PlotMode P = Profile)); simpl; history_list. }
  apply Forall_app. split; [apply history_modePlot|].
  unfold saveFigure. destruct (MakeMovie R); simpl; history_list.
Qed.

Lemma history_evaluateMultiple P R w :
  Forall history_step (evaluateMultiple P R w).
Proof.
  unfold evaluateMultiple.
  apply Forall_app. split; [history_list|].
  apply Forall_app. split; [apply history_loop|].
  destruct (Length R); history_list.
Qed.

(** Whatever the environment does, the installed plots and the current
    dataset of a run are those of the statements that have run. *)
Lemma exec_history env p : forall pc s g,
  Forall history_step p ->
  history (gui s) = history g -> CurrentDataSet (gui s) = CurrentDataSet g ->
  exists n,
    history (gui (state_of (exec env pc p s)))
      = history (gui_run (take n p) g) /\
    (ending (exec env pc p s) = None -> take n p = p).
Proof.
  induction p as [|a p IH]; intros pc s g Hp Hh Hd; simpl.
  - exists 0. done.
  - inversion Hp as [|?? Ha Hp']; subst.
    set (s1 := if cancels env pc then stopProcess s else s).
    assert (H1 : history (gui s1) = history g /\
                 CurrentDataSet (gui s1) = CurrentDataSet g).
    { unfold s1. by destruct (cancels env pc). }
    destruct H1 as [Hh1 Hd1].
    destruct (step env pc a s1) as [s2|e k s2] eqn:Hstep.
    + assert (H2 : history (gui s2) = history (gui_step g a) /\
                   CurrentDataSet (gui s2) = CurrentDataSet (gui_step g a)).
      { destruct a as [[[]|] x|[[]|] i n|c x|n f|f|n x]; simpl in Hstep;
          try (destruct (_isRunning (self s1)); [|done]);
          try (destruct (fails env pc) as [[??]|]; [done|]);
          try (injection Hstep as <-; simpl; first [done | by apply Ha]);
          done. }
      destruct H2 as [Hh2 Hd2].
      destruct (IH (S pc) s2 (gui_step g a) Hp' Hh2 Hd2) as (n & Hn & Hend).
      exists (S n). split; [exact Hn|]. intros He. simpl. by rewrite Hend.
    + exists 0. apply step_raised in Hstep as [_ ->]. done.
Qed.

Lemma gui_run_history_grows p : forall g,
  Forall history_step p ->
  exists l, history (gui_run p g) = (history g ++ l)%list.
Proof.
  induction p as [|a p IH]; intros g Hp; simpl.
  - exists []. by rewrite app_nil_r.
  - inversion Hp as [|?? Ha Hp']; subst.
    destruct (IH (gui_step g a) Hp') as [l Hl].
    assert (exists l0, history (gui_step g a) = (history g ++ l0)%list)
      as [l0 Hl0].
    { destruct a as [| | |n f|f|]; simpl;
        try (exists []; by rewrite app_nil_r); apply Ha. }
    exists (l0 ++ l)%list. unfold gui_run in *.
    by rewrite Hl, Hl0, <- app_assoc.
Qed.

Lemma evaluateMultiple_history P R w g :
  OnlyEvery R <> 0 ->
  history (gui_run (evaluateMultiple P R w) g)
    = (history g ++ map (plot_of P) (selected R))%list.
Proof.
  intros Hk. unfold evaluateMultiple. rewrite !gui_run_app.
  cbn [gui_run fold_left gui_step].
  set (g0 := set_oldGridUnit _ _).
  destruct (evaluateMultiple_loop_gui P R w Hk (Length R) 0 g0) as (Hh & _).
  set (g1 := gui_run _ g0) in *.
  match goal with
  | |- history (gui_step ?g ?a) = _ =>
      assert (history (gui_step g a) = history g) as ->
        by (by destruct (Length R))
  end.
  exact Hh.
Qed.

(** X21. However a series evaluation ends (to the end, cancelled, or by
    an exception of a library), the plots it has installed are the first
    plots of the selection, in order and without gaps, and after the
    handler of the worker they are still there; a run that returns has
    installed all of them. *)
Theorem aborted_series_keeps_finished_plots
    (env : Env) (P : Params) (R : Request) (s : State) :
  OnlyEvery R <> 0 ->
  let run := exec env 0 (evaluateMultiple P R (Some progressWorker)) s in
  let s' := state_of (PlotMultipleWorker_plot env P R s) in
  exists n,
    history (gui (state_of run))
      = (history (gui s) ++ map (plot_of P) (take n (selected R)))%list /\
    history (gui s') = history (gui (state_of run)) /\
    (ending run = None -> take n (selected R) = selected R).
Proof.
  intros Hk run s'.
  pose proof (history_evaluateMultiple P R (Some progressWorker)) as Hall.
  destruct (exec_history env _ 0 s (gui s) Hall eq_refl eq_refl)
    as (n & Hn & Hend).
  fold run in Hn, Hend.
  set (p := evaluateMultiple P R (Some progressWorker)) in *.
  assert (Hpre : Forall history_step (take n p)) by (by apply Forall_take).
  assert (Hpost : Forall history_step (drop n p)) by (by apply Forall_drop).
  destruct (gui_run_history_grows (take n p) (gui s) Hpre) as [l1 Hl1].
  destruct (gui_run_history_grows (drop n p) (gui_run (take n p) (gui s)) Hpost)
    as [l2 Hl2].
  rewrite <- gui_run_app, take_drop in Hl2.
  unfold p in Hl2 at 1. rewrite evaluateMultiple_history in Hl2 by done.
  rewrite Hl1, <- app_assoc in Hl2. apply app_inv_head in Hl2.
  assert (Hl : l1 = map (plot_of P) (take (List.length l1) (selected R))).
  { rewrite <- firstn_map, Hl2, take_app_length. done. }
  exists (List.length l1). split; [by rewrite Hn, Hl1, <- Hl|]. split.
  - unfold s', PlotMultipleWorker_plot. fold p. fold run.
    by destruct run as [s1|[m|name text] k s1].
  - intros He. rewrite (Hend He) in Hl1.
    unfold p in Hl1. rewrite evaluateMultiple_history in Hl1 by done.
    apply app_inv_head in Hl1. rewrite <- Hl1, length_map.
    by rewrite firstn_all.
Qed.

Lemma aborted_series_witness :
  exists n,
    history (gui (state_of
      (exec (cancel_before 40) 0
         (evaluateMultiple (demo_params Slice) demo_request
            (Some progressWorker)) demo_state)))
    = (history (gui demo_state) ++
       map (plot_of (demo_params Slice)) (take n (selected demo_request)))%list.
Proof.
  destruct (aborted_series_keeps_finished_plots (cancel_before 40)
              (demo_params Slice) demo_request demo_state)
    as (n & Hn & _).
  - discriminate.
  - exists n. exact Hn.
Defined.

End AbortedSeries.

(* ===================================================================== *)
(** ** Aborted runs and the shared parameter store *)
(* ===================================================================== *)

Section AbortedRuns.
Import PyStr Threading.

(** A property of the GUI state that depends on the index of the statement
    that is reached, and which statement [i] carries over to index
    [i + 1]. *)
Definition keeps_at (J : nat -> Gui -> Prop) (i : nat) (a : action) : Prop :=
  match a with
  | Call _ f | Assign f => forall g, J i g -> J (S i) (f g)
  | _ => forall g, J i g -> J (S i) g
  end.

Fixpoint keeps_from (J : nat -> Gui -> Prop) (i : nat) (p : list action)
    : Prop :=
  match p with
  | [] => True
  | a :: p' => keeps_at J i a /\ keeps_from J (S i) p'
  end.

Lemma keeps_from_cons J i a p :
  keeps_at J i a -> keeps_from J (S i) p -> keeps_from J i (a :: p).
Proof. by split. Qed.

Lemma keeps_from_app J p1 : forall p2 i,
  keeps_from J i (p1 ++ p2)%list <->
  keeps_from J i p1 /\ keeps_from J (i + length p1) p2.
Proof.
  induction p1 as [|a p1 IH]; intros p2 i; simpl.
  - rewrite Nat.add_0_r. tauto.
  - rewrite IH. replace (S i + length p1) with (i + S (length p1)) by lia.
    tauto.
Qed.

Lemma step_gui env pc a s s' :
  step env pc a s = Done s' ->
  gui s' = gui_step (gui s) a.
Proof.
  destruct a as [[[]|] x|[[]|] i n|c x|n f|f|n x]; simpl;
    try (destruct (_isRunning (self s)); [|done]);
    try (destruct (fails env pc) as [[??]|]; [done|]);
    try (by intros [= <-]); done.
Qed.

(** Whatever the environment does, a run ends in a state that satisfies
    the property at the index it has reached: the index of the statement
    that raised, or the end of the program. *)
Lemma exec_positional (J : nat -> Gui -> Prop) env :
  (forall i s, J i (gui s) -> J i (gui (stopProcess s))) ->
  forall p pc s,
    keeps_from J pc p -> J pc (gui s) ->
    match exec env pc p s with
    | Done s' => J (pc + length p) (gui s')
    | Raised _ k s' => J k (gui s')
    end.
Proof.
  intros Hstop p. induction p as [|a p IH]; intros pc s Hp Hs; simpl.
  - by rewrite Nat.add_0_r.
  - destruct Hp as [Ha Hp].
    set (s1 := if cancels env pc then stopProcess s else s).
    assert (J pc (gui s1)) as H1.
    { unfold s1. destruct (cancels env pc); [by apply Hstop|done]. }
    destruct (step env pc a s1) as [s2|e k s2] eqn:Hstep.
    + assert (J (S pc) (gui s2)) as H2.
      { rewrite (step_gui _ _ _ _ _ Hstep).
        destruct a; simpl in *; by apply Ha. }
      specialize (IH (S pc) s2 Hp H2).
      replace (pc + S (length p)) with (S pc + length p) by lia. exact IH.
    + apply step_raised in Hstep as [-> ->]. exact H1.
Qed.


(** The attribute of a window a plot routine stores its result in:
    [self.plot], and [self.arr] for a profile plot. *)
Definition installed (P : Params) (w : PlotWindow) : option PlotObj :=
  match PlotMode P with
  | Profile => arr w
  | _ => plot w
  end.

(** The index of the statement of [evaluateSingle] that builds the plot
    object. *)
Definition build_index (P : Params) : nat :=
  match PlotMode P with
  | Slice | Line => 4
  | Projection => if DomainDiv P then 5 else 4
  | Phase => if WeightFieldNone P then 5 else 4
  | Profile => 3 + length (gather P)
  end.

(** What holds when statement [i] of [evaluateSingle] is reached, for a run
    that started with the current window [c], the current dataset [d] and
    the windows [W]. *)
Definition single_inv (P : Params) (c : WinRef) (d : nat)
    (W : WinRef -> PlotWindow) (i : nat) (g : Gui) : Prop :=
  CurrentPlotWindow g = c /\
  CurrentDataSet g = d /\
  (forall r, r <> c -> windows g r = W r) /\
  (build_index P < i -> plot_var g = Some (plot_of P d)) /\
  (window_phase P < i -> installed P (windows g c) = Some (plot_of P d)).

Lemma single_inv_stop P c d W i s :
  single_inv P c d W i (gui s) -> single_inv P c d W i (gui (stopProcess s)).
Proof.
  intros (Hc & Hd & Hw & Hv & Hi).
  unfold single_inv. split; [exact Hc|]. split; [exact Hd|].
  split; [|split; [exact Hv|]].
  - intros r Hr. rewrite stopProcess_windows, Hc.
    rewrite bool_decide_eq_false_2 by done. by apply Hw.
  - intros Hlt. rewrite stopProcess_windows, Hc.
    rewrite bool_decide_eq_true_2 by done.
    specialize (Hi Hlt). unfold installed in *.
    by destruct (PlotMode P).
Qed.

#[local] Arguments keeps_from : simpl never.
#[local] Arguments keeps_at : simpl never.

Ltac inv_effect Hc Hd Hw Hv Hi :=
  unfold same, build, draw, on_window, current;
  cbn [windows CurrentPlotWindow CurrentDataSet plot_var
       set_windows set_history set_plot_var set_isValidPlot set_oldGridUnit
       set_CurrentPlotWindow set_CurrentDataSet set_saved set_slider];
  rewrite ?Hc, ?Hd;
  split; [reflexivity|]; split; [reflexivity|];
  split; [|split];
  [ let r := fresh in let Hr := fresh in
    intros r Hr; rewrite ?decide_False by exact Hr; by apply Hw
  | let H := fresh in
    intros H; first [ exfalso; simpl in H; lia
                    | apply Hv; simpl in *; lia
                    | reflexivity ]
  | let H := fresh in
    intros H; rewrite ?decide_True by reflexivity;
    first [ exfalso; simpl in H; lia
          | unfold installed; cbn [PlotMode plot arr set_plot set_arr set_figure
              set_canvas set_hasProfile set_Param_Dict_copy set_fileInfo
              set_toolbar set_restoreSettings set_writeFileButton
              set_externalWindowButton set_visible];
            first [ apply Hi; simpl in *; lia
                  | apply Hv; simpl in *; lia ] ] ].

Ltac inv_action :=
  let g := fresh "g" in
  let Hc := fresh "Hc" in let Hd := fresh "Hd" in let Hw := fresh "Hw" in
  let Hv := fresh "Hv" in let Hi := fresh "Hi" in
  lazymatch goal with
  | |- keeps_at _ _ (Call _ _) =>
      unfold keeps_at, single_inv, build_index, window_phase;
      cbn [PlotMode DomainDiv WeightFieldNone XAxisTime gather];
      intros g (Hc & Hd & Hw & Hv & Hi); inv_effect Hc Hd Hw Hv Hi
  | |- keeps_at _ _ (Assign _) =>
      unfold keeps_at, single_inv, build_index, window_phase;
      cbn [PlotMode DomainDiv WeightFieldNone XAxisTime gather];
      intros g (Hc & Hd & Hw & Hv & Hi); inv_effect Hc Hd Hw Hv Hi
  | |- keeps_at _ _ _ =>
      unfold keeps_at, single_inv, build_index, window_phase;
      cbn [PlotMode DomainDiv WeightFieldNone XAxisTime gather];
      intros g (Hc & Hd & Hw & Hv & Hi);
      split; [exact Hc|]; split; [exact Hd|]; split; [exact Hw|];
      split; intros ?;
      first [ exfalso; simpl in *; lia
            | apply Hv; simpl in *; lia
            | apply Hi; simpl in *; lia ]
  end.

Ltac inv_list :=
  repeat lazymatch goal with
  | |- keeps_from _ _ [] => exact I
  | |- keeps_from _ _ (_ :: _) => apply keeps_from_cons; [inv_action|]
  end.

Lemma single_inv_gather P c d W w ga : forall i,
  i + length ga <= build_index P ->
  keeps_from (single_inv P c d W) i (map (gather_action w) ga).
Proof.
  assert (build_index P <= window_phase P) as Hle.
  { unfold build_index, window_phase.
    destruct (PlotMode P), (DomainDiv P), (WeightFieldNone P); lia. }
  induction ga as [|st ga IH]; intros i Hi; [exact I|].
  simpl in Hi. cbn [map].
  apply keeps_from_cons; [|apply IH; lia].
  assert (forall g, single_inv P c d W i g -> single_inv P c d W (S i) g)
    as Hnext.
  { intros g (Hc & Hd & Hw & _ & _). unfold single_inv.
    split; [exact Hc|]. split; [exact Hd|]. split; [exact Hw|].
    split; intros ?; lia. }
  destruct st; exact Hnext.
Qed.

(** The property holds all along [evaluateSingle]. *)
Lemma single_inv_evaluateSingle P w c d W :
  keeps_from (single_inv P c d W) 0 (evaluateSingle P w).
Proof.
  destruct P as [m d2 dd wf sa ts ap xt mp ga dn dt].
  unfold evaluateSingle, modePlot; cbn [PlotMode].
  destruct m.
  - unfold SlicePlot, finallyDrawPlot, startPlot, makePlot, prepareFigure,
      copyParamDict.
    cbn [PlotMode DimMode2D]. destruct d2; simpl; inv_list.
  - unfold ProjectionPlot, finallyDrawPlot, startPlot, makePlot,
      prepareFigure, copyParamDict.
    cbn [PlotMode DimMode2D DomainDiv]. destruct dd, d2; simpl; inv_list.
  - unfold LinePlot, finallyDrawPlot, startPlot, makePlot, prepareFigure,
      copyParamDict.
    cbn [PlotMode DimMode2D Timestamp]. destruct d2, ts; simpl; inv_list.
  - unfold PhasePlot, finallyDrawPlot, startPlot, makePlot, prepareFigure,
      copyParamDict.
    cbn [PlotMode DimMode2D Timestamp WeightFieldNone].
    destruct wf, d2, ts; simpl; inv_list.
  - unfold ProfilePlot. cbn [PlotMode gather WeightFieldNone XAxisTime].
    rewrite <- !app_assoc.
    apply (keeps_from_app _ [_; _; _]). split; [inv_list|].
    cbn [length Nat.add].
    apply keeps_from_app. split.
    { apply single_inv_gather. unfold build_index; cbn [PlotMode gather].
      lia. }
    rewrite length_map.
    unfold makeProfilePlot, prepareFigure, copyParamDict.
    cbn [PlotMode AddProfile Timestamp XAxisTime manyProfiles].
    destruct wf, xt, ap, ts, mp; simpl; inv_list.
Qed.


(** What holds when statement [i] of [evaluateMultiple] is reached: from
    the sixth statement on, the current plot window is the series window of
    a selected dataset. *)
Definition series_inv (R : Request) (i : nat) (g : Gui) : Prop :=
  4 < i -> exists j, j ∈ selected R /\ CurrentPlotWindow g = SeriesWindow j.

Lemma series_inv_stop R i s :
  series_inv R i (gui s) -> series_inv R i (gui (stopProcess s)).
Proof. intros H Hi. exact (H Hi). Qed.

(** Statements that leave the reference to the current window alone. *)
Definition keeps_current (a : action) : Prop :=
  match a with
  | Call _ f | Assign f =>
      forall g, CurrentPlotWindow (f g) = CurrentPlotWindow g
  | _ => True
  end.

Ltac current_list :=
  repeat first
    [ apply List.Forall_nil
    | apply List.Forall_cons; [simpl; try done; intros; reflexivity|] ].

Lemma keeps_current_gather w l :
  Forall keeps_current (map (gather_action w) l).
Proof.
  apply Forall_map, Forall_forall. intros [n|c t|m] _; simpl; done.
Qed.

Lemma keeps_current_modePlot P w : Forall keeps_current (modePlot P w).
Proof.
  destruct P as [m d2 dd wf sa ts ap xt mp ga dn dt].
  unfold modePlot; cbn [PlotMode].
  destruct m.
  - unfold SlicePlot, finallyDrawPlot, startPlot, makePlot, prepareFigure,
      copyParamDict.
    cbn [PlotMode DimMode2D]. destruct d2; simpl; current_list.
  - unfold ProjectionPlot, finallyDrawPlot, startPlot, makePlot,
      prepareFigure, copyParamDict.
    cbn [PlotMode DimMode2D DomainDiv]. destruct dd, d2; simpl; current_list.
  - unfold LinePlot, finallyDrawPlot, startPlot, makePlot, prepareFigure,
      copyParamDict.
    cbn [PlotMode DimMode2D Timestamp]. destruct d2, ts; simpl; current_list.
  - unfold PhasePlot, finallyDrawPlot, startPlot, makePlot, prepareFigure,
      copyParamDict.
    cbn [PlotMode DimMode2D Timestamp WeightFieldNone].
    destruct wf, d2, ts; simpl; current_list.
  - unfold ProfilePlot. cbn [PlotMode gather WeightFieldNone XAxisTime].
    apply Forall_app. split; [apply keeps_current_gather|].
    unfold makeProfilePlot, prepareFigure, copyParamDict.
    cbn [PlotMode AddProfile Timestamp XAxisTime manyProfiles].
    generalize (wf && negb xt) (ts && negb xt). intros b1 b2.
    destruct b1, ap, b2, mp; simpl; current_list.
Qed.

Lemma series_inv_keeps_current R a i :
  keeps_current a -> 5 <= i -> keeps_at (series_inv R) i a.
Proof.
  intros Ha Hi.
  assert (forall g g', CurrentPlotWindow g' = CurrentPlotWindow g ->
            series_inv R i g -> series_inv R (S i) g') as Hnext.
  { intros g g' Hg H _. rewrite Hg. apply H. lia. }
  destruct a; unfold keeps_at; intros g; apply Hnext; try reflexivity;
    apply Ha.
Qed.

Lemma series_inv_list R p : forall i,
  Forall keeps_current p -> 5 <= i -> keeps_from (series_inv R) i p.
Proof.
  induction p as [|a p IH]; intros i Hp Hi; [exact I|].
  inversion Hp as [|?? Ha Hp']; subst.
  apply keeps_from_cons; [by apply series_inv_keeps_current|].
  apply IH; [done|lia].
Qed.

Lemma series_inv_install R j i :
  j ∈ selected R ->
  keeps_at (series_inv R) i (Assign (set_CurrentPlotWindow (SeriesWindow j))).
Proof. intros Hj g _ _. exists j. by split. Qed.

(** The statements of a selected round that follow the assignment of the
    current window. *)
Lemma keeps_current_round P R w j :
  Forall keeps_current
    ([ Call "CurrentPlotWindow.show" (on_window (set_visible true));
       Call "Label_Dict.setText" same;
       Assign (set_CurrentDataSet j);
       Logger debug
         ("Selected the file '" ++ ds_name P j ++ "' at " ++ ds_time P j ++
          ".") ] ++
     (if decide (PlotMode P = Profile) then [ Call "changeToProfile" same ]
      else []) ++
     modePlot P w ++
     [ Logger info
         ("Progress: " ++ str_nat (j / OnlyEvery R + 1) ++ "/" ++
          str_nat (PlotNumber R) ++ " " ++
          lower (mode_name (PlotMode P)) ++ " plots done.") ] ++
     (if MakeMovie R
      then saveFigure (Directory R ++ "/" ++ mode_name (PlotMode P) ++
                       "plot_" ++ str_nat (j + 1))
      else []) ++
     [ MultiCheckpoint w j (PlotNumber R) ])%list.
Proof.
  apply Forall_app. split; [current_list|].
  apply Forall_app. split.
  { destruct (decide (PlotMode P = Profile)); current_list. }
  apply Forall_app. split; [apply keeps_current_modePlot|].
  apply Forall_app. split; [current_list|].
  apply Forall_app. split; [|current_list].
  unfold saveFigure. destruct (MakeMovie R); current_list.
Qed.

Lemma body_selected P R w j :
  OnlyEvery R <> 0 -> j mod OnlyEvery R = 0 ->
  exists rest,
    evaluateMultiple_body P R w j j =
      (Call "CurrentPlotWindow.hide" (on_window (set_visible false)) ::
       Assign (set_CurrentPlotWindow (SeriesWindow j)) :: rest) /\
    Forall keeps_current rest.
Proof.
  intros Hk Hj. unfold evaluateMultiple_body.
  rewrite (proj2 (Nat.eqb_neq _ _) Hk), Hj. cbn [Nat.eqb].
  unfold getSliderInput. cbn [app]. eexists. split.
  - reflexivity.
  - apply (keeps_current_round P R w j).
Qed.

Lemma series_inv_loop P R w : 
  OnlyEvery R <> 0 ->
  forall n a i,
    a + n <= Length R -> 5 <= i ->
    keeps_from (series_inv R) i (evaluateMultiple_loop P R w a (seq a n)).
Proof.
  intros Hk. induction n as [|n IH]; intros a i Hlen Hi; [exact I|].
  cbn [seq evaluateMultiple_loop].
  apply keeps_from_app. split; [|apply IH; lia].
  destruct (a mod OnlyEvery R =? 0)%nat eqn:Ha.
  - apply Nat.eqb_eq in Ha.
    destruct (body_selected P R w a Hk Ha) as (rest & -> & Hrest).
    apply keeps_from_cons.
    { apply series_inv_keeps_current; [|done]. intros g. reflexivity. }
    apply keeps_from_cons.
    { apply series_inv_install. apply elem_of_selected_from. lia. }
    apply series_inv_list; [done|lia].
  - unfold evaluateMultiple_body.
    rewrite (proj2 (Nat.eqb_neq _ _) Hk), Ha. exact I.
Qed.

Lemma series_inv_early R a i :
  i < 4 -> keeps_at (series_inv R) i a.
Proof.
  intros Hi. destruct a; unfold keeps_at; intros g _ ?; lia.
Qed.

(** The property holds all along [evaluateMultiple]. *)
Lemma series_inv_evaluateMultiple P R w :
  OnlyEvery R <> 0 ->
  keeps_from (series_inv R) 0 (evaluateMultiple P R w).
Proof.
  intros Hk. unfold evaluateMultiple.
  apply (keeps_from_app _ [_; _; _]).
  split.
  { repeat (apply keeps_from_cons; [apply series_inv_early; lia|]). exact I. }
  cbn [length Nat.add].
  destruct (Length R) as [|n] eqn:Hlen.
  - simpl. apply keeps_from_cons; [apply series_inv_early; lia|exact I].
  - cbn [seq evaluateMultiple_loop].
    assert (0 mod OnlyEvery R = 0) as H0 by (by apply Nat.Div0.mod_0_l).
    destruct (body_selected P R w 0 Hk H0) as (rest & -> & Hrest).
    rewrite <- !app_assoc. cbn [app].
    apply keeps_from_cons; [apply series_inv_early; lia|].
    apply keeps_from_cons.
    { apply series_inv_install. apply elem_of_selected_from. lia. }
    apply keeps_from_app. split; [by apply series_inv_list|].
    apply keeps_from_app. split.
    + apply series_inv_loop; [done|lia|lia].
    + apply series_inv_list; [|lia]. current_list.
Qed.


(** C4 (amended).  A cancelled or failed run is not rolled back:
    [evaluateSingle] and [evaluateMultiple] stop at the statement [k] that
    raised, in the state in which that statement was reached.  In a single
    run the reference to the current window and the other windows are as
    before the run.  If [k] is no later than the first assignment to the
    window ([k <= window_phase P]: [self.plot = plot] behind the "Starting
    the plot" checkpoint of [startPlot], [self.arr = arr] at the start of
    [makeProfilePlot]), the current window is as before too, except that a
    cancel request has disabled its three buttons.  If [k] is later, the
    new plot object (the new array for a profile plot) is stored in the
    current window.  A series run with a stride of at least 1 that is
    aborted behind its fifth statement has made the series window of a
    selected dataset the current window. *)
Theorem aborted_run_is_not_rolled_back
    (env : Env) (P : Params) (R : Request) (s : State) :
  (forall p e k s',
     p = evaluateSingle P (Some progressWorker) \/
     p = evaluateMultiple P R (Some progressWorker) ->
     exec env 0 p s = Raised e k s' ->
     exists s'',
       exec env 0 (take k p) s = Done s'' /\
       s' = if cancels env k then stopProcess s'' else s'') /\
  (forall e k s',
     exec env 0 (evaluateSingle P (Some progressWorker)) s = Raised e k s' ->
     CurrentPlotWindow (gui s') = CurrentPlotWindow (gui s) /\
     (forall r, r <> CurrentPlotWindow (gui s) ->
                windows (gui s') r = windows (gui s) r) /\
     (k <= window_phase P ->
      current (gui s') =
        if cancel_requested env k then disable_buttons (current (gui s))
        else current (gui s)) /\
     (window_phase P < k ->
      installed P (current (gui s'))
        = Some (plot_of P (CurrentDataSet (gui s))))) /\
  (forall e k s',
     OnlyEvery R <> 0 ->
     exec env 0 (evaluateMultiple P R (Some progressWorker)) s
       = Raised e k s' ->
     4 < k ->
     exists j, j ∈ selected R /\ CurrentPlotWindow (gui s') = SeriesWindow j).
Proof.
  split; [|split].
  - intros p e k s' _ H.
    apply exec_raised_prefix in H as [_ H]. by rewrite Nat.sub_0_r in H.
  - intros e k s' H.
    pose proof (exec_positional
                  (single_inv P (CurrentPlotWindow (gui s))
                     (CurrentDataSet (gui s)) (windows (gui s)))
                  env (single_inv_stop P _ _ _)
                  (evaluateSingle P (Some progressWorker)) 0 s
                  (single_inv_evaluateSingle P _ _ _ _)) as Hinv.
    rewrite H in Hinv.
    destruct Hinv as (Hc & _ & Hw & _ & Hi).
    { unfold single_inv. repeat split; try done; intros ?; lia. }
    split; [exact Hc|]. split; [exact Hw|]. split.
    + intros Hk.
      destruct (before_window_phase env P s e k s' H) as [_ Hb].
      destruct (Hb Hk) as [_ Hwin].
      unfold current. rewrite Hc, Hwin.
      rewrite bool_decide_eq_true_2 by done. by rewrite andb_true_r.
    + intros Hk. unfold current. rewrite Hc. by apply Hi.
  - intros e k s' Hk H H4.
    pose proof (exec_positional (series_inv R) env (series_inv_stop R)
                  (evaluateMultiple P R (Some progressWorker)) 0 s
                  (series_inv_evaluateMultiple P R _ Hk)) as Hinv.
    rewrite H in Hinv. apply Hinv; [|done]. intros ?. lia.
Qed.

(** A slice run over a window that shows a phase plot.  Cancelled while
    the slice plot is created, the run leaves the window as it was but for
    its buttons.  Cancelled while the figure is prepared, it leaves the
    slice plot in the window.  A series of slice plots cancelled in its
    second plot has made a series window the current one. *)
Lemma aborted_run_witness :
  (let o := exec (cancel_before 3) 0 slice_run demo_previous in
   current (gui (state_of o)) = disable_buttons (current (gui demo_previous))) /\
  (let o := exec (cancel_before 13) 0 slice_run demo_previous in
   installed (demo_params Slice) (current (gui (state_of o)))
     = Some (plot_of (demo_params Slice) 0)) /\
  (let o := exec (cancel_before 40) 0
              (evaluateMultiple (demo_params Slice) demo_request
                 (Some progressWorker)) demo_previous in
   exists j, j ∈ selected demo_request /\
             CurrentPlotWindow (gui (state_of o)) = SeriesWindow j).
Proof.
  split; [|split].
  - destruct (aborted_run_is_not_rolled_back (cancel_before 3)
                (demo_params Slice) demo_request demo_previous)
      as (_ & Hsingle & _).
    destruct (Hsingle (cancelled_after "Creating the initial slice plot") 5
                (state_of (exec (cancel_before 3) 0 slice_run demo_previous)))
      as (_ & _ & Hearly & _).
    + apply raised_state. vm_compute. reflexivity.
    + apply Hearly. vm_compute. lia.
  - destruct (aborted_run_is_not_rolled_back (cancel_before 13)
                (demo_params Slice) demo_request demo_previous)
      as (_ & Hsingle & _).
    destruct (Hsingle (cancelled_after "Starting the plot") 21
                (state_of (exec (cancel_before 13) 0 slice_run demo_previous)))
      as (_ & _ & _ & Hlate).
    + apply raised_state. vm_compute. reflexivity.
    + apply Hlate. vm_compute. lia.
  - destruct (aborted_run_is_not_rolled_back (cancel_before 40)
                (demo_params Slice) demo_request demo_previous)
      as (_ & _ & Hseries).
    apply (Hseries (WorkingException
                      (cancel_message (MultiCheckpoint None 0 3)
                         WorkerBase_init)) 42).
    + discriminate.
    + apply raised_state. vm_compute. reflexivity.
    + lia.
Defined.

(** A profile run cancelled while the data are gathered stops at the
    "Starting the plot" checkpoint of [makeProfilePlot]: the new array is
    stored in the window, whose figure has not been touched. *)
Lemma aborted_profile_keeps_figure :
  let o := exec (cancel_before 3) 0
             (evaluateSingle (demo_params Profile) (Some progressWorker))
             demo_previous in
  ending o = Some (cancelled_after "Creating the initial profile plot", 6) /\
  window_phase (demo_params Profile) = 5 /\
  arr (current (gui demo_previous)) = None /\
  arr (current (gui (state_of o)))
    = Some {| obj_mode := Profile; obj_ds := 0 |} /\
  figure (current (gui (state_of o))) = figure (current (gui demo_previous)).
Proof. vm_compute. repeat split. Qed.

End AbortedRuns.

Module MainWindow.
Import PyStr Threading Dialogs.




End MainWindow.

Section SharedStore.
Import PyStr Threading.











End SharedStore.
